(** * ChatAstro: intent classifier, monetisation gate, session retention,
      data cache and payment service

    A shallow embedding of [server.js] (classifyUserQuery,
    fetchAstrologyData, processQuery, getCoordinates and the handlers of the
    chat, payment, user and session routes) and of the [PaymentService]
    class (createOrder, verifyPayment, handlePaymentFailure,
    getPaymentStatus), followed by the properties proved about them.

    Conventions of the embedding.
    - A JavaScript string is a [string]: a sequence of code units, each
      below 256 (the Latin-1 range).  On that range [toLowerCase], [trim]
      and the case-insensitive regular expression test are modelled exactly.
    - A JavaScript number that counts something is a [Z]; the quotient
      [totalScore / keywords.length] is the rational [Q].  Both operands
      are small integers, so two such quotients are the same double exactly
      when they are the same rational, and [>] on the doubles is [>] on the
      rationals.
    - A [Map] is a [gmap] keyed by strings.  The objects kept in a map are
      mutable and shared: a variable bound to [map.get(k) || {...}] is an
      [Obj], either the object stored under [k] or a fresh local one, and
      an assignment to a field of a stored object is seen through the map.
    - The clock is an input, read where the code reads it: processQuery
      reads [Date.now()] at five places, before and after the fetch and the
      generation that it awaits, and the [Env] of a request gives the value
      at each.
    - The collaborators (data provider, text generation, HMAC) are inputs:
      what they do during one request is given by its [Env], the data
      provider endpoint by endpoint, and every call made to them is
      appended to the [calls] of the server state. *)

From Stdlib Require Import QArith Ascii.
From stdpp Require Import gmap strings list fin_maps.

Local Open Scope Z_scope.

(* ===================================================================== *)
(** * JavaScript strings and arrays *)
(* ===================================================================== *)

Definition code (c : ascii) : N := N_of_ascii c.

Definition between (lo hi n : N) : bool := ((lo <=? n) && (n <=? hi))%N.

(** [String.prototype.toLowerCase], one code unit: A-Z and the Latin-1
    capitals U+00C0..U+00DE (without the multiplication sign U+00D7). *)
Definition toLowerChar (c : ascii) : ascii :=
  let n := code c in
  if between 65 90 n || (between 192 222 n && negb (n =? 215)%N)
  then ascii_of_N (n + 32) else c.

Fixpoint toLowerCase (s : string) : string :=
  match s with
  | EmptyString => EmptyString
  | String c s' => String (toLowerChar c) (toLowerCase s')
  end.

Fixpoint startsWith (s p : string) : bool :=
  match p, s with
  | EmptyString, _ => true
  | String _ _, EmptyString => false
  | String a p', String b s' => Ascii.eqb a b && startsWith s' p'
  end.

(** [s.includes(p)] *)
Fixpoint includes (s p : string) : bool :=
  startsWith s p ||
  match s with
  | EmptyString => false
  | String _ s' => includes s' p
  end.

(** [s.split(sep)] for a separator of one character. *)
Fixpoint split (sep : ascii) (s : string) : list string :=
  match s with
  | EmptyString => [EmptyString]
  | String c s' =>
      if Ascii.eqb c sep then EmptyString :: split sep s'
      else match split sep s' with
           | h :: t => String c h :: t
           | [] => [String c EmptyString]
           end
  end.

(** [a.join(sep)] *)
Fixpoint join (sep : string) (l : list string) : string :=
  match l with
  | [] => EmptyString
  | [x] => x
  | x :: l' => x +:+ sep +:+ join sep l'
  end.

(** [a.slice(-n)] *)
Definition slice_last {A} (n : nat) (l : list A) : list A :=
  drop (length l - n)%nat l.

(** White space of [String.prototype.trim] below 256: TAB, LF, VT, FF, CR,
    SPACE and NO-BREAK SPACE. *)
Definition isWhiteSpace (c : ascii) : bool :=
  let n := code c in between 9 13 n || (n =? 32)%N || (n =? 160)%N.

Fixpoint trimStart (s : string) : string :=
  match s with
  | EmptyString => EmptyString
  | String c s' => if isWhiteSpace c then trimStart s' else s
  end.

Fixpoint trimEnd (s : string) : string :=
  match s with
  | EmptyString => EmptyString
  | String c s' =>
      match trimEnd s' with
      | EmptyString => if isWhiteSpace c then EmptyString else String c EmptyString
      | t => String c t
      end
  end.

Definition trim (s : string) : string := trimEnd (trimStart s).

Definition strlen (s : string) : Z := Z.of_nat (String.length s).

(** Truthiness of a string: only the empty string is falsy.  A field that
    is absent from a request body is falsy as well and is written [""]. *)
Definition truthy (s : string) : bool :=
  match s with EmptyString => false | _ => true end.

(* ===================================================================== *)
(** * Regular expression [new RegExp(`\\b${keyword}\\b`, 'i')] *)
(* ===================================================================== *)

(** Word characters of [\b]: [A-Za-z0-9_]. *)
Definition isWordChar (c : ascii) : bool :=
  let n := code c in
  between 97 122 n || between 65 90 n || between 48 57 n || (n =? 95)%N.

Definition isWordAt (c : option ascii) : bool :=
  match c with Some c => isWordChar c | None => false end.

(** The assertion [\b] between two neighbouring positions. *)
Definition wordBoundary (prev next : option ascii) : bool :=
  xorb (isWordAt prev) (isWordAt next).

(** Canonicalize of the [i] flag without the [u] flag: the upper case of
    the code unit when that is one code unit, except that a code unit from
    128 on never becomes one below 128.  U+00FF and U+00B5 have their
    capitals outside Latin-1; U+00DF has a capital of two letters and
    stays. *)
Definition canonicalize (c : ascii) : N :=
  let n := code c in
  if between 97 122 n then (n - 32)%N
  else if between 224 254 n && negb (n =? 247)%N then (n - 32)%N
  else if (n =? 255)%N then 376%N
  else if (n =? 181)%N then 924%N
  else n.

Definition head_char (s : string) : option ascii :=
  match s with EmptyString => None | String c _ => Some c end.

(** Matches the literal [kw] at the start of [s] under the [i] flag and
    then the closing [\b]; [prev] is the character before the position. *)
Fixpoint matchWordHere (prev : option ascii) (kw s : string) : bool :=
  match kw with
  | EmptyString => wordBoundary prev (head_char s)
  | String k kw' =>
      match s with
      | EmptyString => false
      | String c s' =>
          (canonicalize k =? canonicalize c)%N && matchWordHere (Some c) kw' s'
      end
  end.

(** Tries every start position from left to right. *)
Fixpoint testWordFrom (prev : option ascii) (kw s : string) : bool :=
  (wordBoundary prev (head_char s) && matchWordHere prev kw s) ||
  match s with
  | EmptyString => false
  | String c s' => testWordFrom (Some c) kw s'
  end.

(** [new RegExp(`\\b${kw}\\b`, 'i').test(s)], for a keyword of letters. *)
Definition regexWordTest (kw s : string) : bool := testWordFrom None kw s.

(* ===================================================================== *)
(** * classifyUserQuery *)
(* ===================================================================== *)

Record Classification := {
  intent : string;
  confidence : Q;
  apis : list string;
  isComplex : option bool;          (* absent on the overview branch *)
  isGeneralOverview : bool
}.

Record IntentEntry := {
  i_name : string;
  i_keywords : list string;
  i_apis : list string
}.

Definition defaultApis : list string :=
  ["planetary-positions"; "basic-astro-details"].

(** The table [intents], in the order of its keys. *)
Definition intents : list IntentEntry := [
  {| i_name := "marriage";
     i_keywords := ["marry"; "marriage"; "wedding"; "spouse"; "partner";
                    "husband"; "wife"; "relationship"; "shaadi"; "vivah"];
     i_apis := defaultApis |};
  {| i_name := "career";
     i_keywords := ["career"; "job"; "work"; "profession"; "business";
                    "success"; "promotion"; "office"; "naukri"];
     i_apis := defaultApis |};
  {| i_name := "money";
     i_keywords := ["money"; "wealth"; "finance"; "income"; "salary";
                    "profit"; "rich"; "financial"; "dhan"; "paisa"];
     i_apis := defaultApis |};
  {| i_name := "health";
     i_keywords := ["health"; "disease"; "illness"; "fitness"; "medical";
                    "body"; "pain"; "healing"; "swasthya"];
     i_apis := defaultApis |};
  {| i_name := "love";
     i_keywords := ["love"; "romance"; "dating"; "boyfriend"; "girlfriend";
                    "crush"; "attraction"; "pyaar"];
     i_apis := defaultApis |};
  {| i_name := "family";
     i_keywords := ["family"; "father"; "mother"; "brother"; "sister";
                    "children"; "kids"; "parents"; "parivar"];
     i_apis := defaultApis |};
  {| i_name := "general";
     i_keywords := ["life"; "future"; "destiny"; "general"; "overall";
                    "horoscope"; "kundli"; "jyotish"];
     i_apis := defaultApis |}
].

(** One round of [keywords.forEach]: the pair is (totalScore, matches). *)
Definition scoreKeyword (query queryLower : string) (acc : Z * Z)
    (keyword : string) : Z * Z :=
  let '(totalScore, matches) := acc in
  if includes queryLower keyword then
    if regexWordTest keyword query then (totalScore + 2, matches + 1)
    else (totalScore + 1, matches + 1)
  else (totalScore, matches).

(** [matches > 0 ? totalScore / keywords.length : 0] *)
Definition intentConfidence (query queryLower : string)
    (keywords : list string) : Q :=
  let '(totalScore, matches) :=
    fold_left (scoreKeyword query queryLower) keywords (0, 0) in
  if 0 <? matches
  then Qmake totalScore (Pos.of_nat (length keywords))
  else 0%Q.

(** [a > b] on confidences. *)
Definition Qgtb (a b : Q) : bool := negb (Qle_bool a b).

(** One round of the second [forEach]: the pair is
    (bestIntent, highestConfidence). *)
Definition pickBest (query queryLower : string) (acc : string * Q)
    (e : IntentEntry) : string * Q :=
  let c := intentConfidence query queryLower (i_keywords e) in
  if Qgtb c (snd acc) then (i_name e, c) else acc.

(** [intents[bestIntent].apis] *)
Definition apisOf (name : string) : list string :=
  match List.find (fun e => String.eqb (i_name e) name) intents with
  | Some e => i_apis e
  | None => []
  end.

Definition isOverviewRequest (queryLower : string) : bool :=
  includes queryLower "general" &&
  (includes queryLower "overview" || includes queryLower "reading").

Definition classifyUserQuery (query : string) : Classification :=
  let queryLower := toLowerCase query in
  if isOverviewRequest queryLower then
    {| intent := "general_overview";
       confidence := 1%Q;
       apis := defaultApis;
       isComplex := None;
       isGeneralOverview := true |}
  else
    let '(bestIntent, highestConfidence) :=
      fold_left (pickBest query queryLower) intents ("general", 0%Q) in
    {| intent := bestIntent;
       confidence := highestConfidence;
       apis := apisOf bestIntent;
       isComplex := Some (10 <? Z.of_nat (length (split " " query)));
       isGeneralOverview := false |}.

(* ===================================================================== *)
(** * Objects held in maps *)
(* ===================================================================== *)

(** A variable bound to an object.  [obj_key = Some k] says that it is the
    very object stored under [k]: every assignment to one of its fields is
    then seen through the map as well. *)
Record Obj (A : Type) := mkObj { obj_val : A; obj_key : option string }.
Arguments mkObj {A} _ _.
Arguments obj_val {A} _.
Arguments obj_key {A} _.

(** [m.get(k) || dflt] *)
Definition mapGetOr {A} (m : gmap string A) (k : string) (dflt : A) : Obj A :=
  match m !! k with
  | Some v => mkObj v (Some k)
  | None => mkObj dflt None
  end.

(** An assignment [o.field = ...], given as the change [f] of the object. *)
Definition mutate {A} (f : A -> A) (o : Obj A) (m : gmap string A)
    : Obj A * gmap string A :=
  let v := f (obj_val o) in
  (mkObj v (obj_key o),
   match obj_key o with Some k => <[k := v]> m | None => m end).

(** [m.set(k, o)] *)
Definition mapSet {A} (k : string) (o : Obj A) (m : gmap string A)
    : Obj A * gmap string A :=
  (mkObj (obj_val o) (Some k), <[k := obj_val o]> m).

(* ===================================================================== *)
(** * Data of server.js *)
(* ===================================================================== *)

Record UsageState := {
  freeQuestionsUsed : Z;
  isPremium : bool;
  totalQuestions : Z;
  hasReceivedOverview : option bool;      (* [None]: the field is absent *)
  planType : option string;
  remainingQuestions : option Z;
  purchaseDate : option string;
  paymentId : option string
}.

(** The default of the chat handler: four fields. *)
Definition defaultUsageChat : UsageState :=
  {| freeQuestionsUsed := 0; isPremium := false; totalQuestions := 0;
     hasReceivedOverview := Some false; planType := None;
     remainingQuestions := None; purchaseDate := None; paymentId := None |}.

(** The default of processQuery and of the verify handler: three fields. *)
Definition defaultUsage : UsageState :=
  {| freeQuestionsUsed := 0; isPremium := false; totalQuestions := 0;
     hasReceivedOverview := None; planType := None;
     remainingQuestions := None; purchaseDate := None; paymentId := None |}.

Definition truthyFlag (b : option bool) : bool := default false b.

Definition markOverview (u : UsageState) : UsageState :=
  {| freeQuestionsUsed := freeQuestionsUsed u; isPremium := isPremium u;
     totalQuestions := totalQuestions u; hasReceivedOverview := Some true;
     planType := planType u; remainingQuestions := remainingQuestions u;
     purchaseDate := purchaseDate u; paymentId := paymentId u |}.

Definition incrFree (u : UsageState) : UsageState :=
  {| freeQuestionsUsed := freeQuestionsUsed u + 1; isPremium := isPremium u;
     totalQuestions := totalQuestions u;
     hasReceivedOverview := hasReceivedOverview u;
     planType := planType u; remainingQuestions := remainingQuestions u;
     purchaseDate := purchaseDate u; paymentId := paymentId u |}.

Definition incrTotal (u : UsageState) : UsageState :=
  {| freeQuestionsUsed := freeQuestionsUsed u; isPremium := isPremium u;
     totalQuestions := totalQuestions u + 1;
     hasReceivedOverview := hasReceivedOverview u;
     planType := planType u; remainingQuestions := remainingQuestions u;
     purchaseDate := purchaseDate u; paymentId := paymentId u |}.

Record BirthData := {
  birthDate : string;
  birthTime : string;
  birthPlace : string
}.

Record User := {
  fullName : string;
  gender : string;
  birthData : BirthData
}.

(** What happens when fetchAstrologyData asks one endpoint for a user's
    birth data. *)
Inductive EndpointOutcome :=
  | Responds (body : string)         (* response.ok, and the body parses *)
  | Refuses (status : Z) (statusText errorText : string)  (* not response.ok *)
  | Throws (message : string).       (* building the form, fetch, or reading
                                        the body throws *)

(** The value that fetchAstrologyData stores for an endpoint: the parsed
    body, or one of its two error objects,
    [{ error: true, status, message: `API error: ${status} ${statusText}`,
       details }] and
    [{ error: true, message: `Network error: ${message}`, fallback: true }]. *)
Inductive EndpointResult :=
  | Data (body : string)
  | ApiError (status : Z) (statusText details : string)
  | NetworkError (message : string).


(** The object [results] of fetchAstrologyData: a value for each endpoint,
    in the order in which the endpoints were first set. *)
Definition Payload := list (string * EndpointResult).

Record CacheEntry := {
  data : Payload;
  timestamp : Z;
  cacheKey : option string;
  error : bool;                      (* an absent flag is [false] *)
  fallback : bool
}.

Record MessageEntry := {
  m_user : string;
  m_bot : string;
  m_timestamp : Z;
  m_classification : string;
  m_confidence : Q;
  m_isGeneralOverview : bool
}.

Record Session := {
  messages : list MessageEntry;
  context : string;
  startTime : Z;
  queryCount : Z;
  lastActivity : option Z
}.

Definition newSession (now : Z) : Session :=
  {| messages := []; context := ""; startTime := now; queryCount := 0;
     lastActivity := None |}.

Definition incrQueryCount (s : Session) : Session :=
  {| messages := messages s; context := context s; startTime := startTime s;
     queryCount := queryCount s + 1; lastActivity := lastActivity s |}.

Definition newline : string := String (ascii_of_N 10) EmptyString.

(** [messages.push(e); context += `User: ${message}\nBot: ${response}\n`;
    lastActivity = Date.now()] *)
Definition appendExchange (e : MessageEntry) (now : Z) (s : Session) : Session :=
  {| messages := messages s ++ [e];
     context := context s +:+ "User: " +:+ m_user e +:+ newline +:+
                "Bot: " +:+ m_bot e +:+ newline;
     startTime := startTime s; queryCount := queryCount s;
     lastActivity := Some now |}.

(** [messages = messages.slice(-10);
    context = context.split('\n').slice(-20).join('\n')] *)
Definition trimSession (s : Session) : Session :=
  {| messages := slice_last 10 (messages s);
     context := join newline (slice_last 20 (split (ascii_of_N 10) (context s)));
     startTime := startTime s; queryCount := queryCount s;
     lastActivity := lastActivity s |}.

(** [if (session.messages.length > 10) { ... }] *)
Definition retain (s : Session) : Session :=
  if 10 <? Z.of_nat (length (messages s)) then trimSession s else s.

(** The values interpolated into the prompt template, in its order. *)
Record PromptContext := {
  pc_name : string;
  pc_gender : string;
  pc_birthDate : string;
  pc_birthTime : string;
  pc_birthPlace : string;
  pc_queryCount : Z;
  pc_isPremium : bool;
  pc_totalQuestions : Z;
  pc_dataKeys : list string;
  pc_data : Payload;
  pc_history : string;
  pc_intent : string;
  pc_confidence : Q;
  pc_apis : list string;
  pc_isGeneralOverview : bool
}.

(** Calls to the collaborators. *)
Inductive Call :=
  | CallFetch (bd : BirthData) (endpoints : list string)
  | CallGenerate (message : string) (ctx : PromptContext) (overview : bool).

Definition isGenerate (c : Call) : bool :=
  match c with CallGenerate _ _ _ => true | CallFetch _ _ => false end.

Record Server := {
  users : gmap string User;
  sessions : gmap string Session;
  astroCache : gmap string CacheEntry;
  userStates : gmap string UsageState;
  calls : list Call
}.

(** What the outside answers during one request: the clock at each place
    where the handler reads it, and the collaborators.  processQuery reads
    [Date.now()] for the start of a new session, for the test of the cache,
    when the fetch has come back, for the timestamp of the message entry
    and for the session's last activity; the fetch and the generation are
    awaited in between, so these are five values.  The other handlers read
    [now] or [nowISO]. *)
Record Env := {
  startedAt : Z;                     (* Date.now() in the new session *)
  now : Z;                           (* Date.now() in the test of the cache *)
  fetchedAt : Z;                     (* Date.now() after the fetch *)
  answeredAt : Z;                    (* Date.now() in the message entry *)
  activityAt : Z;                    (* Date.now() for lastActivity *)
  nowISO : string;                   (* new Date().toISOString() *)
  provider : string -> EndpointOutcome;
  genResult : string + string        (* [inr msg]: getClaudeResponse throws *)
}.

(** [obj[k] = v] on an object whose keys are kept in insertion order. *)
Fixpoint setProperty {A} (k : string) (v : A) (o : list (string * A))
    : list (string * A) :=
  match o with
  | [] => [(k, v)]
  | (k', v') :: o' =>
      if String.eqb k' k then (k', v) :: o' else (k', v') :: setProperty k v o'
  end.

(** [errorText.length > 200 ? errorText.substring(0, 200) + '...' : errorText] *)
Definition details (errorText : string) : string :=
  if 200 <? strlen errorText
  then String.substring 0 200 errorText +:+ "..."
  else errorText.

(** One turn of the loop of fetchAstrologyData: everything that goes wrong
    for the endpoint is caught there and becomes its value. *)
Definition endpointResult (outcome : EndpointOutcome) : EndpointResult :=
  match outcome with
  | Responds body => Data body
  | Refuses status statusText errorText =>
      ApiError status statusText (details errorText)
  | Throws message => NetworkError message
  end.

(** The loop of fetchAstrologyData over the endpoints, which are the names
    that classifyUserQuery gives. *)
Definition fetchResults (env : Env) (endpoints : list string) : Payload :=
  fold_left
    (fun results endpoint =>
       setProperty endpoint (endpointResult (provider env endpoint)) results)
    endpoints [].

(** [fetchAstrologyData(birthData, apiEndpoints)]: the object [results], or
    the message of an error thrown.  Nothing is thrown outside the loop,
    and the loop catches what is thrown inside. *)
Definition fetchAstrologyData (env : Env) (birthData : BirthData)
    (endpoints : list string) : Payload + string :=
  inl (fetchResults env endpoints).

Definition cacheExpiry : Z := 3600000.

Definition degradedEntry (now : Z) : CacheEntry :=
  {| data := []; timestamp := now; cacheKey := None;
     error := true; fallback := true |}.

(** The caching block of processQuery: the entry used for this message,
    the cache afterwards, and the calls made. *)
Definition resolveAstroData (env : Env) (user : User) (key : string)
    (endpoints : list string) (cache : gmap string CacheEntry)
    : CacheEntry * gmap string CacheEntry * list Call :=
  let astroData := cache !! key in
  let needsFreshData :=
    match astroData with
    | None => true
    | Some e => cacheExpiry <? now env - timestamp e
    end in
  if needsFreshData then
    match fetchAstrologyData env (birthData user) endpoints with
    | inl freshData =>
        let e := {| data := freshData; timestamp := fetchedAt env;
                    cacheKey := Some key; error := false; fallback := false |} in
        (e, <[key := e]> cache, [CallFetch (birthData user) endpoints])
    | inr _ =>
        (match astroData with
         | Some e => e
         | None => degradedEntry (fetchedAt env)
         end,
         cache, [CallFetch (birthData user) endpoints])
    end
  else (default (degradedEntry (now env)) astroData, cache, []).

(** [`${userId}_${classification.apis.join('_')}`] *)
Definition cacheKeyOf (userId : string) (c : Classification) : string :=
  userId +:+ "_" +:+ join "_" (apis c).

Definition orElse (s dflt : string) : string := if truthy s then s else dflt.

Definition buildContext (user : User) (session : Session) (userState : UsageState)
    (astroData : CacheEntry) (c : Classification) : PromptContext :=
  {| pc_name := fullName user;
     pc_gender := orElse (gender user) "not specified";
     pc_birthDate := birthDate (birthData user);
     pc_birthTime := birthTime (birthData user);
     pc_birthPlace := birthPlace (birthData user);
     pc_queryCount := queryCount session;
     pc_isPremium := isPremium userState;
     pc_totalQuestions := totalQuestions userState;
     pc_dataKeys := map fst (data astroData);
     pc_data := data astroData;
     pc_history :=
       join newline (slice_last 6 (split (ascii_of_N 10) (context session)));
     pc_intent := intent c;
     pc_confidence := confidence c;
     pc_apis := apis c;
     pc_isGeneralOverview := isGeneralOverview c |}.

Definition withSessions (m : gmap string Session) (w : Server) : Server :=
  {| users := users w; sessions := m; astroCache := astroCache w;
     userStates := userStates w; calls := calls w |}.

Definition withUserStates (m : gmap string UsageState) (w : Server) : Server :=
  {| users := users w; sessions := sessions w; astroCache := astroCache w;
     userStates := m; calls := calls w |}.

Definition withCache (m : gmap string CacheEntry) (cs : list Call)
    (w : Server) : Server :=
  {| users := users w; sessions := sessions w; astroCache := m;
     userStates := userStates w; calls := calls w ++ cs |}.

(** [processQuery(userId, message, sessionId)]: the text, or the message of
    the error thrown. *)
Definition processQuery (env : Env) (userId message sessionId : string)
    (w : Server) : (string + string) * Server :=
  match users w !! userId with
  | None => (inr "User not found", w)
  | Some user =>
      let userState := mapGetOr (userStates w) userId defaultUsage in
      let session :=
        mapGetOr (sessions w) sessionId (newSession (startedAt env)) in
      let '(session, sm) := mutate incrQueryCount session (sessions w) in
      let '(userState, um) := mutate incrTotal userState (userStates w) in
      let classification := classifyUserQuery message in
      let key := cacheKeyOf userId classification in
      let '(astroData, cache, fetched) :=
        resolveAstroData env user key (apis classification) (astroCache w) in
      let ctx := buildContext user (obj_val session) (obj_val userState)
                   astroData classification in
      let w1 := withCache cache
                  (fetched ++
                   [CallGenerate message ctx (isGeneralOverview classification)])
                  (withUserStates um (withSessions sm w)) in
      match genResult env with
      | inr err => (inr err, w1)
      | inl response =>
          let messageEntry :=
            {| m_user := message; m_bot := response;
               m_timestamp := answeredAt env;
               m_classification := intent classification;
               m_confidence := confidence classification;
               m_isGeneralOverview := isGeneralOverview classification |} in
          let '(session, sm) :=
            mutate (appendExchange messageEntry (activityAt env)) session sm in
          let '(session, sm) := mutate retain session sm in
          let '(_, sm) := mapSet sessionId session sm in
          let '(_, um) := mapSet userId userState um in
          (inl response, withUserStates um (withSessions sm w1))
      end
  end.

Record ChatRequest := {
  req_userId : string;
  req_sessionId : string;
  req_message : string
}.

Inductive ChatResponse :=
  | BadRequest (message : string)                                   (* 400 *)
  | PaymentRequired (message : string) (freeUsed : Z) (premium : bool) (* 402 *)
  | ChatOk (response sessionId : string) (freeUsed : Z) (premium : bool)
           (overview : option bool)                                 (* 200 *)
  | ChatError (message : string) (claudeTroubleshooting : bool).    (* 500 *)

(** The value of a handle now, after calls that may have changed the object
    through the map. *)
Definition current {A} (o : Obj A) (m : gmap string A) : A :=
  match obj_key o with
  | Some k => default (obj_val o) (m !! k)
  | None => obj_val o
  end.

(** The handler of POST /api/chat/message. *)
Definition chatMessage (env : Env) (req : ChatRequest) (w : Server)
    : ChatResponse * Server :=
  let userId := req_userId req in
  let sessionId := req_sessionId req in
  let message := req_message req in
  if negb (truthy userId) || negb (truthy sessionId) || negb (truthy message)
  then (BadRequest
          "Missing required fields: userId, sessionId, and message are required", w)
  else if strlen (trim message) =? 0
  then (BadRequest "Message cannot be empty", w)
  else if 1000 <? strlen message
  then (BadRequest "Message too long. Please keep it under 1000 characters.", w)
  else
    let userState := mapGetOr (userStates w) userId defaultUsageChat in
    let classification := classifyUserQuery (trim message) in
    let isGeneralOverview :=
      isGeneralOverview classification &&
      negb (truthyFlag (hasReceivedOverview (obj_val userState))) in
    let gate : option (Obj UsageState * gmap string UsageState) :=
      if isGeneralOverview then
        let '(userState, um) := mutate markOverview userState (userStates w) in
        Some (mapSet userId userState um)
      else if negb (isPremium (obj_val userState)) &&
              (10 <=? freeQuestionsUsed (obj_val userState))
      then None
      else if negb (isPremium (obj_val userState)) then
        let '(userState, um) := mutate incrFree userState (userStates w) in
        Some (mapSet userId userState um)
      else Some (userState, userStates w) in
    match gate with
    | None =>
        (PaymentRequired
           "Free question limit reached. Please purchase a plan to continue."
           (freeQuestionsUsed (obj_val userState))
           (isPremium (obj_val userState)), w)
    | Some (userState, um) =>
        match processQuery env userId (trim message) sessionId
                (withUserStates um w) with
        | (inl response, w') =>
            let u := current userState (userStates w') in
            (ChatOk response sessionId (freeQuestionsUsed u) (isPremium u)
               (hasReceivedOverview u), w')
        | (inr err, w') => (ChatError err (includes err "Claude API"), w')
        end
    end.

(* ===================================================================== *)
(** * PaymentService *)
(* ===================================================================== *)

Record Plan := {
  questions : Z;
  price : Z;
  plan_name : string
}.

Definition plans : list (string * Plan) := [
  ("basic", {| questions := 5; price := 199; plan_name := "Basic Plan" |});
  ("standard", {| questions := 10; price := 299; plan_name := "Standard Plan" |});
  ("premium", {| questions := 20; price := 399; plan_name := "Premium Plan" |});
  ("report", {| questions := 0; price := 999; plan_name := "Full Report" |})
].

Inductive OrderStatus := created | paid | failed.

(** The [errorData] argument of handlePaymentFailure, as far as the method
    looks at it: whether it is a value with properties, and its
    [description]. *)
Inductive ErrorData :=
  | ErrUndefined
  | ErrNull
  | ErrPrimitive (text : string)
  | ErrObject (description : option string).

Record Order := {
  o_id : string;
  o_amount : Z;
  o_currency : string;
  o_userId : string;
  o_planType : string;
  o_plan : Plan;
  o_status : OrderStatus;
  o_paymentId : option string;
  o_error : option ErrorData;         (* [None]: never assigned *)
  o_failedAt : option string
}.

Record PaymentRecord := {
  p_id : string;
  p_orderId : string;
  p_amount : Z;
  p_currency : string;
  p_status : string;
  p_method : string;
  p_userId : string;
  p_planType : string;
  p_plan : Plan;
  p_createdAt : string;
  p_verifiedAt : string
}.

Record PaymentService := {
  orders : gmap string Order;
  payments : gmap string PaymentRecord
}.

Record PaymentData := {
  razorpay_order_id : string;
  razorpay_payment_id : string;
  razorpay_signature : string
}.

Definition markPaid (paymentId : string) (o : Order) : Order :=
  {| o_id := o_id o; o_amount := o_amount o; o_currency := o_currency o;
     o_userId := o_userId o; o_planType := o_planType o; o_plan := o_plan o;
     o_status := paid; o_paymentId := Some paymentId;
     o_error := o_error o; o_failedAt := o_failedAt o |}.

Definition markFailed (errorData : ErrorData) (at_ : string) (o : Order) : Order :=
  {| o_id := o_id o; o_amount := o_amount o; o_currency := o_currency o;
     o_userId := o_userId o; o_planType := o_planType o; o_plan := o_plan o;
     o_status := failed; o_paymentId := o_paymentId o;
     o_error := Some errorData; o_failedAt := Some at_ |}.

Definition withOrders (m : gmap string Order) (ps : PaymentService)
    : PaymentService :=
  {| orders := m; payments := payments ps |}.

(** [errorData.description]: the property, or the message of the TypeError
    that reading it throws. *)
Definition readDescription (e : ErrorData) : option string + string :=
  match e with
  | ErrUndefined =>
      inr "Cannot read properties of undefined (reading 'description')"
  | ErrNull => inr "Cannot read properties of null (reading 'description')"
  | ErrPrimitive _ => inl None
  | ErrObject d => inl d
  end.

Record FailureResult := {
  f_success : bool;
  f_message : string;
  f_error : ErrorData
}.

(** [handlePaymentFailure(orderId, errorData)]: the object returned, or the
    message of the error thrown (the [catch] throws it again).  The order
    is changed in place before the log line reads [errorData.description]. *)
Definition handlePaymentFailure (env : Env) (orderId : string)
    (errorData : ErrorData) (ps : PaymentService)
    : (FailureResult + string) * PaymentService :=
  let ps1 :=
    match orders ps !! orderId with
    | Some order =>
        withOrders
          (<[orderId := markFailed errorData (nowISO env) order]> (orders ps)) ps
    | None => ps
    end in
  match readDescription errorData with
  | inr message => (inr message, ps1)
  | inl _ =>
      (inl {| f_success := false;
              f_message := "Payment failed. Please try again.";
              f_error := errorData |}, ps1)
  end.

Record VerifyResult := {
  v_payment : PaymentRecord;
  v_order : Order
}.

(** A keyed digest written like the gateway's, for the examples below: it
    is not HMAC-SHA256, only some function of the key and the text. *)
Definition sampleDigest (key text : string) : string :=
  "sig(" +:+ key +:+ "," +:+ text +:+ ")".

Section Payments.

(** [crypto.createHmac('sha256', key).update(text).digest('hex')], and the
    configured [RAZORPAY_KEY_SECRET]. *)
Variable hmacSha256Hex : string -> string -> string.
Variable keySecret : string.

Definition generatedSignature (orderId paymentId : string) : string :=
  hmacSha256Hex keySecret (orderId +:+ "|" +:+ paymentId).

(** The [try] block of verifyPayment. *)
Definition verifyPaymentBody (env : Env) (pd : PaymentData) (ps : PaymentService)
    : (VerifyResult + string) * PaymentService :=
  let orderId := razorpay_order_id pd in
  let paymentId := razorpay_payment_id pd in
  let signature := razorpay_signature pd in
  if negb (truthy orderId) || negb (truthy paymentId) || negb (truthy signature)
  then (inr "Missing payment verification data", ps)
  else
    match orders ps !! orderId with
    | None => (inr "Order not found", ps)
    | Some order =>
        if negb (String.eqb (generatedSignature orderId paymentId) signature)
        then (inr "Invalid payment signature", ps)
        else
          let paymentRecord :=
            {| p_id := paymentId; p_orderId := orderId;
               p_amount := o_amount order; p_currency := o_currency order;
               p_status := "captured"; p_method := "card";
               p_userId := o_userId order; p_planType := o_planType order;
               p_plan := o_plan order; p_createdAt := nowISO env;
               p_verifiedAt := nowISO env |} in
          let order := markPaid paymentId order in
          (inl {| v_payment := paymentRecord; v_order := order |},
           {| orders := <[orderId := order]> (orders ps);
              payments := <[paymentId := paymentRecord]> (payments ps) |})
    end.

(** [verifyPayment(paymentData)]: the [catch] wraps the message. *)
Definition verifyPayment (env : Env) (pd : PaymentData) (ps : PaymentService)
    : (VerifyResult + string) * PaymentService :=
  match verifyPaymentBody env pd ps with
  | (inr msg, ps') => (inr ("Payment verification failed: " +:+ msg), ps')
  | r => r
  end.

(* ===================================================================== *)
(** * The handler of POST /api/payment/verify *)
(* ===================================================================== *)

Record World := {
  server : Server;
  paymentService : PaymentService
}.

Record VerifyRequest := {
  vr_paymentData : option PaymentData;
  vr_userId : string
}.

Inductive VerifyResponse :=
  | VerifyBadRequest (message : string)                             (* 400 *)
  | VerifyOk (payment : PaymentRecord) (order : Order)
             (userState : option UsageState)                        (* 200 *)
  | VerifyError (message : string).                                 (* 500 *)

Definition applyPlan (env : Env) (r : VerifyResult) (u : UsageState) : UsageState :=
  {| freeQuestionsUsed := freeQuestionsUsed u;
     isPremium := true;
     totalQuestions := questions (o_plan (v_order r));
     hasReceivedOverview := hasReceivedOverview u;
     planType := Some (o_planType (v_order r));
     remainingQuestions := Some (questions (o_plan (v_order r)));
     purchaseDate := Some (nowISO env);
     paymentId := Some (p_id (v_payment r)) |}.

Definition paymentVerify (env : Env) (req : VerifyRequest) (w : World)
    : VerifyResponse * World :=
  match vr_paymentData req with
  | None => (VerifyBadRequest "Missing payment data or user ID", w)
  | Some paymentData =>
      if negb (truthy (vr_userId req))
      then (VerifyBadRequest "Missing payment data or user ID", w)
      else
        match verifyPayment env paymentData (paymentService w) with
        | (inr _, ps) =>
            (VerifyError "Payment verification failed",
             {| server := server w; paymentService := ps |})
        | (inl result, ps) =>
            let userId := vr_userId req in
            let userState :=
              mapGetOr (userStates (server w)) userId defaultUsage in
            let '(userState, um) :=
              mutate (applyPlan env result) userState (userStates (server w)) in
            let '(_, um) := mapSet userId userState um in
            (VerifyOk (v_payment result) (v_order result) (um !! userId),
             {| server := withUserStates um (server w); paymentService := ps |})
        end
  end.

(* ===================================================================== *)
(** * Sequences of requests *)
(* ===================================================================== *)

Inductive Op :=
  | OpMessage (env : Env) (req : ChatRequest)
  | OpVerify (env : Env) (req : VerifyRequest).

Definition step (w : World) (op : Op) : World :=
  match op with
  | OpMessage env req =>
      {| server := snd (chatMessage env req (server w));
         paymentService := paymentService w |}
  | OpVerify env req => snd (paymentVerify env req w)
  end.

Definition run (w : World) (ops : list Op) : World := fold_left step ops w.

(** The usage state a handler finds for a user. *)
Definition usageOf (w : World) (userId : string) : UsageState :=
  default defaultUsageChat (userStates (server w) !! userId).

End Payments.

(* ===================================================================== *)
(** * Notions used to state the properties *)
(* ===================================================================== *)

(** [text] contains [term] in some spelling of upper and lower case. *)
Definition containsTerm (text term : string) : Prop :=
  exists a w b, text = a +:+ w +:+ b /\ toLowerCase w = term.

(** The three checks that open the chat handler. *)
Definition validRequest (req : ChatRequest) : Prop :=
  truthy (req_userId req) = true /\ truthy (req_sessionId req) = true /\
  truthy (req_message req) = true /\
  strlen (trim (req_message req)) <> 0 /\ strlen (req_message req) <= 1000.

(** A request that the handler takes for the user's first overview. *)
Definition firstOverview (req : ChatRequest) (u : UsageState) : bool :=
  isGeneralOverview (classifyUserQuery (trim (req_message req))) &&
  negb (truthyFlag (hasReceivedOverview u)).

(** The gate of the chat handler, read off its branches: whether the
    request is turned away, and otherwise the usage state it leaves before
    processQuery runs. *)
Definition blocked (req : ChatRequest) (u : UsageState) : bool :=
  negb (firstOverview req u) && negb (isPremium u) &&
  (10 <=? freeQuestionsUsed u).

Definition gated (req : ChatRequest) (u : UsageState) : UsageState :=
  if firstOverview req u then markOverview u
  else if isPremium u then u else incrFree u.

(** What processQuery has done to an object before the generation call:
    the change [f] reaches the map only when the object is stored. *)
Definition bumpStored {A} (f : A -> A) (k : string) (m : gmap string A)
    : gmap string A :=
  match m !! k with Some v => <[k := f v]> m | None => m end.

(** The session and the usage state processQuery works on. *)
Definition sessionAt (env : Env) (w : Server) (sessionId : string) : Session :=
  incrQueryCount
    (default (newSession (startedAt env)) (sessions w !! sessionId)).

Definition usageAt (w : Server) (userId : string) : UsageState :=
  incrTotal (default defaultUsage (userStates w !! userId)).

Definition entryOf (env : Env) (message response : string) : MessageEntry :=
  let c := classifyUserQuery message in
  {| m_user := message; m_bot := response; m_timestamp := answeredAt env;
     m_classification := intent c; m_confidence := confidence c;
     m_isGeneralOverview := isGeneralOverview c |}.

Definition astroOf (env : Env) (w : Server) (user : User)
    (userId message : string) :=
  let c := classifyUserQuery message in
  resolveAstroData env user (cacheKeyOf userId c) (apis c) (astroCache w).

Definition callsOf (env : Env) (w : Server) (user : User)
    (userId message sessionId : string) : list Call :=
  let c := classifyUserQuery message in
  let r := astroOf env w user userId message in
  r.2 ++ [CallGenerate message
            (buildContext user (sessionAt env w sessionId) (usageAt w userId)
               r.1.1 c)
            (isGeneralOverview c)].

(** How a usage state may differ from an earlier one of the same user. *)
Definition usageGrows (u u' : UsageState) : Prop :=
  freeQuestionsUsed u <= freeQuestionsUsed u' /\
  (isPremium u = true -> isPremium u' = true) /\
  (truthyFlag (hasReceivedOverview u) = true ->
   truthyFlag (hasReceivedOverview u') = true) /\
  ((isPremium u = false -> freeQuestionsUsed u <= 10) ->
   isPremium u' = false -> freeQuestionsUsed u' <= 10).

(** ** A small installation for the examples *)

Definition asha : User :=
  {| fullName := "Asha"; gender := "female";
     birthData := {| birthDate := "1995-03-12"; birthTime := "04:30";
                     birthPlace := "Mumbai" |} |}.

(** The server after POST /api/user/create has made the user "u1". *)
Definition server1 : Server :=
  {| users := {[ "u1" := asha ]}; sessions := ∅; astroCache := ∅;
     userStates := {[ "u1" := defaultUsageChat ]}; calls := [] |}.

Definition order1 : Order :=
  {| o_id := "order_1"; o_amount := 29900; o_currency := "INR";
     o_userId := "u1"; o_planType := "standard";
     o_plan := {| questions := 10; price := 299; plan_name := "Standard Plan" |};
     o_status := created; o_paymentId := None; o_error := None;
     o_failedAt := None |}.

Definition payments1 : PaymentService :=
  {| orders := {[ "order_1" := order1 ]}; payments := ∅ |}.

Definition world1 : World :=
  {| server := server1; paymentService := payments1 |}.

(** A request that starts at the time [t]: the fetch takes 300 ms and the
    generation 2 s.  The examples are numbered: number [n] starts 10 n
    seconds after the clock's zero. *)
Definition envAt (t : Z) (provider : string -> EndpointOutcome)
    (genResult : string + string) : Env :=
  {| startedAt := t; now := t; fetchedAt := t + 300;
     answeredAt := t + 2300; activityAt := t + 2300;
     nowISO := "2025-07-16T10:00:00.000Z";
     provider := provider; genResult := genResult |}.

Definition providerUp : string -> EndpointOutcome :=
  fun endpoint => Responds "{}".

Definition providerDown : string -> EndpointOutcome :=
  fun endpoint => Throws "request to the provider failed".

Definition envOk (n : Z) (reply : string) : Env :=
  envAt (10000 * n) providerUp (inl reply).

Definition envGenFails (n : Z) : Env :=
  envAt (10000 * n) providerUp (inr "Claude API error: 529 - overloaded").

(** The provider cannot be reached. *)
Definition envProviderDown (n : Z) (reply : string) : Env :=
  envAt (10000 * n) providerDown (inl reply).

Definition ask (message : string) : ChatRequest :=
  {| req_userId := "u1"; req_sessionId := "s1"; req_message := message |}.

#[global] Instance validRequest_dec (req : ChatRequest) :
  Decision (validRequest req).
Proof. unfold validRequest. apply _. Defined.

Definition overviewAsk : ChatRequest :=
  ask "Please give me a general overview of my life".

(** The entry of [key] is missing or older than an hour: the cache block
    asks the provider. *)
Definition needsFresh (env : Env) (key : string)
    (cache : gmap string CacheEntry) : Prop :=
  match cache !! key with
  | None => True
  | Some e => cacheExpiry < now env - timestamp e
  end.



(** [s'] is [s] with one character replaced by another. *)
Definition oneCharChanged (s s' : string) : Prop :=
  exists a c c' b, c <> c' /\ s = a +:+ String c b /\ s' = a +:+ String c' b.

Definition isOk {A B} (r : A + B) : bool :=
  match r with inl _ => true | inr _ => false end.

Definition withSignature (signature : string) (pd : PaymentData) : PaymentData :=
  {| razorpay_order_id := razorpay_order_id pd;
     razorpay_payment_id := razorpay_payment_id pd;
     razorpay_signature := signature |}.

Definition payment1 : PaymentData :=
  {| razorpay_order_id := "order_1"; razorpay_payment_id := "pay_1";
     razorpay_signature := sampleDigest "secret" "order_1|pay_1" |}.

(** [c] occurs in [s]. *)
Fixpoint hasChar (c : ascii) (s : string) : bool :=
  match s with
  | EmptyString => false
  | String d s' => Ascii.eqb d c || hasChar c s'
  end.

(** The lines of a text: what [split('\n')] makes of it. *)
Definition linesOf (s : string) : list string := split (ascii_of_N 10) s.

(** The session after one successful exchange, as processQuery leaves it. *)
Definition exchange (env : Env) (message response : string) (s : Session)
    : Session :=
  retain (appendExchange (entryOf env message response) (activityAt env)
            (incrQueryCount s)).

Definition replyOf (env : Env) : string :=
  match genResult env with inl r => r | inr _ => "" end.

(** A conversation: the messages of one user in one session, each with what
    the collaborators answer to it. *)
Definition converse (userId sessionId : string) (w : Server)
    (turns : list (Env * string)) : Server :=
  fold_left (fun w t => (processQuery t.1 userId t.2 sessionId w).2) turns w.

Definition exchanges (turns : list (Env * string)) : list MessageEntry :=
  map (fun t => entryOf t.1 t.2 (replyOf t.1)) turns.

Definition sessionAfter (o : option Session) (turns : list (Env * string))
    : option Session :=
  fold_left
    (fun o t =>
       Some (exchange t.1 t.2 (replyOf t.1)
               (default (newSession (startedAt t.1)) o)))
    turns o.

(** A reply of thirty lines. *)
Definition longReply : string := join newline (replicate 30 "The stars say so.").

(** The two lines that an exchange adds to the context. *)
Definition exchangeText (t : Env * string) : string :=
  "User: " +:+ t.2 +:+ newline +:+ "Bot: " +:+ replyOf t.1 +:+ newline.

(** Everything said in the exchanges, uncut. *)
Definition transcript (turns : list (Env * string)) : string :=
  fold_left (fun text t => text +:+ exchangeText t) turns "".

(** [text.split('\n').slice(-n).join('\n')] *)
Definition lastLines (n : nat) (text : string) : string :=
  join newline (slice_last n (linesOf text)).

(** The context in the words of the retention rule (C8): every exchange
    adds its two lines, and from the eleventh exchange on the context is
    cut, after each, to its last 20 lines.  The first component counts the
    exchanges. *)
Definition contextStep (acc : nat * string) (t : Env * string)
    : nat * string :=
  let text := acc.2 +:+ exchangeText t in
  (S acc.1, if (10 <=? acc.1)%nat then lastLines 20 text else text).

Definition contextAfter (turns : list (Env * string)) : string :=
  (fold_left contextStep turns (0%nat, "")).2.

(** Fifteen successful exchanges, numbered 1 to 15. *)
Definition fifteenTurns : list (Env * string) :=
  map (fun t => (envOk t "The stars are kind.", "What about my career?"))
    [1; 2; 3; 4; 5; 6; 7; 8; 9; 10; 11; 12; 13; 14; 15].

(** ** A whole word, in the words of the specification *)

Fixpoint lastChar (s : string) : option ascii :=
  match s with
  | EmptyString => None
  | String c EmptyString => Some c
  | String _ s' => lastChar s'
  end.

(** [term] occurs in [text], in some spelling of upper and lower case, with
    no word character directly before it and none directly after it. *)
Definition wholeWord (text term : string) : Prop :=
  exists a w b, text = a +:+ w +:+ b /\ toLowerCase w = term /\
    isWordAt (lastChar a) = false /\ isWordAt (head_char b) = false.

Definition isLowerLetter (c : ascii) : bool := between 97 122 (code c).

(** A keyword as the table has them: small letters, at least one. *)
Fixpoint lettersOnly (s : string) : bool :=
  match s with
  | EmptyString => true
  | String c s' => isLowerLetter c && lettersOnly s'
  end.

Definition isKeyword (s : string) : bool := truthy s && lettersOnly s.

(** The character before a position that follows [s], when [prev] is the
    character before [s]. *)
Definition lastOr (prev : option ascii) (s : string) : option ascii :=
  match lastChar s with Some c => Some c | None => prev end.

(** ** The scoring rule in the words of the specification *)

(** The weight of one keyword: 2 when it is present as a whole word, 1 when
    it is present only as a substring, 0 when it is absent. *)
Definition keywordWeight (query keyword : string) : Z :=
  if includes (toLowerCase query) keyword then
    if regexWordTest keyword query then 2 else 1
  else 0.

Definition sumZ (l : list Z) : Z := fold_right Z.add 0 l.

(** The score of an intent: the sum of the weights of its keywords divided
    by the number of its keywords. *)
Definition specScore (query : string) (e : IntentEntry) : Q :=
  Qmake (sumZ (map (keywordWeight query) (i_keywords e)))
        (Pos.of_nat (length (i_keywords e))).

(** No keyword of any intent occurs in the text. *)
Definition noKeyword (query : string) : Prop :=
  forall e k, e ∈ intents -> k ∈ i_keywords e -> ~ containsTerm query k.

(** The user "u1" after ten counted questions. *)
Definition usageAtLimit : UsageState :=
  {| freeQuestionsUsed := 10; isPremium := false; totalQuestions := 10;
     hasReceivedOverview := Some true; planType := None;
     remainingQuestions := None; purchaseDate := None; paymentId := None |}.

Definition serverAtLimit : Server :=
  withUserStates {[ "u1" := usageAtLimit ]} server1.

(** The server after the user's first question has been answered. *)
Definition serverAfterOne : Server :=
  (chatMessage (envOk 1 "Your career looks bright.")
     (ask "What about my career?") server1).2.

(** ** Further notions and examples *)

(** The part of a usage state that only a payment writes. *)
Definition entitlement (u : UsageState)
    : bool * option string * option Z * option string * option string :=
  (isPremium u, planType u, remainingQuestions u, purchaseDate u, paymentId u).

(** A user who has used ten free questions and never had the overview. *)
Definition usageAtLimitNoOverview : UsageState :=
  {| freeQuestionsUsed := 10; isPremium := false; totalQuestions := 10;
     hasReceivedOverview := Some false; planType := None;
     remainingQuestions := None; purchaseDate := None; paymentId := None |}.

Definition serverAtLimitNoOverview : Server :=
  withUserStates {[ "u1" := usageAtLimitNoOverview ]} server1.

(** A premium user, after the standard plan was bought. *)
Definition usagePremium : UsageState :=
  {| freeQuestionsUsed := 10; isPremium := true; totalQuestions := 10;
     hasReceivedOverview := Some true; planType := Some "standard";
     remainingQuestions := Some 10;
     purchaseDate := Some "2025-07-16T10:00:00.000Z";
     paymentId := Some "pay_1" |}.

Definition serverPremium : Server :=
  withUserStates {[ "u1" := usagePremium ]} server1.

(** A request of a user id that the server has never seen. *)
Definition strangerAsk : ChatRequest :=
  {| req_userId := "nobody"; req_sessionId := "s9";
     req_message := "Will I get a new job soon?" |}.

(** A sequence of chat requests, with no payment in between. *)
Definition chatAll (w : Server) (reqs : list (Env * ChatRequest)) : Server :=
  fold_left (fun w r => (chatMessage r.1 r.2 w).2) reqs w.


(** ** More of PaymentService and of its routes *)

Record PaymentView := {
  pv_id : string;
  pv_status : string;
  pv_method : string;
  pv_verifiedAt : string
}.

Record StatusView := {
  sv_id : string;
  sv_amount : Z;
  sv_status : OrderStatus;
  sv_payment : option PaymentView       (* [None]: null *)
}.

(** [getPaymentStatus(orderId)]; [None] is null.  The view's [createdAt]
    repeats the gateway's [created_at], which the orders of this model do
    not carry. *)
Definition getPaymentStatus (orderId : string) (ps : PaymentService)
    : option StatusView :=
  match orders ps !! orderId with
  | None => None
  | Some order =>
      let payment :=
        match o_paymentId order with
        | Some pid => if truthy pid then payments ps !! pid else None
        | None => None
        end in
      Some {| sv_id := o_id order; sv_amount := o_amount order;
              sv_status := o_status order;
              sv_payment :=
                (fun p => {| pv_id := p_id p; pv_status := p_status p;
                             pv_method := p_method p;
                             pv_verifiedAt := p_verifiedAt p |}) <$> payment |}
  end.

Inductive FailureResponse :=
  | FailureBadRequest (message : string)                            (* 400 *)
  | FailureReported (message : string) (error : ErrorData)          (* 200 *)
  | FailureError (message : string).                                (* 500 *)

(** The handler of POST /api/payment/failure. *)
Definition paymentFailure (env : Env) (orderId : string)
    (errorData : ErrorData) (ps : PaymentService)
    : FailureResponse * PaymentService :=
  if negb (truthy orderId)
  then (FailureBadRequest "Order ID is required", ps)
  else
    match handlePaymentFailure env orderId errorData ps with
    | (inl result, ps') =>
        (FailureReported (f_message result) (f_error result), ps')
    | (inr _, ps') => (FailureError "Failed to handle payment failure", ps')
    end.

(** The payment record that a verification writes. *)
Definition recordOf (env : Env) (pd : PaymentData) (order : Order)
    : PaymentRecord :=
  {| p_id := razorpay_payment_id pd; p_orderId := razorpay_order_id pd;
     p_amount := o_amount order; p_currency := o_currency order;
     p_status := "captured"; p_method := "card";
     p_userId := o_userId order; p_planType := o_planType order;
     p_plan := o_plan order; p_createdAt := nowISO env;
     p_verifiedAt := nowISO env |}.

(** The three fields are there and the signature is the one computed. *)
Definition validPayment (hmac : string -> string -> string) (key : string)
    (pd : PaymentData) : Prop :=
  truthy (razorpay_order_id pd) = true /\
  truthy (razorpay_payment_id pd) = true /\
  truthy (razorpay_signature pd) = true /\
  razorpay_signature pd =
    hmac key (razorpay_order_id pd +:+ "|" +:+ razorpay_payment_id pd).

(** A second user, who has nothing to do with the order of "u1". *)
Definition verifyAs (userId : string) : VerifyRequest :=
  {| vr_paymentData := Some payment1; vr_userId := userId |}.

(** ** Object literals used as tables *)

(** The properties that every object literal inherits from
    [Object.prototype]. *)
Definition inheritedKeys : list string :=
  ["constructor"; "__defineGetter__"; "__defineSetter__"; "hasOwnProperty";
   "__lookupGetter__"; "__lookupSetter__"; "isPrototypeOf";
   "propertyIsEnumerable"; "toString"; "valueOf"; "__proto__";
   "toLocaleString"].

(** The value of [table[key]]: an entry of the literal, an inherited
    property (a function or the prototype itself, truthy and not an entry),
    or undefined. *)
Inductive Property (A : Type) :=
  | Own (v : A)
  | Inherited
  | Missing.
Arguments Own {A} _.
Arguments Inherited {A}.
Arguments Missing {A}.

Definition property {A} (table : list (string * A)) (key : string)
    : Property A :=
  match List.find (fun kv => String.eqb kv.1 key) table with
  | Some kv => Own kv.2
  | None => if bool_decide (key ∈ inheritedKeys) then Inherited else Missing
  end.

(** ** createOrder and its route *)

Record UserDetails := {
  ud_name : string;                  (* an absent property is [""] *)
  ud_email : string;
  ud_mobile : string
}.

Inductive DetailsArg :=
  | DetailsUndefined
  | DetailsNull
  | Details (d : UserDetails).

Definition noDetails : UserDetails :=
  {| ud_name := ""; ud_email := ""; ud_mobile := "" |}.

(** The argument of [razorpay.orders.create]. *)
Record GatewayRequest := {
  gr_amount : option Z;              (* [None]: NaN *)
  gr_currency : string;
  gr_receiptTime : Z;                (* `receipt_${Date.now()}` *)
  gr_userId : string;
  gr_planType : string;
  gr_userName : string;
  gr_userMobile : string
}.

Record GatewayOrder := {
  g_id : string;
  g_amount : Z;
  g_currency : string
}.

(** The gateway: the order it makes of a request, or the message of the
    error it throws. *)
Definition Gateway := GatewayRequest -> GatewayOrder + string.

(** The [order] that createOrder returns; the description
    `${plan.questions} Questions - ${planType} Plan` is given by its two
    values. *)
Record OrderView := {
  ov_id : string;
  ov_amount : Z;
  ov_currency : string;
  ov_key : string;
  ov_questions : Z;
  ov_planType : string;
  ov_prefillName : string;
  ov_prefillEmail : string;
  ov_prefillContact : string
}.

(** [createOrder(userId, planType, userDetails)]: the view returned or the
    message of the error thrown, the service afterwards, and the requests
    made to the gateway.  The result is [None] in one case that the orders
    of this model cannot hold: [planType] names an inherited property of the
    plans object and the gateway accepts an order of amount NaN for it. *)
Definition createOrder (env : Env) (gateway : Gateway) (keyId : string)
    (userId planType : string) (userDetails : DetailsArg)
    (ps : PaymentService)
    : option ((OrderView + string) * PaymentService * list GatewayRequest) :=
  match property plans planType with
  | Missing => Some (inr "Invalid plan type", ps, [])
  | found =>
      match userDetails with
      | DetailsUndefined =>
          Some (inr "Cannot read properties of undefined (reading 'name')",
                ps, [])
      | DetailsNull =>
          Some (inr "Cannot read properties of null (reading 'name')", ps, [])
      | Details d =>
          let req :=
            {| gr_amount :=
                 match found with
                 | Own plan => Some (price plan * 100)
                 | _ => None
                 end;
               gr_currency := "INR";
               gr_receiptTime := now env;
               gr_userId := userId;
               gr_planType := planType;
               gr_userName := orElse (ud_name d) "User";
               gr_userMobile := ud_mobile d |} in
          match gateway req with
          | inr err => Some (inr err, ps, [req])
          | inl razorpayOrder =>
              match found with
              | Own plan =>
                  let orderData :=
                    {| o_id := g_id razorpayOrder;
                       o_amount := g_amount razorpayOrder;
                       o_currency := g_currency razorpayOrder;
                       o_userId := userId; o_planType := planType;
                       o_plan := plan; o_status := created;
                       o_paymentId := None; o_error := None;
                       o_failedAt := None |} in
                  Some (inl {| ov_id := g_id razorpayOrder;
                               ov_amount := g_amount razorpayOrder;
                               ov_currency := g_currency razorpayOrder;
                               ov_key := keyId;
                               ov_questions := questions plan;
                               ov_planType := planType;
                               ov_prefillName := ud_name d;
                               ov_prefillEmail := ud_email d;
                               ov_prefillContact := ud_mobile d |},
                        withOrders
                          (<[g_id razorpayOrder := orderData]> (orders ps)) ps,
                        [req])
              | _ => None
              end
          end
      end
  end.

Record CreateOrderRequest := {
  co_userId : string;
  co_planType : string;
  co_userDetails : DetailsArg
}.

Inductive CreateOrderResponse :=
  | CreateBadRequest (message : string)                             (* 400 *)
  | CreateOk (order : OrderView)                                    (* 200 *)
  | CreateError (message : string).                                 (* 500 *)

Definition validPlans : list string :=
  ["basic"; "standard"; "premium"; "report"].

(** The handler of POST /api/payment/create-order. *)
Definition createOrderRoute (env : Env) (gateway : Gateway) (keyId : string)
    (req : CreateOrderRequest) (ps : PaymentService)
    : option (CreateOrderResponse * PaymentService * list GatewayRequest) :=
  let userDetails :=
    match co_userDetails req with
    | DetailsUndefined => Details noDetails
    | d => d
    end in
  if negb (truthy (co_userId req)) || negb (truthy (co_planType req))
  then Some (CreateBadRequest
               "Missing required fields: userId and planType are required",
             ps, [])
  else if negb (bool_decide (co_planType req ∈ validPlans))
  then Some (CreateBadRequest
               "Invalid plan type. Must be one of: basic, standard, premium, report",
             ps, [])
  else
    match userDetails with
    | DetailsNull => Some (CreateError "Failed to create payment order", ps, [])
    | _ =>
        match createOrder env gateway keyId (co_userId req) (co_planType req)
                userDetails ps with
        | None => None
        | Some (inl order, ps', sent) => Some (CreateOk order, ps', sent)
        | Some (inr _, ps', sent) =>
            Some (CreateError "Failed to create payment order", ps', sent)
        end
    end.

(** A gateway for the examples: it numbers the order after the receipt
    time and repeats the amount, NaN as 0. *)
Definition sampleGateway : Gateway :=
  fun req =>
    inl {| g_id := "order_" +:+ gr_userId req;
           g_amount := default 0 (gr_amount req);
           g_currency := gr_currency req |}.

Definition buyPremium : CreateOrderRequest :=
  {| co_userId := "u1"; co_planType := "premium";
     co_userDetails := DetailsUndefined |}.

(** ** getCoordinates and the creation of a user *)

Record Coordinates := {
  latitude : Q;
  longitude : Q;
  timezone : string;
  city : option string;              (* [None]: the property is absent *)
  country : option string
}.

(** A number written with four decimals, as in the table below. *)
Definition decimal4 (n : Z) : Q := Qmake n 10000.

Definition kolkataTime (lat lon : Z) : Coordinates :=
  {| latitude := decimal4 lat; longitude := decimal4 lon;
     timezone := "Asia/Kolkata"; city := None; country := None |}.

(** The table [indianCityCoordinates] of the fallback. *)
Definition indianCityCoordinates : list (string * Coordinates) := [
  ("mumbai", kolkataTime 190760 728777);
  ("delhi", kolkataTime 287041 771025);
  ("bangalore", kolkataTime 129716 775946);
  ("kolkata", kolkataTime 225726 883639);
  ("chennai", kolkataTime 130827 802707);
  ("hyderabad", kolkataTime 173850 784867);
  ("pune", kolkataTime 185204 738567)
].

(** What the geocoder gave: nothing usable (an error, a status that is not
    ok, no result, a result without geometry or components), or the fields
    read from the first result. *)
Inductive GeoReply :=
  | GeoFailure
  | GeoFirst (lat lng : Q) (tzName cityName town village countryName
              : option string).

(** [a || b] on values that are strings or undefined. *)
Definition orOpt (a b : option string) : option string :=
  match a with
  | Some s => if truthy s then a else b
  | None => b
  end.

Inductive Located :=
  | Found (c : Coordinates)
  | FoundInherited                   (* an inherited property of the table *)
  | NotFound (message : string).     (* the error thrown *)

(** [getCoordinates(location)] *)
Definition getCoordinates (reply : GeoReply) (location : string) : Located :=
  match reply with
  | GeoFirst lat lng tzName cityName town village countryName =>
      Found {| latitude := lat; longitude := lng;
               timezone := match tzName with
                           | Some name => orElse name "Asia/Kolkata"
                           | None => "Asia/Kolkata"
                           end;
               city := orOpt cityName (orOpt town village);
               country := countryName |}
  | GeoFailure =>
      let cityKey := trim (toLowerCase location) in
      match property indianCityCoordinates cityKey with
      | Own c => Found c
      | Inherited => FoundInherited
      | Missing => NotFound "Failed to get location coordinates"
      end
  end.

Definition isDigit (c : ascii) : bool := between 48 57 (code c).

(** The two regular expressions of the handler are sequences of [\d] and
    of literal characters between [^] and [$]. *)
Inductive PatternChar :=
  | PDigit
  | PChar (c : ascii).

Fixpoint matchesPattern (pattern : list PatternChar) (s : string) : bool :=
  match pattern, s with
  | [], EmptyString => true
  | PDigit :: pattern', String c s' => isDigit c && matchesPattern pattern' s'
  | PChar d :: pattern', String c s' =>
      Ascii.eqb c d && matchesPattern pattern' s'
  | _, _ => false
  end.

(** [/^\d{4}-\d{2}-\d{2}$/] *)
Definition dateRegex : list PatternChar :=
  [PDigit; PDigit; PDigit; PDigit; PChar "-"; PDigit; PDigit; PChar "-";
   PDigit; PDigit].

(** [/^\d{2}:\d{2}$/] *)
Definition timeRegex : list PatternChar :=
  [PDigit; PDigit; PChar ":"; PDigit; PDigit].

Fixpoint numberFrom (acc : Z) (s : string) : Z :=
  match s with
  | EmptyString => acc
  | String c s' => numberFrom (10 * acc + Z.of_N (code c) - 48) s'
  end.

(** [Number(s)] for a string of digits, which is all that reaches it after
    the two regular expressions. *)
Definition numberOfDigits (s : string) : Z := numberFrom 0 s.

(** The object stored in [users]. *)
Record UserObject := {
  uo_id : string;
  uo_fullName : string;
  uo_gender : string;
  uo_birthDate : string;
  uo_birthTime : string;
  uo_birthPlace : string;
  uo_day : option Z;
  uo_month : option Z;
  uo_year : option Z;
  uo_hour : option Z;
  uo_minute : option Z;
  uo_latitude : option Q;            (* [None]: undefined *)
  uo_longitude : option Q;
  uo_timezone : option string;
  uo_timezoneOffset : Q;
  uo_city : option string;
  uo_country : option string;
  uo_createdAt : string;
  uo_lastActive : string
}.

(** The part of the stored object that the chat handler and processQuery
    read. *)
Definition userOf (o : UserObject) : User :=
  {| fullName := uo_fullName o; gender := uo_gender o;
     birthData := {| birthDate := uo_birthDate o; birthTime := uo_birthTime o;
                     birthPlace := uo_birthPlace o |} |}.

Record CreateUserRequest := {
  cu_fullName : string;              (* an absent field is [""] *)
  cu_gender : string;
  cu_birthDate : string;
  cu_birthTime : string;
  cu_birthPlace : string
}.

(** What the outside gives to one creation: the geocoder's reply, the two
    results of generateId, and the time. *)
Record CreateEnv := {
  ce_geo : GeoReply;
  ce_userId : string;
  ce_sessionId : string;
  ce_nowISO : string
}.

Inductive CreateUserResponse :=
  | UserBadRequest (message : string) (missingFields : list string) (* 400 *)
  | UserCreated (id fullName gender : string)
                (locationCity locationCountry : option string)
                (sessionId : string)                                (* 200 *)
  | UserError (message : string).                                   (* 500 *)

Definition validGenders : list string := ["male"; "female"; "other"].

Definition missingFields (req : CreateUserRequest) : list string :=
  map fst
    (List.filter (fun kv : string * string => negb (truthy kv.2))
       [("fullName", cu_fullName req); ("gender", cu_gender req);
        ("birthDate", cu_birthDate req); ("birthTime", cu_birthTime req);
        ("birthPlace", cu_birthPlace req)]).

Definition buildUser (env : CreateEnv) (req : CreateUserRequest)
    (coordinates : option Coordinates) : UserObject :=
  let dateParts := map numberOfDigits (split "-" (cu_birthDate req)) in
  let timeParts := map numberOfDigits (split ":" (cu_birthTime req)) in
  {| uo_id := ce_userId env;
     uo_fullName := trim (cu_fullName req);
     uo_gender := toLowerCase (cu_gender req);
     uo_birthDate := cu_birthDate req;
     uo_birthTime := cu_birthTime req;
     uo_birthPlace := trim (cu_birthPlace req);
     uo_day := dateParts !! 2%nat;
     uo_month := dateParts !! 1%nat;
     uo_year := dateParts !! 0%nat;
     uo_hour := timeParts !! 0%nat;
     uo_minute := timeParts !! 1%nat;
     uo_latitude := latitude <$> coordinates;
     uo_longitude := longitude <$> coordinates;
     uo_timezone := timezone <$> coordinates;
     uo_timezoneOffset :=
       match coordinates with
       | Some c => if String.eqb (timezone c) "Asia/Kolkata"
                   then Qmake 11 2 else 0%Q
       | None => 0%Q
       end;
     uo_city := coordinates ≫= city;
     uo_country := coordinates ≫= country;
     uo_createdAt := ce_nowISO env;
     uo_lastActive := ce_nowISO env |}.

(** The handler of POST /api/user/create: the response, the server
    afterwards, and the object stored, if one was. *)
Definition createUser (env : CreateEnv) (req : CreateUserRequest) (w : Server)
    : CreateUserResponse * Server * option UserObject :=
  if negb (truthy (cu_fullName req)) || negb (truthy (cu_gender req)) ||
     negb (truthy (cu_birthDate req)) || negb (truthy (cu_birthTime req)) ||
     negb (truthy (cu_birthPlace req))
  then (UserBadRequest "All fields are required" (missingFields req), w, None)
  else if negb (bool_decide (toLowerCase (cu_gender req) ∈ validGenders))
  then (UserBadRequest
          "Invalid gender selection. Must be male, female, or other." [],
        w, None)
  else if negb (matchesPattern dateRegex (cu_birthDate req))
  then (UserBadRequest "Invalid birth date format. Use YYYY-MM-DD." [], w, None)
  else if negb (matchesPattern timeRegex (cu_birthTime req))
  then (UserBadRequest "Invalid birth time format. Use HH:MM." [], w, None)
  else
    match getCoordinates (ce_geo env) (cu_birthPlace req) with
    | NotFound message => (UserError message, w, None)
    | located =>
        let coordinates :=
          match located with Found c => Some c | _ => None end in
        let user := buildUser env req coordinates in
        (UserCreated (uo_id user) (uo_fullName user) (uo_gender user)
           (uo_city user) (uo_country user) (ce_sessionId env),
         {| users := <[uo_id user := userOf user]> (users w);
            sessions := sessions w; astroCache := astroCache w;
            userStates := <[uo_id user := defaultUsageChat]> (userStates w);
            calls := calls w |},
         Some user)
    end.

Fixpoint allWhite (s : string) : bool :=
  match s with
  | EmptyString => true
  | String c s' => isWhiteSpace c && allWhite s'
  end.

Definition ashaRequest : CreateUserRequest :=
  {| cu_fullName := " Asha "; cu_gender := "Female";
     cu_birthDate := "1995-03-12"; cu_birthTime := "04:30";
     cu_birthPlace := " Mumbai " |}.

Definition offlineEnv : CreateEnv :=
  {| ce_geo := GeoFailure; ce_userId := "u7"; ce_sessionId := "s7";
     ce_nowISO := "2025-07-16T10:00:00.000Z" |}.

(** ** GET /api/session/:sessionId *)

Record SessionView := {
  sn_messages : list MessageEntry;
  sn_messageCount : Z;
  sn_queryCount : Z;
  sn_startTime : Z;
  sn_lastActivity : option Z;
  sn_duration : Z
}.

(** The handler of GET /api/session/:sessionId at time [now]; [None] is the
    404. *)
Definition getSession (now : Z) (sessionId : string) (w : Server)
    : option SessionView :=
  match sessions w !! sessionId with
  | None => None
  | Some session =>
      Some {| sn_messages := messages session;
              sn_messageCount := Z.of_nat (length (messages session));
              sn_queryCount := queryCount session;
              sn_startTime := startTime session;
              sn_lastActivity := lastActivity session;
              sn_duration := now - startTime session |}
  end.

(* ===================================================================== *)
(** * Strings *)
(* ===================================================================== *)

Lemma app_cons (c : ascii) (a b : string) :
  String c a +:+ b = String c (a +:+ b).
Proof. reflexivity. Qed.

Lemma app_empty_l (s : string) : "" +:+ s = s.
Proof. reflexivity. Qed.

Lemma startsWith_app (p s : string) : startsWith (p +:+ s) p = true.
Proof.
  induction p as [|c p IH]; [by destruct s|].
  rewrite app_cons. cbn. by rewrite Ascii.eqb_refl, IH.
Qed.

Lemma includes_app (a p b : string) : includes (a +:+ p +:+ b) p = true.
Proof.
  induction a as [|c a IH].
  - rewrite app_empty_l. destruct (p +:+ b) eqn:E; cbn -[startsWith];
      rewrite <- E, startsWith_app; done.
  - rewrite app_cons. cbn -[startsWith]. rewrite IH. apply orb_true_r.
Qed.

Lemma toLowerCase_app (a b : string) :
  toLowerCase (a +:+ b) = toLowerCase a +:+ toLowerCase b.
Proof.
  induction a as [|c a IH]; [done|].
  rewrite app_cons. cbn. by rewrite IH.
Qed.

Lemma containsTerm_includes (text term : string) :
  containsTerm text term -> includes (toLowerCase text) term = true.
Proof.
  intros (a & w & b & -> & <-).
  rewrite !toLowerCase_app. apply includes_app.
Qed.

Lemma startsWith_split (s p : string) :
  startsWith s p = true -> exists b, s = p +:+ b.
Proof.
  revert s. induction p as [|c p IH]; intros s H.
  - by exists s.
  - destruct s as [|d s]; [done|]. cbn in H.
    apply andb_true_iff in H as [Hc Hs]. apply Ascii.eqb_eq in Hc as ->.
    destruct (IH _ Hs) as [b ->]. by exists b.
Qed.

Lemma includes_split (s p : string) :
  includes s p = true -> exists a b, s = a +:+ p +:+ b.
Proof.
  induction s as [|c s IH]; cbn -[startsWith]; intros H.
  - rewrite orb_false_r in H. destruct (startsWith_split _ _ H) as [b Hb].
    by exists "", b.
  - apply orb_true_iff in H as [H|H].
    + destruct (startsWith_split _ _ H) as [b Hb]. by exists "", b.
    + destruct (IH H) as (a & b & ->). by exists (String c a), b.
Qed.

Lemma toLowerCase_app_inv (q x y : string) :
  toLowerCase q = x +:+ y ->
  exists q1 q2, q = q1 +:+ q2 /\ toLowerCase q1 = x /\ toLowerCase q2 = y.
Proof.
  revert q. induction x as [|c x IH]; intros q H.
  - by exists "", q.
  - destruct q as [|d q]; [done|]. rewrite app_cons in H. cbn in H.
    injection H as Hc Hq. destruct (IH _ Hq) as (q1 & q2 & -> & H1 & H2).
    exists (String d q1), q2. cbn. by rewrite H1, Hc.
Qed.

(** The test of the code, [queryLower.includes(term)], is containment up
    to case. *)
Lemma includes_containsTerm (text term : string) :
  includes (toLowerCase text) term = true <-> containsTerm text term.
Proof.
  split; [|apply containsTerm_includes].
  intros H. destruct (includes_split _ _ H) as (a & b & E).
  destruct (toLowerCase_app_inv _ _ _ E) as (q1 & q2 & -> & _ & E2).
  destruct (toLowerCase_app_inv _ _ _ E2) as (w & q3 & -> & Hw & _).
  by exists q1, w, q3.
Qed.

(* ===================================================================== *)
(** * The classifier *)
(* ===================================================================== *)

Example classify_job :
  let c := classifyUserQuery "Will I get a new JOB soon?" in
  intent c = "career" /\ confidence c = Qmake 2 9.
Proof. vm_compute. split; reflexivity. Qed.

Example classify_substring_only :
  let c := classifyUserQuery "my jobs and workload" in
  intent c = "career" /\ confidence c = Qmake 2 9.
Proof. vm_compute. split; reflexivity. Qed.

Example classify_nothing :
  let c := classifyUserQuery "hello there" in
  intent c = "general" /\ confidence c = 0%Q.
Proof. vm_compute. split; reflexivity. Qed.

(** C4.  A text that contains a "general" term together with an "overview"
    or a "reading" term, in any spelling of case and whatever else it
    contains, is classified as general_overview with confidence exactly 1
    and isGeneralOverview true. *)
Theorem classify_general_overview (text : string) :
  containsTerm text "general" ->
  containsTerm text "overview" \/ containsTerm text "reading" ->
  intent (classifyUserQuery text) = "general_overview" /\
  confidence (classifyUserQuery text) = 1%Q /\
  isGeneralOverview (classifyUserQuery text) = true.
Proof.
  intros Hg Hor. unfold classifyUserQuery, isOverviewRequest.
  rewrite (containsTerm_includes _ _ Hg).
  assert (includes (toLowerCase text) "overview"
          || includes (toLowerCase text) "reading" = true) as ->.
  { apply orb_true_iff.
    destruct Hor as [H|H]; [left|right]; by apply containsTerm_includes. }
  done.
Qed.

Lemma classify_general_overview_witness :
  let text := "Please give me a GENERAL Reading on marriage, career and money" in
  containsTerm text "general" /\ containsTerm text "reading" /\
  intent (classifyUserQuery text) = "general_overview" /\
  confidence (classifyUserQuery text) = 1%Q /\
  isGeneralOverview (classifyUserQuery text) = true.
Proof.
  assert (containsTerm
            "Please give me a GENERAL Reading on marriage, career and money"
            "general") as Hg
    by (exists "Please give me a ", "GENERAL",
          " Reading on marriage, career and money"; split; reflexivity).
  assert (containsTerm
            "Please give me a GENERAL Reading on marriage, career and money"
            "reading") as Hr
    by (exists "Please give me a GENERAL ", "Reading",
          " on marriage, career and money"; split; reflexivity).
  split; [exact Hg|]. split; [exact Hr|].
  exact (classify_general_overview _ Hg (or_intror Hr)).
Defined.

(* ===================================================================== *)
(** * processQuery *)
(* ===================================================================== *)

Lemma processQuery_unknown env uid msg sid w :
  users w !! uid = None ->
  processQuery env uid msg sid w = (inr "User not found", w).
Proof. intros H. unfold processQuery. by rewrite H. Qed.

Ltac open_processQuery Hu :=
  unfold processQuery, bumpStored, callsOf, astroOf, sessionAt, usageAt;
  rewrite Hu; unfold mapGetOr, mutate, mapSet.

(** A failed generation: the session's and the user's counters have been
    raised in the stored objects, nothing has been stored anew. *)
Lemma processQuery_fail env uid msg sid w user err :
  users w !! uid = Some user -> genResult env = inr err ->
  processQuery env uid msg sid w =
    (inr err,
     {| users := users w;
        sessions := bumpStored incrQueryCount sid (sessions w);
        astroCache := (astroOf env w user uid msg).1.2;
        userStates := bumpStored incrTotal uid (userStates w);
        calls := calls w ++ callsOf env w user uid msg sid |}).
Proof.
  intros Hu Hg. open_processQuery Hu.
  destruct (resolveAstroData _ _ _ _ _) as [[ad cache] fetched].
  destruct (userStates w !! uid), (sessions w !! sid);
    cbv beta iota zeta; cbn [obj_val obj_key fst snd from_option id];
    rewrite Hg; reflexivity.
Qed.

(** A successful generation: the exchange is appended, the list is cut,
    and both objects are stored. *)
Lemma processQuery_ok env uid msg sid w user response :
  users w !! uid = Some user -> genResult env = inl response ->
  processQuery env uid msg sid w =
    (inl response,
     {| users := users w;
        sessions :=
          <[sid := retain (appendExchange (entryOf env msg response)
                             (activityAt env) (sessionAt env w sid))]>
            (sessions w);
        astroCache := (astroOf env w user uid msg).1.2;
        userStates := <[uid := usageAt w uid]> (userStates w);
        calls := calls w ++ callsOf env w user uid msg sid |}).
Proof.
  intros Hu Hg. open_processQuery Hu.
  destruct (resolveAstroData _ _ _ _ _) as [[ad cache] fetched].
  destruct (userStates w !! uid), (sessions w !! sid);
    cbv beta iota zeta; cbn [obj_val obj_key fst snd from_option id];
    rewrite Hg; cbv beta iota zeta;
    cbn [obj_val obj_key fst snd withUserStates withSessions withCache
         users sessions astroCache userStates calls];
    rewrite ?insert_insert_eq; reflexivity.
Qed.

(* ===================================================================== *)
(** * The chat handler *)
(* ===================================================================== *)

Lemma chatMessage_invalid env req w :
  ~ validRequest req -> exists m, chatMessage env req w = (BadRequest m, w).
Proof.
  intros Hn. unfold chatMessage.
  destruct (truthy (req_userId req)) eqn:Hu; [|by eexists].
  destruct (truthy (req_sessionId req)) eqn:Hs; [|by eexists].
  destruct (truthy (req_message req)) eqn:Hm; [|by eexists].
  cbn [negb orb].
  destruct (Z.eqb_spec (strlen (trim (req_message req))) 0); [by eexists|].
  destruct (Z.ltb_spec 1000 (strlen (req_message req))); [by eexists|].
  destruct Hn. unfold validRequest. auto.
Qed.

Ltac pass_validation req Hv :=
  let Hu := fresh in let Hs := fresh in let Hm := fresh in
  let Ht := fresh in let Hl := fresh in
  destruct Hv as (Hu & Hs & Hm & Ht & Hl);
  unfold chatMessage; rewrite Hu, Hs, Hm; cbn [negb orb];
  destruct (Z.eqb_spec (strlen (trim (req_message req))) 0) as [?|_];
    [done|];
  destruct (Z.ltb_spec 1000 (strlen (req_message req))) as [?|_]; [lia|].

Lemma chatMessage_blocked env (req : ChatRequest) w :
  let u := default defaultUsageChat (userStates w !! req_userId req) in
  validRequest req -> blocked req u = true ->
  chatMessage env req w =
    (PaymentRequired
       "Free question limit reached. Please purchase a plan to continue."
       (freeQuestionsUsed u) (isPremium u), w).
Proof.
  intros u Hv Hb. pass_validation req Hv.
  unfold blocked, firstOverview in Hb.
  apply andb_true_iff in Hb as [Hb Hq]. apply andb_true_iff in Hb as [Hf Hp].
  apply negb_true_iff in Hf.
  unfold mapGetOr. subst u.
  destruct (userStates w !! req_userId req) as [u|];
    cbn [obj_val from_option id] in *; rewrite Hf, Hp, Hq; reflexivity.
Qed.

Lemma chatMessage_passed env (req : ChatRequest) w :
  let uid := req_userId req in
  let u := default defaultUsageChat (userStates w !! uid) in
  validRequest req -> blocked req u = false ->
  chatMessage env req w =
    match processQuery env uid (trim (req_message req)) (req_sessionId req)
            (withUserStates (<[uid := gated req u]> (userStates w)) w) with
    | (inl response, w') =>
        let u' := default (gated req u) (userStates w' !! uid) in
        (ChatOk response (req_sessionId req) (freeQuestionsUsed u')
           (isPremium u') (hasReceivedOverview u'), w')
    | (inr err, w') => (ChatError err (includes err "Claude API"), w')
    end.
Proof.
  intros uid u Hv Hb. pass_validation req Hv.
  unfold blocked, gated, firstOverview in *.
  unfold mapGetOr, mutate, mapSet. subst u uid.
  destruct (userStates w !! req_userId req) as [u|] eqn:Eu;
    cbn [obj_val obj_key from_option id] in *.
  - destruct (isGeneralOverview _ && negb (truthyFlag (hasReceivedOverview u)))
      eqn:Ef; cbn [negb andb] in Hb.
    + cbv beta iota zeta. cbn [obj_val obj_key].
      rewrite insert_insert_eq. reflexivity.
    + destruct (isPremium u) eqn:Ep; cbn [negb andb] in *.
      * rewrite (insert_id _ _ _ Eu). cbn [current obj_key obj_val].
        destruct w; reflexivity.
      * rewrite Hb. cbv beta iota zeta. cbn [obj_val obj_key].
        rewrite insert_insert_eq. reflexivity.
  - destruct (isGeneralOverview _ && _) eqn:Ef; cbn [negb andb] in Hb.
    + reflexivity.
    + cbn in Hb |- *. reflexivity.
Qed.

(** C1.  A valid chat message of a non-premium user whose freeQuestionsUsed
    has reached 10, and which is not that user's first general-overview
    request, is answered 402 (payment required) with the count as it is; the
    whole server state is left as it was: the count stays, no other counter
    moves, and no call is made to the generation collaborator (or to any
    other). *)
Theorem quota_exceeded_rejects env (req : ChatRequest) w u :
  validRequest req ->
  userStates w !! req_userId req = Some u ->
  isPremium u = false ->
  10 <= freeQuestionsUsed u ->
  firstOverview req u = false ->
  (chatMessage env req w).1 =
    PaymentRequired
      "Free question limit reached. Please purchase a plan to continue."
      (freeQuestionsUsed u) false /\
  (chatMessage env req w).2 = w /\
  userStates (chatMessage env req w).2 !! req_userId req = Some u /\
  filter (fun c => isGenerate c = true) (calls (chatMessage env req w).2) =
    filter (fun c => isGenerate c = true) (calls w).
Proof.
  intros Hv Hget Hp Hq Hf.
  assert (blocked req (default defaultUsageChat
                         (userStates w !! req_userId req)) = true) as Hb.
  { rewrite Hget. cbn [from_option id]. unfold blocked. rewrite Hf, Hp.
    cbn [negb andb]. by apply Z.leb_le. }
  rewrite (chatMessage_blocked env req w Hv Hb), Hget. cbn [from_option id fst snd].
  by rewrite Hp.
Qed.

Lemma quota_exceeded_rejects_witness :
  let r := chatMessage (envOk 11 "ok") overviewAsk serverAtLimit in
  r.1 = PaymentRequired
          "Free question limit reached. Please purchase a plan to continue."
          10 false /\
  r.2 = serverAtLimit /\
  userStates r.2 !! "u1" = Some usageAtLimit /\
  filter (fun c => isGenerate c = true) (calls r.2) =
    filter (fun c => isGenerate c = true) (calls serverAtLimit).
Proof.
  apply (quota_exceeded_rejects (envOk 11 "ok") overviewAsk serverAtLimit
           usageAtLimit).
  - unfold validRequest. vm_compute. repeat split; discriminate.
  - reflexivity.
  - reflexivity.
  - vm_compute. discriminate.
  - reflexivity.
Defined.

(** What a request that passes the gate leaves in [userStates]. *)
Lemma chatMessage_userStates env (req : ChatRequest) w :
  let uid := req_userId req in
  let u := default defaultUsageChat (userStates w !! uid) in
  validRequest req -> blocked req u = false ->
  exists g, (g = gated req u \/ g = incrTotal (gated req u)) /\
    userStates (chatMessage env req w).2 = <[uid := g]> (userStates w).
Proof.
  intros uid u Hv Hb. rewrite (chatMessage_passed env req w Hv Hb).
  fold uid u. set (w0 := withUserStates _ w).
  destruct (users w0 !! uid) as [user|] eqn:Hu.
  - destruct (genResult env) as [response|err] eqn:Hg.
    + rewrite (processQuery_ok _ _ _ _ _ _ _ Hu Hg). cbn [snd userStates].
      exists (incrTotal (gated req u)). split; [by right|].
      unfold usageAt, w0. cbn [userStates withUserStates].
      rewrite lookup_insert_eq. cbn [from_option id].
      by rewrite insert_insert_eq.
    + rewrite (processQuery_fail _ _ _ _ _ _ _ Hu Hg). cbn [snd userStates].
      exists (incrTotal (gated req u)). split; [by right|].
      unfold bumpStored, w0. cbn [userStates withUserStates].
      rewrite lookup_insert_eq. by rewrite insert_insert_eq.
  - rewrite (processQuery_unknown _ _ _ _ _ Hu). cbn [snd].
    exists (gated req u). split; [by left|]. reflexivity.
Qed.

(** C3, as the code has it.  When the generation collaborator fails on a
    valid message of a known user that passed the gate, the handler answers
    500 with the collaborator's message; the session keeps its message list
    and its context, and no session is stored that was not there.  The
    request has been charged all the same: freeQuestionsUsed is one higher
    for a non-premium user unless this was the first overview (which is then
    marked as received), totalQuestions is one higher, and the queryCount of
    a session that was already stored is one higher. *)
Theorem generation_failure_effects env (req : ChatRequest) w user err :
  let uid := req_userId req in
  let sid := req_sessionId req in
  let u := default defaultUsageChat (userStates w !! uid) in
  validRequest req ->
  users w !! uid = Some user ->
  blocked req u = false ->
  genResult env = inr err ->
  (chatMessage env req w).1 = ChatError err (includes err "Claude API") /\
  (exists u', userStates (chatMessage env req w).2 !! uid = Some u' /\
     freeQuestionsUsed u' =
       freeQuestionsUsed u +
       (if firstOverview req u || isPremium u then 0 else 1) /\
     totalQuestions u' = totalQuestions u + 1 /\
     isPremium u' = isPremium u /\
     hasReceivedOverview u' =
       (if firstOverview req u then Some true else hasReceivedOverview u)) /\
  match sessions w !! sid with
  | Some s =>
      exists s', sessions (chatMessage env req w).2 !! sid = Some s' /\
        messages s' = messages s /\ context s' = context s /\
        queryCount s' = queryCount s + 1
  | None => sessions (chatMessage env req w).2 !! sid = None
  end.
Proof.
  intros uid sid u Hv Hu Hb Hg.
  rewrite (chatMessage_passed env req w Hv Hb). fold uid u sid.
  set (w0 := withUserStates _ w).
  assert (users w0 !! uid = Some user) as Hu0 by exact Hu.
  rewrite (processQuery_fail _ _ _ _ _ _ _ Hu0 Hg).
  cbn [fst snd userStates sessions]. split; [done|]. split.
  - exists (incrTotal (gated req u)). unfold bumpStored, w0.
    cbn [userStates withUserStates]. rewrite lookup_insert_eq.
    rewrite lookup_insert_eq. split; [done|].
    unfold gated. destruct (firstOverview req u), (isPremium u) eqn:Ep;
      cbn; rewrite ?Ep; repeat split; lia.
  - unfold bumpStored, w0. cbn [sessions withUserStates].
    destruct (sessions w !! sid) as [s|] eqn:Es; [|done].
    exists (incrQueryCount s). by rewrite lookup_insert_eq.
Qed.

Lemma generation_failure_effects_witness :
  let req := ask "Will I get a new job soon?" in
  let r := chatMessage (envGenFails 1000) req server1 in
  r.1 = ChatError "Claude API error: 529 - overloaded" true /\
  (exists u', userStates r.2 !! "u1" = Some u' /\
     freeQuestionsUsed u' = 1 /\ totalQuestions u' = 1 /\
     isPremium u' = false /\ hasReceivedOverview u' = Some false) /\
  sessions r.2 !! "s1" = None.
Proof.
  apply (generation_failure_effects (envGenFails 1000)
           (ask "Will I get a new job soon?") server1 asha
           "Claude API error: 529 - overloaded").
  - unfold validRequest. vm_compute. repeat split; discriminate.
  - reflexivity.
  - reflexivity.
  - reflexivity.
Defined.

(** C3 as it is worded fails.  The user has had one exchange; on the
    second message the generation fails.  The message list is as before,
    but freeQuestionsUsed, totalQuestions and the session's queryCount have
    all gone from 1 to 2. *)
Lemma generation_failure_changes_usage :
  let r := chatMessage (envGenFails 1000) (ask "Will I get a new job soon?")
             serverAfterOne in
  genResult (envGenFails 1000) = inr "Claude API error: 529 - overloaded" /\
  r.1 = ChatError "Claude API error: 529 - overloaded" true /\
  freeQuestionsUsed <$> userStates serverAfterOne !! "u1" = Some 1 /\
  totalQuestions <$> userStates serverAfterOne !! "u1" = Some 1 /\
  queryCount <$> sessions serverAfterOne !! "s1" = Some 1 /\
  freeQuestionsUsed <$> userStates r.2 !! "u1" = Some 2 /\
  totalQuestions <$> userStates r.2 !! "u1" = Some 2 /\
  queryCount <$> sessions r.2 !! "s1" = Some 2 /\
  (messages <$> sessions r.2 !! "s1") =
    (messages <$> sessions serverAfterOne !! "s1") /\
  ~ (userStates r.2 !! "u1" = userStates serverAfterOne !! "u1") /\
  ~ (sessions r.2 !! "s1" = sessions serverAfterOne !! "s1").
Proof. vm_compute. repeat split; discriminate. Qed.

(* ===================================================================== *)
(** * Usage states along a sequence of requests *)
(* ===================================================================== *)

Lemma usageGrows_refl u : usageGrows u u.
Proof. unfold usageGrows. repeat split; try done; lia. Qed.

Lemma usageGrows_trans u1 u2 u3 :
  usageGrows u1 u2 -> usageGrows u2 u3 -> usageGrows u1 u3.
Proof. unfold usageGrows. intros (?&?&?&?) (?&?&?&?). repeat split; try tauto; lia. Qed.

Lemma usageGrows_gated (req : ChatRequest) u :
  blocked req u = false -> usageGrows u (gated req u).
Proof.
  unfold blocked, gated, usageGrows.
  destruct (firstOverview req u), (isPremium u) eqn:Ep; cbn; rewrite ?Ep;
    intros Hb; repeat split; try done; try lia.
Qed.

Lemma usageGrows_incrTotal u : usageGrows u (incrTotal u).
Proof. unfold usageGrows. cbn. repeat split; try done; lia. Qed.

Lemma usageGrows_applyPlan env r u : usageGrows u (applyPlan env r u).
Proof. unfold usageGrows. cbn. repeat split; try done; lia. Qed.

Lemma chatMessage_usage env (req : ChatRequest) w uid :
  usageGrows (default defaultUsageChat (userStates w !! uid))
    (default defaultUsageChat (userStates (chatMessage env req w).2 !! uid)).
Proof.
  destruct (decide (validRequest req)) as [Hv|Hn].
  2: { destruct (chatMessage_invalid env req w Hn) as [m ->].
       apply usageGrows_refl. }
  destruct (blocked req (default defaultUsageChat
                           (userStates w !! req_userId req))) eqn:Hb.
  { rewrite (chatMessage_blocked env req w Hv Hb). apply usageGrows_refl. }
  destruct (chatMessage_userStates env req w Hv Hb) as (g & Hg & ->).
  destruct (decide (req_userId req = uid)) as [<-|Hne].
  - rewrite lookup_insert_eq. cbn [from_option id].
    destruct Hg as [->| ->].
    + by apply usageGrows_gated.
    + eapply usageGrows_trans; [by apply usageGrows_gated|].
      apply usageGrows_incrTotal.
  - rewrite lookup_insert_ne by done. apply usageGrows_refl.
Qed.

Lemma verifyPayment_cases (hmac : string -> string -> string) key env pd ps :
  (exists msg, verifyPayment hmac key env pd ps = (inr msg, ps)) \/
  (exists r ps', verifyPayment hmac key env pd ps = (inl r, ps')).
Proof.
  unfold verifyPayment, verifyPaymentBody.
  destruct (negb _ || negb _ || negb _); [left; by eexists|].
  destruct (orders ps !! _); [|left; by eexists].
  destruct (negb _); [left; by eexists|right; by eexists _, _].
Qed.

Lemma paymentVerify_usage (hmac : string -> string -> string) key env req w uid :
  usageGrows (usageOf w uid) (usageOf (paymentVerify hmac key env req w).2 uid).
Proof.
  unfold paymentVerify, usageOf.
  destruct (vr_paymentData req) as [pd|]; [|apply usageGrows_refl].
  destruct (truthy (vr_userId req)); cbn [negb]; [|apply usageGrows_refl].
  destruct (verifyPayment_cases hmac key env pd (paymentService w))
    as [[msg ->]|(r & ps' & ->)]; [apply usageGrows_refl|].
  unfold mapGetOr, mutate, mapSet.
  destruct (userStates (server w) !! vr_userId req) as [u|] eqn:Eu;
    cbv beta iota zeta; cbn [obj_val obj_key snd server userStates withUserStates];
    rewrite ?insert_insert_eq;
    (destruct (decide (vr_userId req = uid)) as [<-|Hne];
     [rewrite lookup_insert_eq, ?Eu; cbn [from_option id]
     |rewrite lookup_insert_ne by done; apply usageGrows_refl]).
  - apply usageGrows_applyPlan.
  - unfold usageGrows. cbn. repeat split; try done; lia.
Qed.

Lemma step_usage (hmac : string -> string -> string) key w op uid :
  usageGrows (usageOf w uid) (usageOf (step hmac key w op) uid).
Proof.
  destruct op as [env req|env req]; cbn [step].
  - apply chatMessage_usage.
  - apply paymentVerify_usage.
Qed.

Lemma run_usage (hmac : string -> string -> string) key ops w uid :
  usageGrows (usageOf w uid) (usageOf (run hmac key w ops) uid).
Proof.
  revert w. induction ops as [|op ops IH]; intros w; [apply usageGrows_refl|].
  cbn [run fold_left]. eapply usageGrows_trans; [apply step_usage|apply IH].
Qed.

Lemma run_app (hmac : string -> string -> string) key w ops1 ops2 :
  run hmac key w (ops1 ++ ops2) = run hmac key (run hmac key w ops1) ops2.
Proof. unfold run. apply fold_left_app. Qed.

(** From the start of the process, when no usage state is stored yet, the
    bound holds of every user after every sequence of requests. *)
Corollary free_limit_from_start (hmac : string -> string -> string) key w ops uid :
  userStates (server w) = ∅ ->
  isPremium (usageOf (run hmac key w ops) uid) = false ->
  freeQuestionsUsed (usageOf (run hmac key w ops) uid) <= 10.
Proof.
  intros Hempty. destruct (run_usage hmac key ops w uid) as (_ & _ & _ & H).
  apply H. unfold usageOf. rewrite Hempty, lookup_empty. cbn. lia.
Qed.

(** C2.  Along every sequence of chat messages and payment verifications,
    for every user: between any two points of the run freeQuestionsUsed does
    not decrease and isPremium, once true, stays true; and freeQuestionsUsed
    is at most 10 whenever isPremium is false, given that this held of the
    user at the start (as it does for a new user, who starts at 0). *)
Theorem usage_monotone (hmac : string -> string -> string) key w ops1 ops2 uid :
  (isPremium (usageOf w uid) = false -> freeQuestionsUsed (usageOf w uid) <= 10) ->
  let w1 := run hmac key w ops1 in
  let w2 := run hmac key w1 ops2 in
  freeQuestionsUsed (usageOf w1 uid) <= freeQuestionsUsed (usageOf w2 uid) /\
  (isPremium (usageOf w1 uid) = true -> isPremium (usageOf w2 uid) = true) /\
  (isPremium (usageOf w1 uid) = false -> freeQuestionsUsed (usageOf w1 uid) <= 10) /\
  (isPremium (usageOf w2 uid) = false -> freeQuestionsUsed (usageOf w2 uid) <= 10).
Proof.
  intros H0 w1 w2.
  destruct (run_usage hmac key ops1 w uid) as (_ & _ & _ & H1).
  destruct (run_usage hmac key ops2 w1 uid) as (Hle & Hp & _ & H2).
  fold w1 in H1. fold w2 in Hle, Hp, H2.
  specialize (H1 H0). specialize (H2 H1). done.
Qed.

Lemma usage_monotone_witness :
  let ops1 := [OpMessage (envOk 1 "a") (ask "What about my career?");
               OpMessage (envGenFails 2) (ask "And my health?")] in
  let ops2 := [OpMessage (envOk 3 "b") (ask "Will I marry?");
               OpVerify (envOk 4 "")
                 {| vr_paymentData :=
                      Some {| razorpay_order_id := "order_1";
                              razorpay_payment_id := "pay_1";
                              razorpay_signature :=
                                sampleDigest "secret" "order_1|pay_1" |};
                    vr_userId := "u1" |};
               OpMessage (envOk 5 "c") (ask "Tell me about money")] in
  let w1 := run sampleDigest "secret" world1 ops1 in
  let w2 := run sampleDigest "secret" w1 ops2 in
  (isPremium (usageOf world1 "u1") = false ->
   freeQuestionsUsed (usageOf world1 "u1") <= 10) /\
  freeQuestionsUsed (usageOf w1 "u1") <= freeQuestionsUsed (usageOf w2 "u1") /\
  (isPremium (usageOf w1 "u1") = true -> isPremium (usageOf w2 "u1") = true) /\
  (isPremium (usageOf w1 "u1") = false ->
   freeQuestionsUsed (usageOf w1 "u1") <= 10) /\
  (isPremium (usageOf w2 "u1") = false ->
   freeQuestionsUsed (usageOf w2 "u1") <= 10).
Proof.
  intros ops1 ops2 w1 w2.
  assert (isPremium (usageOf world1 "u1") = false ->
          freeQuestionsUsed (usageOf world1 "u1") <= 10) as H0
    by (intros _; vm_compute; discriminate).
  split; [exact H0|].
  exact (usage_monotone sampleDigest "secret" world1 ops1 ops2 "u1" H0).
Defined.

(** The run of the witness above, evaluated: three free questions are
    counted before the payment, one of them for the failed generation, and
    none after it; the payment sets totalQuestions to the 10 of the plan and
    the last message raises it to 11. *)
Example usage_run_values :
  let ops := [OpMessage (envOk 1 "a") (ask "What about my career?");
              OpMessage (envGenFails 2) (ask "And my health?");
              OpMessage (envOk 3 "b") (ask "Will I marry?");
              OpVerify (envOk 4 "")
                {| vr_paymentData :=
                     Some {| razorpay_order_id := "order_1";
                             razorpay_payment_id := "pay_1";
                             razorpay_signature :=
                               sampleDigest "secret" "order_1|pay_1" |};
                   vr_userId := "u1" |};
              OpMessage (envOk 5 "c") (ask "Tell me about money")] in
  let u := usageOf (run sampleDigest "secret" world1 ops) "u1" in
  freeQuestionsUsed u = 3 /\ isPremium u = true /\ totalQuestions u = 11.
Proof. vm_compute. repeat split. Qed.

(** Ten questions are answered, the eleventh is turned away. *)
Example eleventh_question_rejected :
  let q n := OpMessage (envOk n "ok") (ask "What about my career?") in
  let w := run sampleDigest "secret" world1 (map q [1;2;3;4;5;6;7;8;9;10]) in
  freeQuestionsUsed (usageOf w "u1") = 10 /\
  chatMessage (envOk 11 "ok") (ask "And my health?") (server w) =
    (PaymentRequired
       "Free question limit reached. Please purchase a plan to continue."
       10 false, server w).
Proof. vm_compute. split; reflexivity. Qed.

(* ===================================================================== *)
(** * The free overview *)
(* ===================================================================== *)

(** A request that is not a first overview and is not turned away is
    charged: one free question for a user who is not premium. *)
Lemma chatMessage_charged env (req : ChatRequest) w :
  let uid := req_userId req in
  let u := default defaultUsageChat (userStates w !! uid) in
  validRequest req -> firstOverview req u = false -> blocked req u = false ->
  freeQuestionsUsed
    (default defaultUsageChat (userStates (chatMessage env req w).2 !! uid)) =
  freeQuestionsUsed u + (if isPremium u then 0 else 1).
Proof.
  intros uid u Hv Hf Hb.
  destruct (chatMessage_userStates env req w Hv Hb) as (g & Hg & ->).
  fold uid. rewrite lookup_insert_eq. cbn [from_option id].
  fold uid u in Hg. unfold gated in Hg. rewrite Hf in Hg.
  destruct (isPremium u); destruct Hg as [->| ->]; cbn; lia.
Qed.

(** C10.  On a user's first general-overview request the handler stores
    hasReceivedOverview = true and only then runs processQuery, which makes
    the generation call.  If that call fails, the request is answered 500,
    the flag stays stored and no free question has been counted; after any
    further requests, every general-overview request of that user is handled
    as a chargeable question: turned away with 402 when the user is not
    premium and has used 10 free questions, and otherwise counted against
    the free questions of a user who is not premium. *)
Theorem first_overview_spent_on_failure (hmac : string -> string -> string)
    key env (req : ChatRequest) w user err :
  let uid := req_userId req in
  let u := usageOf w uid in
  validRequest req ->
  users (server w) !! uid = Some user ->
  firstOverview req u = true ->
  genResult env = inr err ->
  let w1 := step hmac key w (OpMessage env req) in
  (chatMessage env req (server w)).1 =
    ChatError err (includes err "Claude API") /\
  (chatMessage env req (server w)).2 =
    (processQuery env uid (trim (req_message req)) (req_sessionId req)
       (withUserStates (<[uid := markOverview u]> (userStates (server w)))
          (server w))).2 /\
  hasReceivedOverview (usageOf w1 uid) = Some true /\
  freeQuestionsUsed (usageOf w1 uid) = freeQuestionsUsed u /\
  forall ops env' (req' : ChatRequest),
    req_userId req' = uid -> validRequest req' ->
    let w2 := run hmac key w1 ops in
    let u2 := usageOf w2 uid in
    let r := chatMessage env' req' (server w2) in
    firstOverview req' u2 = false /\
    (isPremium u2 = false -> 10 <= freeQuestionsUsed u2 ->
     r = (PaymentRequired
            "Free question limit reached. Please purchase a plan to continue."
            (freeQuestionsUsed u2) false, server w2)) /\
    (isPremium u2 = false -> freeQuestionsUsed u2 < 10 ->
     freeQuestionsUsed (default defaultUsageChat (userStates r.2 !! uid)) =
       freeQuestionsUsed u2 + 1) /\
    (isPremium u2 = true ->
     freeQuestionsUsed (default defaultUsageChat (userStates r.2 !! uid)) =
       freeQuestionsUsed u2).
Proof.
  intros uid u Hv Hu Hf Hg w1.
  assert (blocked req (default defaultUsageChat
            (userStates (server w) !! req_userId req)) = false) as Hb.
  { unfold blocked. fold uid. fold (usageOf w uid). fold u. by rewrite Hf. }
  assert (gated req u = markOverview u) as Hgd by (unfold gated; by rewrite Hf).
  pose proof (chatMessage_passed env req (server w) Hv Hb) as Hp.
  cbv zeta in Hp. fold uid in Hp. fold (usageOf w uid) in Hp. fold u in Hp.
  rewrite Hgd in Hp.
  set (w0 := withUserStates _ (server w)) in *.
  assert (users w0 !! uid = Some user) as Hu0 by exact Hu.
  pose proof (processQuery_fail env uid (trim (req_message req))
                (req_sessionId req) w0 user err Hu0 Hg) as Hq.
  assert (usageOf w1 uid = incrTotal (markOverview u)) as Hw1.
  { unfold w1, usageOf. cbn [step server]. rewrite Hp, Hq.
    cbn [snd userStates]. unfold bumpStored, w0.
    cbn [userStates withUserStates].
    rewrite lookup_insert_eq. by rewrite lookup_insert_eq. }
  split; [by rewrite Hp, Hq|]. split; [by rewrite Hp, Hq|].
  split; [by rewrite Hw1|]. split; [by rewrite Hw1|].
  intros ops env' req' Hid Hv' w2 u2 r.
  destruct (run_usage hmac key ops w1 uid) as (_ & _ & Hflag & _).
  fold w2 in Hflag. fold u2 in Hflag. rewrite Hw1 in Hflag.
  specialize (Hflag eq_refl).
  assert (firstOverview req' u2 = false) as Hf'.
  { unfold firstOverview. rewrite Hflag. apply andb_false_r. }
  split; [exact Hf'|].
  assert (default defaultUsageChat
            (userStates (server w2) !! req_userId req') = u2) as Eu2
    by (by rewrite Hid).
  split; [|split].
  - intros Hnp Hq10. unfold r.
    rewrite (chatMessage_blocked env' req' (server w2) Hv').
    + by rewrite Eu2, Hnp.
    + rewrite Eu2. unfold blocked. rewrite Hf', Hnp. cbn [negb andb].
      by apply Z.leb_le.
  - intros Hnp Hq10. unfold r. rewrite <- Hid.
    rewrite (chatMessage_charged env' req' (server w2) Hv').
    + by rewrite Eu2, Hnp.
    + by rewrite Eu2.
    + rewrite Eu2. unfold blocked. rewrite Hf', Hnp. cbn [negb andb].
      by apply Z.leb_gt.
  - intros Hpr. unfold r. rewrite <- Hid.
    rewrite (chatMessage_charged env' req' (server w2) Hv').
    + rewrite Eu2, Hpr. lia.
    + by rewrite Eu2.
    + rewrite Eu2. unfold blocked. by rewrite Hf', Hpr.
Qed.

Lemma first_overview_spent_on_failure_witness :
  let w1 := step sampleDigest "secret" world1
              (OpMessage (envGenFails 7) overviewAsk) in
  validRequest overviewAsk /\
  firstOverview overviewAsk (usageOf world1 "u1") = true /\
  hasReceivedOverview (usageOf w1 "u1") = Some true /\
  freeQuestionsUsed (usageOf w1 "u1") = 0 /\
  forall ops (req' : ChatRequest),
    req_userId req' = "u1" -> validRequest req' ->
    firstOverview req' (usageOf (run sampleDigest "secret" w1 ops) "u1") = false.
Proof.
  intros w1.
  assert (validRequest overviewAsk) as Hv
    by (unfold validRequest; vm_compute; repeat split; discriminate).
  assert (firstOverview overviewAsk (usageOf world1 "u1") = true) as Hf
    by reflexivity.
  split; [exact Hv|]. split; [exact Hf|].
  destruct (first_overview_spent_on_failure sampleDigest "secret"
              (envGenFails 7) overviewAsk world1 asha
              "Claude API error: 529 - overloaded" Hv eq_refl Hf eq_refl)
    as (_ & _ & Hflag & Hfree & Hlater).
  split; [exact Hflag|]. split; [exact Hfree|].
  intros ops req' Hid Hv'.
  exact (proj1 (Hlater ops (envOk 8 "") req' Hid Hv')).
Defined.

(** The same user asks for the overview again after the failure: the
    request is counted as a free question. *)
Example overview_after_failure_is_charged :
  let w1 := step sampleDigest "secret" world1
              (OpMessage (envGenFails 7) overviewAsk) in
  let w2 := step sampleDigest "secret" w1
              (OpMessage (envOk 8 "Here is your reading") overviewAsk) in
  freeQuestionsUsed (usageOf w1 "u1") = 0 /\
  freeQuestionsUsed (usageOf w2 "u1") = 1.
Proof. vm_compute. split; reflexivity. Qed.

(* ===================================================================== *)
(** * The data cache *)
(* ===================================================================== *)




(** Whatever the provider does, the fetch returns and the cache block
    stores what it returned: the catch of the block is never entered. *)
Lemma resolveAstroData_fetch env user key endpoints
    (cache : gmap string CacheEntry) :
  needsFresh env key cache ->
  resolveAstroData env user key endpoints cache =
    (let e := {| data := fetchResults env endpoints;
                 timestamp := fetchedAt env; cacheKey := Some key;
                 error := false; fallback := false |} in
     (e, <[key := e]> cache, [CallFetch (birthData user) endpoints])).
Proof.
  unfold needsFresh, resolveAstroData, fetchAstrologyData.
  destruct (cache !! key) as [e|]; [|done].
  intros H. apply Z.ltb_lt in H. by rewrite H.
Qed.

(** An entry is served, without a call, until it is an hour old. *)
Lemma resolveAstroData_hit env user key endpoints
    (cache : gmap string CacheEntry) e :
  cache !! key = Some e -> now env - timestamp e <= cacheExpiry ->
  resolveAstroData env user key endpoints cache = (e, cache, []).
Proof.
  intros Hc Hle. unfold resolveAstroData. rewrite Hc.
  by destruct (Z.ltb_spec cacheExpiry (now env - timestamp e)); [lia|].
Qed.




(** A refresh is stored, and is used again within the hour without asking
    the provider. *)
Example fresh_entry_is_reused :
  let r1 := processQuery (envOk 5 "hi") "u1" "Will I get a new job?" "s1"
              server1 in
  let r2 := processQuery (envProviderDown 365 "ho") "u1"
              "Will I get a new job?" "s1" r1.2 in
  length (filter (fun c => isGenerate c = false) (calls r2.2)) = 1%nat /\
  astroCache r2.2 = astroCache r1.2.
Proof. vm_compute. split; reflexivity. Qed.

(* ===================================================================== *)
(** * PaymentService *)
(* ===================================================================== *)

Lemma oneCharChanged_neq s s' : oneCharChanged s s' -> s <> s'.
Proof.
  intros (a & c & c' & b & Hc & -> & ->) E.
  induction a as [|x a IH]; cbn in E; injection E; auto.
Qed.

Lemma oneCharChanged_truthy s s' : oneCharChanged s s' -> truthy s' = true.
Proof. intros (a & c & c' & b & _ & _ & ->). by destruct a. Qed.

(** C7.  For a request whose three fields are present and whose order is
    known, verifyPayment succeeds exactly when the supplied signature is the
    hex HMAC-SHA256 of `orderId|paymentId` under the gateway secret; any
    other signature, and in particular the valid one with a single character
    changed, fails with "Invalid payment signature" and changes nothing. *)
Theorem verifyPayment_signature (hmac : string -> string -> string) key env
    (pd : PaymentData) ps :
  let expected :=
    hmac key (razorpay_order_id pd +:+ "|" +:+ razorpay_payment_id pd) in
  is_Some (orders ps !! razorpay_order_id pd) ->
  truthy (razorpay_order_id pd) = true ->
  truthy (razorpay_payment_id pd) = true ->
  truthy (razorpay_signature pd) = true ->
  (isOk (verifyPayment hmac key env pd ps).1 = true <->
   razorpay_signature pd = expected) /\
  (razorpay_signature pd <> expected ->
   verifyPayment hmac key env pd ps =
     (inr "Payment verification failed: Invalid payment signature", ps)) /\
  (forall sig', oneCharChanged expected sig' ->
   verifyPayment hmac key env (withSignature sig' pd) ps =
     (inr "Payment verification failed: Invalid payment signature", ps)).
Proof.
  intros expected [order Ho] Hoid Hpid Hsig.
  assert (forall sig, truthy sig = true -> sig <> expected ->
            verifyPayment hmac key env (withSignature sig pd) ps =
            (inr "Payment verification failed: Invalid payment signature", ps))
    as Hbad.
  { intros sig Ht Hne. unfold verifyPayment, verifyPaymentBody.
    cbn [withSignature razorpay_order_id razorpay_payment_id razorpay_signature].
    rewrite Hoid, Hpid, Ht, Ho. cbn [negb orb].
    unfold generatedSignature. fold expected.
    destruct (String.eqb_spec expected sig) as [E|_]; [congruence|]. done. }
  assert (withSignature (razorpay_signature pd) pd = pd) as Epd by by destruct pd.
  split; [split|split].
  - intros Hok. destruct (decide (razorpay_signature pd = expected)); [done|].
    rewrite <- Epd, Hbad in Hok by done. discriminate.
  - intros E. unfold verifyPayment, verifyPaymentBody.
    rewrite Hoid, Hpid, Hsig, Ho. cbn [negb orb].
    unfold generatedSignature. fold expected. rewrite E, String.eqb_refl.
    done.
  - intros Hne. rewrite <- Epd at 1. by apply Hbad.
  - intros sig' Hm. apply Hbad.
    + by eapply oneCharChanged_truthy.
    + intros ->. by eapply oneCharChanged_neq.
Qed.

Lemma verifyPayment_signature_witness :
  is_Some (orders payments1 !! "order_1") /\
  isOk (verifyPayment sampleDigest "secret" (envOk 4 "") payment1 payments1).1
    = true /\
  verifyPayment sampleDigest "secret" (envOk 4 "")
    (withSignature "sig(secret,order_1|pay_2)" payment1) payments1 =
    (inr "Payment verification failed: Invalid payment signature", payments1).
Proof.
  assert (is_Some (orders payments1 !! "order_1")) as Ho by (by eexists).
  split; [exact Ho|].
  destruct (verifyPayment_signature sampleDigest "secret" (envOk 4 "")
              payment1 payments1 Ho eq_refl eq_refl eq_refl)
    as (Hiff & _ & Hmut).
  split; [exact (proj2 Hiff eq_refl)|].
  apply Hmut.
  exists "sig(secret,order_1|pay_", "1"%char, "2"%char, ")".
  split; [discriminate|]. split; reflexivity.
Defined.

(** A verified payment is recorded as captured and its order is paid. *)
Lemma verifyPayment_success (hmac : string -> string -> string) key env
    (pd : PaymentData) ps r ps' :
  verifyPayment hmac key env pd ps = (inl r, ps') ->
  p_status (v_payment r) = "captured" /\
  o_status (v_order r) = paid /\
  orders ps' !! razorpay_order_id pd = Some (v_order r) /\
  payments ps' !! razorpay_payment_id pd = Some (v_payment r).
Proof.
  unfold verifyPayment, verifyPaymentBody.
  destruct (negb _ || negb _ || negb _); [discriminate|].
  destruct (orders ps !! _); [|discriminate].
  destruct (negb _); [discriminate|].
  intros [= <- <-]. cbn. by rewrite !lookup_insert_eq.
Qed.

(** C9, at the input where it fails.  The route handler passes [errorData]
    on as it finds it in the body; when the body has none, the order is
    marked failed and then reading [errorData.description] for the log line
    throws: handlePaymentFailure fails, for a known order and for an unknown
    one alike. *)
Theorem handlePaymentFailure_throws_without_errorData :
  let r := handlePaymentFailure (envOk 4 "") "order_1" ErrUndefined payments1 in
  r.1 = inr "Cannot read properties of undefined (reading 'description')" /\
  o_status <$> orders r.2 !! "order_1" = Some failed /\
  (forall env orderId ps,
     isOk (handlePaymentFailure env orderId ErrUndefined ps).1 = false /\
     isOk (handlePaymentFailure env orderId ErrNull ps).1 = false).
Proof. split; [reflexivity|]. split; [reflexivity|]. intros; split; reflexivity. Qed.

(** With an [errorData] that has properties the method does not fail. *)
Lemma handlePaymentFailure_returns env orderId e ps :
  e <> ErrUndefined -> e <> ErrNull ->
  (handlePaymentFailure env orderId e ps).1 =
    inl {| f_success := false;
           f_message := "Payment failed. Please try again.";
           f_error := e |}.
Proof. intros H1 H2. unfold handlePaymentFailure. by destruct e. Qed.

Lemma handlePaymentFailure_unknown env orderId e ps :
  orders ps !! orderId = None ->
  (handlePaymentFailure env orderId e ps).2 = ps.
Proof.
  intros H. unfold handlePaymentFailure. rewrite H.
  by destruct (readDescription e).
Qed.

Lemma handlePaymentFailure_known env orderId e ps o :
  orders ps !! orderId = Some o ->
  (handlePaymentFailure env orderId e ps).2 =
    withOrders (<[orderId := markFailed e (nowISO env) o]> (orders ps)) ps /\
  exists o', orders (handlePaymentFailure env orderId e ps).2 !! orderId =
               Some o' /\
    o_status o' = failed /\ o_error o' = Some e.
Proof.
  intros H. unfold handlePaymentFailure. rewrite H.
  destruct (readDescription e); cbn [snd]; (split; [done|]);
    eexists; cbn [orders withOrders]; rewrite lookup_insert_eq; done.
Qed.

(** A second report of the same failure changes nothing but [failedAt],
    which takes the time of the later call. *)
Lemma handlePaymentFailure_again env env' orderId e ps :
  let ps1 := (handlePaymentFailure env orderId e ps).2 in
  let ps2 := (handlePaymentFailure env' orderId e ps1).2 in
  (nowISO env' = nowISO env -> ps2 = ps1) /\
  payments ps2 = payments ps1 /\
  (o_status <$> orders ps2 !! orderId) = (o_status <$> orders ps1 !! orderId) /\
  (o_error <$> orders ps2 !! orderId) = (o_error <$> orders ps1 !! orderId).
Proof.
  destruct (orders ps !! orderId) as [o|] eqn:Ho.
  - destruct (handlePaymentFailure_known env orderId e ps o Ho) as [-> _].
    set (ps1 := withOrders _ ps).
    assert (orders ps1 !! orderId = Some (markFailed e (nowISO env) o)) as H1
      by apply lookup_insert_eq.
    cbv zeta.
    destruct (handlePaymentFailure_known env' orderId e ps1 _ H1) as [-> _].
    unfold ps1. cbn [orders payments withOrders].
    rewrite insert_insert_eq, !lookup_insert_eq. cbn.
    repeat split. intros ->. reflexivity.
  - rewrite (handlePaymentFailure_unknown env orderId e ps Ho). cbv zeta.
    rewrite (handlePaymentFailure_unknown env' orderId e ps Ho). done.
Qed.

(* ===================================================================== *)
(** * Session retention *)
(* ===================================================================== *)

Lemma split_nonempty c s : split c s <> [].
Proof.
  destruct s as [|d s]; cbn; [done|].
  destruct (Ascii.eqb d c); [done|]. by destruct (split c s).
Qed.

Lemma split_pieces c s : Forall (fun x => hasChar c x = false) (split c s).
Proof.
  induction s as [|d s IH]; cbn; [by repeat constructor|].
  destruct (Ascii.eqb d c) eqn:E; [by constructor|].
  destruct (split c s) as [|h t]; [by repeat constructor; cbn; rewrite E|].
  inversion IH; subst. constructor; [|done]. cbn. by rewrite E.
Qed.

Lemma split_whole c x : hasChar c x = false -> split c x = [x].
Proof.
  induction x as [|d x IH]; cbn; [done|].
  intros H. apply orb_false_iff in H as [E Hx]. rewrite E, (IH Hx). done.
Qed.

Lemma split_app c x rest :
  hasChar c x = false -> split c (x +:+ String c rest) = x :: split c rest.
Proof.
  induction x as [|d x IH]; intros H.
  - rewrite app_empty_l. cbn. by rewrite Ascii.eqb_refl.
  - cbn in H. apply orb_false_iff in H as [E Hx].
    rewrite app_cons. cbn. rewrite E, (IH Hx). done.
Qed.

Lemma split_join c l :
  l <> [] -> Forall (fun x => hasChar c x = false) l ->
  split c (join (String c EmptyString) l) = l.
Proof.
  induction l as [|x l IH]; [done|]. intros _ Hall.
  inversion Hall as [|? ? Hx Hl]; subst.
  destruct l as [|y l]; [by apply split_whole|].
  change (join (String c "") (x :: y :: l))
    with (x +:+ String c (join (String c "") (y :: l))).
  rewrite split_app by done. f_equal. by apply IH.
Qed.

Lemma slice_last_length {A} n (l : list A) : (length (slice_last n l) <= n)%nat.
Proof. unfold slice_last. rewrite length_drop. lia. Qed.

Lemma slice_last_all {A} n (l : list A) :
  (length l <= n)%nat -> slice_last n l = l.
Proof.
  intros H. unfold slice_last. by replace (length l - n)%nat with 0%nat by lia.
Qed.

Lemma slice_last_nonempty {A} n (l : list A) :
  (0 < n)%nat -> l <> [] -> slice_last n l <> [].
Proof.
  intros Hn Hl E. apply (f_equal length) in E. unfold slice_last in E.
  rewrite length_drop in E. destruct l; [done|]. cbn in E. lia.
Qed.

Lemma slice_last_app_slice {A} n (l r : list A) :
  slice_last n (slice_last n l ++ r) = slice_last n (l ++ r).
Proof.
  destruct (decide (length l <= n)%nat) as [H|H].
  - by rewrite (slice_last_all n l).
  - unfold slice_last.
    rewrite !length_app, length_drop.
    replace (length l - (length l - n) + length r - n)%nat
      with (length r) by lia.
    replace (length l + length r - n)%nat
      with ((length l - n) + length r)%nat by lia.
    rewrite <- drop_drop. f_equal. rewrite drop_app_le by lia. done.
Qed.

Lemma slice_last_snoc {A} n (l : list A) e :
  (0 < n)%nat -> last (slice_last n (l ++ [e])) = Some e.
Proof.
  intros Hn. unfold slice_last. rewrite length_app. cbn [length].
  rewrite drop_app_le by lia. apply last_snoc.
Qed.

Lemma slice_last_shorter {A} n (l : list A) :
  (length (slice_last n l) <= length l)%nat.
Proof. unfold slice_last. rewrite length_drop. lia. Qed.

Lemma messages_retain s : messages (retain s) = slice_last 10 (messages s).
Proof.
  unfold retain. destruct (Z.ltb_spec 10 (Z.of_nat (length (messages s)))).
  - reflexivity.
  - rewrite slice_last_all by lia. reflexivity.
Qed.

Lemma messages_exchange env msg resp s :
  messages (exchange env msg resp s) =
    slice_last 10 (messages s ++ [entryOf env msg resp]).
Proof. unfold exchange. by rewrite messages_retain. Qed.

(** The context after an exchange: cut when the list, before the exchange,
    held ten messages already. *)
Lemma context_exchange env msg resp s :
  context (exchange env msg resp s) =
    let text := context s +:+ "User: " +:+ msg +:+ newline +:+
                "Bot: " +:+ resp +:+ newline in
    if (10 <=? length (messages s))%nat then lastLines 20 text else text.
Proof.
  unfold exchange, retain.
  cbn [messages appendExchange incrQueryCount]. rewrite length_app.
  cbn [length m_user m_bot entryOf].
  destruct (Z.ltb_spec 10 (Z.of_nat (length (messages s) + 1)));
    destruct (Nat.leb_spec 10 (length (messages s))); try lia; reflexivity.
Qed.

(** What has been cut to its last n >= 1 lines has at most n lines. *)
Lemma lastLines_length n text :
  (0 < n)%nat -> (length (linesOf (lastLines n text)) <= n)%nat.
Proof.
  intros Hn. unfold lastLines, linesOf, newline. rewrite split_join.
  - apply slice_last_length.
  - apply slice_last_nonempty; [lia|apply split_nonempty].
  - apply Forall_drop, split_pieces.
Qed.

Lemma converse_sessions uid sid user turns : forall w,
  users w !! uid = Some user ->
  Forall (fun t : Env * string => isOk (genResult t.1) = true) turns ->
  users (converse uid sid w turns) !! uid = Some user /\
  sessions (converse uid sid w turns) !! sid =
    sessionAfter (sessions w !! sid) turns.
Proof.
  induction turns as [|[env msg] turns IH]; intros w Hu Hall; [done|].
  inversion Hall as [|? ? Hok Hrest]; subst. cbn [fst] in Hok.
  destruct (genResult env) as [response|] eqn:Hg; [|discriminate].
  cbn [converse sessionAfter fold_left fst snd].
  rewrite (processQuery_ok _ _ _ _ _ _ _ Hu Hg). cbn [snd].
  set (w' := {| users := users w |}).
  destruct (IH w' Hu Hrest) as [IHu IHs]. split; [exact IHu|].
  unfold converse in IHs. rewrite IHs. unfold w', sessionAfter.
  cbn [sessions]. rewrite lookup_insert_eq.
  unfold exchange, sessionAt, replyOf. by rewrite Hg.
Qed.

Lemma sessionAfter_snoc o turns t :
  sessionAfter o (turns ++ [t]) =
    Some (exchange t.1 t.2 (replyOf t.1)
            (default (newSession (startedAt t.1)) (sessionAfter o turns))).
Proof. unfold sessionAfter. by rewrite fold_left_app. Qed.

Lemma contextStep_count turns : forall acc,
  (fold_left contextStep turns acc).1 = (acc.1 + length turns)%nat.
Proof.
  induction turns as [|t turns IH]; intros acc; cbn [fold_left length]; [lia|].
  rewrite IH. cbn [contextStep fst]. lia.
Qed.

Lemma contextAfter_snoc turns t :
  contextAfter (turns ++ [t]) =
    let text := contextAfter turns +:+ exchangeText t in
    if (10 <=? length turns)%nat then lastLines 20 text else text.
Proof.
  unfold contextAfter. rewrite fold_left_app. cbn [fold_left contextStep snd].
  by rewrite contextStep_count.
Qed.

Lemma transcript_snoc turns t :
  transcript (turns ++ [t]) = transcript turns +:+ exchangeText t.
Proof. unfold transcript. by rewrite fold_left_app. Qed.

(** Up to the tenth exchange nothing is cut. *)
Lemma contextAfter_transcript turns :
  (length turns <= 10)%nat -> contextAfter turns = transcript turns.
Proof.
  induction turns as [|t turns IH] using rev_ind; [done|].
  rewrite length_app. cbn [length]. intros Hlen.
  rewrite contextAfter_snoc, transcript_snoc. cbv zeta.
  destruct (Nat.leb_spec 10 (length turns)); [lia|]. rewrite IH by lia. done.
Qed.

(** The session that a run of successful exchanges leaves, from a new
    session: its list is the last ten exchanges and its context is the one
    described by [contextAfter]. *)
Lemma sessionAfter_new turns start :
  let s := default (newSession start) (sessionAfter None turns) in
  messages s = slice_last 10 (exchanges turns) /\
  context s = contextAfter turns.
Proof.
  revert start. induction turns as [|t turns IH] using rev_ind; intros start;
    [done|].
  rewrite sessionAfter_snoc. cbn [from_option id].
  specialize (IH (startedAt t.1)). cbv zeta in IH. destruct IH as [IHm IHc].
  split.
  - rewrite messages_exchange, IHm. unfold exchanges.
    rewrite map_app. cbn [map]. apply slice_last_app_slice.
  - rewrite context_exchange, contextAfter_snoc, IHm, IHc. cbv zeta.
    unfold exchangeText.
    replace (10 <=? length (slice_last 10 (exchanges turns)))%nat
      with (10 <=? length turns)%nat; [done|].
    unfold slice_last, exchanges. rewrite length_drop, length_map.
    destruct (Nat.leb_spec 10 (length turns));
      destruct (Nat.leb_spec 10 (length turns - (length turns - 10))); lia.
Qed.

(** C8, as the code has it.  After any number n >= 1 of successful
    exchanges in a new session, the message list is exactly the most recent
    exchanges, all n of them up to 10 and the last 10 beyond, in their
    order (the oldest are dropped first).  The context is the one that
    [contextAfter] describes: up to the tenth exchange it is not cut, it is
    everything said; and once more than 10 exchanges have been made it has
    been cut, at the last of them as at each one from the eleventh on, to
    the last 20 lines of what it was with the exchange added, so it has at
    most 20 lines. *)
Theorem session_retention uid sid w user (turns : list (Env * string)) :
  users w !! uid = Some user ->
  sessions w !! sid = None ->
  Forall (fun t : Env * string => isOk (genResult t.1) = true) turns ->
  turns <> [] ->
  exists s, sessions (converse uid sid w turns) !! sid = Some s /\
    messages s = slice_last 10 (exchanges turns) /\
    length (messages s) = (length turns `min` 10)%nat /\
    context s = contextAfter turns /\
    ((length turns <= 10)%nat -> context s = transcript turns) /\
    ((10 < length turns)%nat ->
     (exists earlier t, turns = earlier ++ [t] /\
        context s =
          lastLines 20 (contextAfter earlier +:+ exchangeText t)) /\
     (length (linesOf (context s)) <= 20)%nat).
Proof.
  intros Hu Hs Hall Hne.
  destruct (converse_sessions uid sid user turns w Hu Hall) as [_ ->].
  rewrite Hs.
  destruct (sessionAfter_new turns 0) as [Hm Hc].
  destruct (sessionAfter None turns) as [s|] eqn:Es.
  2: { destruct turns as [|t turns _] using rev_ind; [done|].
       by rewrite sessionAfter_snoc in Es. }
  cbn [from_option id] in Hm, Hc.
  exists s. split; [done|]. split; [exact Hm|]. split.
  { rewrite Hm. unfold slice_last, exchanges.
    rewrite length_drop, length_map. lia. }
  split; [exact Hc|]. split.
  { intros Hlen. rewrite Hc. by apply contextAfter_transcript. }
  intros Hlen. rewrite Hc.
  destruct turns as [|t turns _] using rev_ind; [done|].
  rewrite length_app in Hlen. cbn [length] in Hlen.
  rewrite contextAfter_snoc. cbv zeta.
  destruct (Nat.leb_spec 10 (length turns)); [|lia].
  split; [by exists turns, t|]. apply lastLines_length. lia.
Qed.

Lemma session_retention_witness :
  exists s, sessions (converse "u1" "s1" server1 fifteenTurns) !! "s1" = Some s /\
    messages s = slice_last 10 (exchanges fifteenTurns) /\
    length (messages s) = (length fifteenTurns `min` 10)%nat /\
    context s = contextAfter fifteenTurns /\
    (length (linesOf (context s)) <= 20)%nat.
Proof.
  destruct (session_retention "u1" "s1" server1 asha fifteenTurns)
    as (s & Hs & Hm & Hl & Hc & _ & Hcut).
  - reflexivity.
  - reflexivity.
  - unfold fifteenTurns. cbn [map]. repeat constructor.
  - discriminate.
  - exists s. split; [exact Hs|]. split; [exact Hm|]. split; [exact Hl|].
    split; [exact Hc|]. apply Hcut. cbn. lia.
Defined.

(** After fifteen exchanges the list holds the exchanges 6 to 15, whose
    entries were made 2.3 s after each began, and the context has twenty
    lines. *)
Example fifteen_exchanges :
  let s := sessions (converse "u1" "s1" server1 fifteenTurns) !! "s1" in
  (map m_timestamp ∘ messages) <$> s =
    Some [62300; 72300; 82300; 92300; 102300; 112300; 122300; 132300;
          142300; 152300] /\
  (length ∘ linesOf ∘ context) <$> s = Some 20%nat /\
  queryCount <$> s = Some 15 /\
  startTime <$> s = Some 10000 /\ lastActivity <$> s = Some (Some 152300).
Proof. vm_compute. repeat split. Qed.

(** C8 as it is worded fails: the context is cut only when the list holds
    more than 10 messages.  After one exchange whose reply has thirty lines
    the context has 32 lines, more than 20. *)
Lemma context_exceeds_twenty_lines :
  let w := converse "u1" "s1" server1
             [(envOk 1 longReply, "What about my career?")] in
  exists s, sessions w !! "s1" = Some s /\
    length (messages s) = 1%nat /\
    length (linesOf (context s)) = 32%nat /\
    ~ (length (linesOf (context s)) <= 20)%nat.
Proof.
  eexists. split; [vm_compute; reflexivity|].
  split; [reflexivity|]. split; [vm_compute; reflexivity|].
  vm_compute. lia.
Qed.

(* ===================================================================== *)
(** * The regular expression test is the whole-word test *)
(* ===================================================================== *)

Lemma code_inj (c d : ascii) : code c = code d -> c = d.
Proof.
  unfold code. intros H.
  rewrite <- (ascii_N_embedding c), <- (ascii_N_embedding d). by rewrite H.
Qed.

Lemma code_ascii_of_N (n : N) : (n < 256)%N -> code (ascii_of_N n) = n.
Proof. apply N_ascii_embedding. Qed.

Lemma code_bounded (c : ascii) : (code c < 256)%N.
Proof. apply N_ascii_bounded. Qed.

(** Splits on the comparisons of the goal one at a time and drops the
    cases that contradict what is known. *)
Ltac open_between :=
  unfold between;
  repeat (match goal with
          | |- context [(?a <=? ?b)%N] => destruct (N.leb_spec a b)
          | |- context [(?a =? ?b)%N] => destruct (N.eqb_spec a b)
          end; cbn [andb orb negb]; try lia).

Lemma isLowerLetter_code k : isLowerLetter k = true -> (97 <= code k <= 122)%N.
Proof.
  unfold isLowerLetter, between. intros H. apply andb_true_iff in H as [H1 H2].
  apply N.leb_le in H1, H2. lia.
Qed.

(** Under the [i] flag a small letter of the pattern matches the letter
    itself and its capital, and nothing else. *)
Lemma canonicalize_letter (k c : ascii) :
  isLowerLetter k = true ->
  (canonicalize k =? canonicalize c)%N = true <-> toLowerChar c = k.
Proof.
  intros Hk. rewrite N.eqb_eq. pose proof (code_bounded c) as Hc.
  assert (canonicalize k = (code k - 32)%N) as ->.
  { unfold canonicalize. unfold isLowerLetter in Hk. by rewrite Hk. }
  apply isLowerLetter_code in Hk.
  unfold canonicalize, toLowerChar. split.
  - intros H. apply code_inj. revert H.
    open_between; intros E; rewrite ?code_ascii_of_N by lia; lia.
  - intros H. apply (f_equal code) in H. revert H.
    open_between; rewrite ?code_ascii_of_N by lia; lia.
Qed.

Lemma toLowerChar_letter_word (k c : ascii) :
  isLowerLetter k = true -> toLowerChar c = k -> isWordChar c = true.
Proof.
  intros Hk H. apply (f_equal code) in H. pose proof (code_bounded c) as Hc.
  apply isLowerLetter_code in Hk.
  unfold toLowerChar in H. unfold isWordChar.
  revert H. open_between; [].
  rewrite code_ascii_of_N by lia. lia.
Qed.

Lemma lastChar_cons c s : exists x, lastChar (String c s) = Some x.
Proof.
  revert c. induction s as [|d s IH]; intros c; [by exists c|].
  destruct (IH d) as [x Hx]. exists x. exact Hx.
Qed.

Lemma lastOr_cons prev c s : lastOr prev (String c s) = lastOr (Some c) s.
Proof.
  unfold lastOr. destruct s as [|d s]; [done|].
  change (lastChar (String c (String d s))) with (lastChar (String d s)).
  by destruct (lastChar_cons d s) as [x ->].
Qed.

Lemma lastOr_empty prev : lastOr prev "" = prev.
Proof. reflexivity. Qed.

Lemma toLowerCase_empty w : toLowerCase w = "" -> w = "".
Proof. by destruct w. Qed.

(** What [matchWordHere] accepts: a spelling [w] of the keyword at the
    start of the text, and a boundary after it. *)
Lemma matchWordHere_spec kw : forall prev s,
  lettersOnly kw = true ->
  matchWordHere prev kw s = true <->
  exists w b, s = w +:+ b /\ toLowerCase w = kw /\
    wordBoundary (lastOr prev w) (head_char b) = true.
Proof.
  induction kw as [|k kw IH]; intros prev s Hkw.
  - cbn [matchWordHere]. split.
    + intros H. by exists "", s.
    + intros (w & b & -> & Hw & Hb). apply toLowerCase_empty in Hw as ->.
      exact Hb.
  - cbn [lettersOnly] in Hkw. apply andb_true_iff in Hkw as [Hk Hkw].
    cbn [matchWordHere]. split.
    + destruct s as [|c s]; [done|]. intros H.
      apply andb_true_iff in H as [Hc H].
      apply (canonicalize_letter k c Hk) in Hc.
      apply (IH (Some c) s Hkw) in H as (w & b & -> & Hw & Hb).
      exists (String c w), b. rewrite lastOr_cons. cbn. by rewrite Hc, Hw.
    + intros (w & b & -> & Hw & Hb). destruct w as [|c w]; [done|].
      cbn in Hw. injection Hw as Hc Hw. rewrite app_cons.
      apply andb_true_iff. split.
      * by apply canonicalize_letter.
      * apply IH; [done|]. exists w, b. by rewrite lastOr_cons in Hb.
Qed.

Lemma testWordFrom_spec kw s : forall prev,
  lettersOnly kw = true ->
  testWordFrom prev kw s = true <->
  exists a w b, s = a +:+ w +:+ b /\ toLowerCase w = kw /\
    wordBoundary (lastOr prev a) (head_char (w +:+ b)) = true /\
    wordBoundary (lastOr (lastOr prev a) w) (head_char b) = true.
Proof.
  induction s as [|c s IH]; intros prev Hkw.
  - cbn [testWordFrom]. rewrite orb_false_r, andb_true_iff.
    rewrite (matchWordHere_spec kw prev "" Hkw). split.
    + intros (Hb & w & b & E & Hw & Hb'). exists "", w, b.
      rewrite app_empty_l, lastOr_empty, <- E. done.
    + intros (a & w & b & E & Hw & Hb & Hb').
      destruct a; [|done]. rewrite app_empty_l in E.
      rewrite lastOr_empty in Hb, Hb'. rewrite <- E in Hb.
      split; [done|]. by exists w, b.
  - cbn [testWordFrom]. rewrite orb_true_iff, andb_true_iff.
    rewrite (matchWordHere_spec kw prev _ Hkw), (IH (Some c) Hkw). split.
    + intros [(Hb & w & b & E & Hw & Hb')|(a & w & b & E & Hw & Hb & Hb')].
      * exists "", w, b. rewrite app_empty_l, lastOr_empty, <- E. done.
      * exists (String c a), w, b. rewrite app_cons, lastOr_cons, E. done.
    + intros (a & w & b & E & Hw & Hb & Hb'). destruct a as [|d a].
      * left. rewrite app_empty_l in E. rewrite lastOr_empty in Hb, Hb'.
        rewrite <- E in Hb. split; [done|]. by exists w, b.
      * right. rewrite app_cons in E. injection E as -> E.
        rewrite lastOr_cons in Hb, Hb'. by exists a, w, b.
Qed.

Lemma spelling_of_keyword kw w :
  isKeyword kw = true -> toLowerCase w = kw ->
  (forall b, isWordAt (head_char (w +:+ b)) = true) /\
  (forall prev, isWordAt (lastOr prev w) = true).
Proof.
  unfold isKeyword. intros Hk. apply andb_true_iff in Hk as [Hne Hl].
  revert kw Hne Hl. induction w as [|c w IH]; intros kw Hne Hl Hw.
  - cbn in Hw. by subst kw.
  - cbn in Hw. subst kw. cbn [lettersOnly] in Hl.
    apply andb_true_iff in Hl as [Hc Hl].
    pose proof (toLowerChar_letter_word _ c Hc eq_refl) as Hword.
    split; [intros b; by rewrite app_cons|].
    intros prev. rewrite lastOr_cons. destruct w as [|d w]; [done|].
    apply (IH (toLowerCase (String d w))); done.
Qed.

(** For a keyword of the table, the regular expression test on the text is
    the whole-word test of the specification. *)
Lemma regexWordTest_wholeWord kw text :
  isKeyword kw = true ->
  regexWordTest kw text = true <-> wholeWord text kw.
Proof.
  intros Hk. unfold regexWordTest, wholeWord.
  assert (lettersOnly kw = true) as Hl
    by (unfold isKeyword in Hk; by apply andb_true_iff in Hk as [_ ?]).
  rewrite (testWordFrom_spec kw text None Hl).
  assert (forall a, lastOr None a = lastChar a) as Hnone
    by (intros a; unfold lastOr; by destruct (lastChar a)).
  split; intros (a & w & b & E & Hw & Hb & Hb'); exists a, w, b;
    (split; [done|]); (split; [done|]);
    destruct (spelling_of_keyword kw w Hk Hw) as [Hhead Hlast];
    unfold wordBoundary in *; rewrite Hnone in *.
  - rewrite Hhead in Hb. rewrite Hlast in Hb'.
    split; [by destruct (isWordAt (lastChar a))
           |by destruct (isWordAt (head_char b))].
  - by rewrite Hhead, Hlast, Hb, Hb'.
Qed.

Lemma intents_keywords :
  forall e k, e ∈ intents -> k ∈ i_keywords e -> isKeyword k = true.
Proof.
  assert (forallb (fun e => forallb isKeyword (i_keywords e)) intents = true)
    as H by reflexivity.
  intros e k He Hk. rewrite forallb_forall in H.
  apply list_elem_of_In in He. specialize (H e He).
  rewrite forallb_forall in H. apply H. by apply list_elem_of_In.
Qed.

(** The weight of a keyword of the table: 0 when the text does not contain
    it, 2 when it contains it as a whole word, 1 otherwise. *)
Lemma keywordWeight_spec query e k :
  e ∈ intents -> k ∈ i_keywords e ->
  (keywordWeight query k = 0 <-> ~ containsTerm query k) /\
  (keywordWeight query k = 2 <-> wholeWord query k) /\
  (keywordWeight query k = 1 <->
   containsTerm query k /\ ~ wholeWord query k).
Proof.
  intros He Hk. pose proof (intents_keywords e k He Hk) as Hkw.
  pose proof (regexWordTest_wholeWord k query Hkw) as Hre.
  pose proof (includes_containsTerm query k) as Hin.
  assert (wholeWord query k -> containsTerm query k) as Hwc.
  { intros (a & w & b & E & Hw & _). by exists a, w, b. }
  unfold keywordWeight.
  destruct (includes (toLowerCase query) k), (regexWordTest k query).
  - assert (containsTerm query k) by by apply Hin.
    assert (wholeWord query k) by by apply Hre.
    repeat split; intros; try done; try lia; tauto.
  - assert (containsTerm query k) by by apply Hin.
    assert (~ wholeWord query k) by (intros W; by apply Hre in W).
    repeat split; intros; try done; try lia; tauto.
  - assert (wholeWord query k) as W by by apply Hre.
    apply Hwc, Hin in W. discriminate.
  - assert (~ containsTerm query k) by (intros C; by apply Hin in C).
    assert (~ wholeWord query k) by (intros W; by apply Hre in W).
    repeat split; intros; try done; try lia; tauto.
Qed.

(* ===================================================================== *)
(** * The scoring rule *)
(* ===================================================================== *)

Lemma keywordWeight_bounds query k :
  (includes (toLowerCase query) k = true -> 1 <= keywordWeight query k) /\
  (includes (toLowerCase query) k = false -> keywordWeight query k = 0) /\
  0 <= keywordWeight query k.
Proof.
  unfold keywordWeight.
  destruct (includes _ k), (regexWordTest k query); repeat split; done || lia.
Qed.

(** The loop over the keywords adds up the weights and counts the
    keywords that are present: the count [n] is 0 exactly when the sum is. *)
Lemma scoreKeyword_fold query kws : forall t m,
  exists n, 0 <= n /\ n <= sumZ (map (keywordWeight query) kws) /\
    sumZ (map (keywordWeight query) kws) <= 2 * n /\
    fold_left (scoreKeyword query (toLowerCase query)) kws (t, m) =
      (t + sumZ (map (keywordWeight query) kws), m + n).
Proof.
  induction kws as [|k kws IH]; intros t m.
  - exists 0. cbn. repeat split; try lia. f_equal; lia.
  - cbn [fold_left map sumZ fold_right].
    fold (sumZ (map (keywordWeight query) kws)).
    assert (exists d, 0 <= d /\ d <= keywordWeight query k /\
                      keywordWeight query k <= 2 * d /\
              scoreKeyword query (toLowerCase query) (t, m) k =
                (t + keywordWeight query k, m + d)) as (d & ? & ? & ? & ->).
    { unfold scoreKeyword, keywordWeight.
      destruct (includes (toLowerCase query) k);
        [destruct (regexWordTest k query); exists 1|exists 0];
        repeat split; try lia; f_equal; lia. }
    destruct (IH (t + keywordWeight query k) (m + d)) as (n & ? & ? & ? & ->).
    exists (d + n). repeat split; try lia. f_equal; lia.
Qed.

(** The confidence computed for an intent is the score of the
    specification; with no keyword present both are zero. *)
Lemma intentConfidence_specScore query (e : IntentEntry) :
  (intentConfidence query (toLowerCase query) (i_keywords e) ==
   specScore query e)%Q.
Proof.
  unfold intentConfidence, specScore.
  destruct (scoreKeyword_fold query (i_keywords e) 0 0) as (n & ? & ? & ? & ->).
  rewrite !Z.add_0_l. destruct (Z.ltb_spec 0 n); [reflexivity|].
  replace (sumZ _) with 0 by lia. reflexivity.
Qed.


Lemma specScore_noKeyword query e :
  (forall k, k ∈ i_keywords e -> includes (toLowerCase query) k = false) ->
  (specScore query e == 0)%Q.
Proof.
  intros H. unfold specScore, Qeq. cbn [Qnum Qden]. rewrite Z.mul_1_r, Z.mul_0_l.
  induction (i_keywords e) as [|k kws IH]; [done|].
  cbn [map sumZ fold_right]. fold (sumZ (map (keywordWeight query) kws)).
  rewrite IH by (intros; apply H; by right).
  destruct (keywordWeight_bounds query k) as (_ & Hout & _).
  rewrite Hout; [done|]. apply H. by left.
Qed.

Lemma Qgtb_spec (a b : Q) : Qgtb a b = true <-> (b < a)%Q.
Proof.
  unfold Qgtb. rewrite negb_true_iff, <- not_true_iff_false, Qle_bool_iff.
  split; [apply Qnot_le_lt|apply Qlt_not_le].
Qed.

(** The loop that finds the best intent, over any table and from any start:
    either no entry beats the start and the start is kept, or the result is
    the first entry of the highest confidence. *)
Lemma pickBest_fold query (l : list IntentEntry) : forall b0 h0,
  let f e := intentConfidence query (toLowerCase query) (i_keywords e) in
  let r := fold_left (pickBest query (toLowerCase query)) l (b0, h0) in
  ((forall e, e ∈ l -> (f e <= h0)%Q) /\ r = (b0, h0)) \/
  (exists i e, l !! i = Some e /\ r = (i_name e, f e) /\ (h0 < f e)%Q /\
     (forall e', e' ∈ l -> (f e' <= f e)%Q) /\
     (forall j e', (j < i)%nat -> l !! j = Some e' -> (f e' < f e)%Q)).
Proof.
  induction l as [|x l IH]; intros b0 h0; cbv zeta beta.
  - left. split; [|done]. intros e He. by apply elem_of_nil in He.
  - cbn [fold_left]. specialize (IH) as IH'. cbv zeta beta in IH'.
    set (fx := intentConfidence query (toLowerCase query) (i_keywords x)).
    assert (pickBest query (toLowerCase query) (b0, h0) x =
            if Qgtb fx h0 then (i_name x, fx) else (b0, h0)) as ->
      by reflexivity.
    destruct (Qgtb fx h0) eqn:Hx.
    + apply Qgtb_spec in Hx.
      destruct (IH' (i_name x) fx)
        as [[Hall Hr]|(i & e & Hi & Hr & Hlt & Hmax & Hfirst)];
        rewrite Hr.
      * right. exists 0%nat, x. repeat split; [done|..].
        -- intros e' He'. apply elem_of_cons in He' as [->|He'];
             [apply Qle_refl|by apply Hall].
        -- intros j e' Hj. lia.
      * right. exists (S i), e. repeat split; [done|..].
        -- by eapply Qlt_trans.
        -- intros e' He'. apply elem_of_cons in He' as [->|He'];
             [by apply Qlt_le_weak|by apply Hmax].
        -- intros [|j] e' Hj He'; [by injection He' as <-|].
           apply (Hfirst j); [lia|done].
    + assert (fx <= h0)%Q as Hx'.
      { apply Qnot_lt_le. intros Hlt. apply Qgtb_spec in Hlt. congruence. }
      destruct (IH' b0 h0)
        as [[Hall Hr]|(i & e & Hi & Hr & Hlt & Hmax & Hfirst)];
        rewrite Hr.
      * left. split; [|done].
        intros e' He'. apply elem_of_cons in He' as [->|He']; [done|by apply Hall].
      * right. exists (S i), e. repeat split; [done|done|..].
        -- intros e' He'. apply elem_of_cons in He' as [->|He'];
             [apply Qlt_le_weak; by eapply Qle_lt_trans|by apply Hmax].
        -- intros [|j] e' Hj He'.
           ++ injection He' as <-. by eapply Qle_lt_trans.
           ++ apply (Hfirst j); [lia|done].
Qed.

(** C5.  A text that does not take the general-overview short cut is scored
    against each intent by the sum of the weights of the intent's keywords
    divided by their number, where a keyword weighs 2 when the text has it
    as a whole word, 1 when it has it only as a substring, and 0 when it
    does not have it.  When no keyword of any intent is present the result
    is "general" with confidence 0.  Otherwise the result is the intent of
    the highest score, and among several of that score the first in the
    order of the table: every intent before it scores strictly less.  Its
    score is the confidence returned. *)
Theorem classify_by_score (query : string) :
  isOverviewRequest (toLowerCase query) = false ->
  let c := classifyUserQuery query in
  isGeneralOverview c = false /\
  (forall e k, e ∈ intents -> k ∈ i_keywords e ->
     (keywordWeight query k = 0 <-> ~ containsTerm query k) /\
     (keywordWeight query k = 2 <-> wholeWord query k) /\
     (keywordWeight query k = 1 <->
      containsTerm query k /\ ~ wholeWord query k)) /\
  (noKeyword query -> intent c = "general" /\ confidence c = 0%Q) /\
  ((exists e, e ∈ intents /\ (0 < specScore query e)%Q) ->
   exists i e, intents !! i = Some e /\
     intent c = i_name e /\
     (confidence c == specScore query e)%Q /\
     (forall e', e' ∈ intents -> (specScore query e' <= specScore query e)%Q) /\
     (forall j e', (j < i)%nat -> intents !! j = Some e' ->
        (specScore query e' < specScore query e)%Q)).
Proof.
  intros Hno c. subst c. unfold classifyUserQuery. rewrite Hno.
  pose proof (pickBest_fold query intents "general" 0%Q) as H.
  cbv zeta in H.
  destruct (fold_left _ intents _) as [b h].
  cbn [intent confidence isGeneralOverview]. split; [done|].
  split; [apply keywordWeight_spec|].
  destruct H as [[Hall E]|(i & e & Hi & E & Hlt & Hmax & Hfirst)];
    injection E as -> ->.
  - split; [done|]. intros (e & He & Hpos). exfalso.
    specialize (Hall e He). rewrite intentConfidence_specScore in Hall.
    by apply (Qlt_not_le _ _ Hpos).
  - split.
    + intros Hnone. exfalso.
      assert (specScore query e == 0)%Q as Hz.
      { apply specScore_noKeyword. intros k Hk.
        apply not_true_iff_false. rewrite includes_containsTerm.
        apply (Hnone e k); [|done]. by eapply list_elem_of_lookup_2. }
      rewrite intentConfidence_specScore, Hz in Hlt.
      by apply (Qlt_irrefl 0).
    + intros _. exists i, e. split; [done|]. split; [done|].
      split; [apply intentConfidence_specScore|]. split.
      * intros e' He'. rewrite <- !intentConfidence_specScore. by apply Hmax.
      * intros j e' Hj He'. rewrite <- !intentConfidence_specScore.
        by apply (Hfirst j).
Qed.

Lemma classify_by_score_witness :
  let query := "Will my husband find a new job or business?" in
  isOverviewRequest (toLowerCase query) = false /\
  (exists e, e ∈ intents /\ (0 < specScore query e)%Q) /\
  exists i e, intents !! i = Some e /\
    intent (classifyUserQuery query) = i_name e /\
    (confidence (classifyUserQuery query) == specScore query e)%Q /\
    (forall e', e' ∈ intents -> (specScore query e' <= specScore query e)%Q) /\
    (forall j e', (j < i)%nat -> intents !! j = Some e' ->
       (specScore query e' < specScore query e)%Q).
Proof.
  intros query.
  assert (isOverviewRequest (toLowerCase query) = false) as Hno by reflexivity.
  assert (exists e, e ∈ intents /\ (0 < specScore query e)%Q) as Hsome.
  { eexists. split; [apply list_elem_of_here|]. reflexivity. }
  split; [exact Hno|]. split; [exact Hsome|].
  exact (proj2 (proj2 (proj2 (classify_by_score query Hno))) Hsome).
Defined.

(** Marriage (2/10) and career (4/9) both match; career wins.  A tie
    between marriage and money (2/10 each) goes to marriage, first in the
    table. *)
Example classify_career_over_marriage :
  let c := classifyUserQuery "Will my husband find a new job or business?" in
  intent c = "career" /\ confidence c = Qmake 4 9.
Proof. vm_compute. split; reflexivity. Qed.

Example classify_tie_first_in_table :
  let c := classifyUserQuery "money or wife" in
  intent c = "marriage" /\ confidence c = Qmake 2 10.
Proof. vm_compute. split; reflexivity. Qed.

(* ===================================================================== *)
(** * More on the chat handler *)
(* ===================================================================== *)

(** What a request that passes the gate leaves in [sessions]: nothing new,
    a raised queryCount on a stored session, or the exchange. *)
Lemma chatMessage_sessions env (req : ChatRequest) w :
  let sid := req_sessionId req in
  let r := chatMessage env req w in
  sessions r.2 = sessions w \/
  sessions r.2 = bumpStored incrQueryCount sid (sessions w) \/
  exists response, genResult env = inl response /\
    is_Some (users w !! req_userId req) /\
    r.1 = ChatOk response sid
            (freeQuestionsUsed
               (gated req (default defaultUsageChat
                             (userStates w !! req_userId req))))
            (isPremium
               (gated req (default defaultUsageChat
                             (userStates w !! req_userId req))))
            (hasReceivedOverview
               (gated req (default defaultUsageChat
                             (userStates w !! req_userId req)))) /\
    sessions r.2 =
      <[sid := exchange env (trim (req_message req)) response
                 (default (newSession (startedAt env)) (sessions w !! sid))]>
        (sessions w).
Proof.
  intros sid r. subst r.
  destruct (decide (validRequest req)) as [Hv|Hn].
  2: { destruct (chatMessage_invalid env req w Hn) as [m ->]. by left. }
  destruct (blocked req (default defaultUsageChat
                           (userStates w !! req_userId req))) eqn:Hb.
  { rewrite (chatMessage_blocked env req w Hv Hb). by left. }
  rewrite (chatMessage_passed env req w Hv Hb).
  set (u := default defaultUsageChat (userStates w !! req_userId req)).
  set (w0 := withUserStates _ w).
  destruct (users w0 !! req_userId req) as [user|] eqn:Hu.
  - destruct (genResult env) as [response|err] eqn:Hg.
    + rewrite (processQuery_ok _ _ _ _ _ _ _ Hu Hg).
      right; right. exists response. split; [done|]. split; [by eexists|].
      cbn [fst snd sessions userStates]. rewrite lookup_insert_eq.
      cbn [from_option id]. unfold usageAt, w0.
      cbn [userStates withUserStates]. rewrite lookup_insert_eq.
      cbn [from_option id]. split; [reflexivity|]. reflexivity.
    + rewrite (processQuery_fail _ _ _ _ _ _ _ Hu Hg). right; left. reflexivity.
  - rewrite (processQuery_unknown _ _ _ _ _ Hu). by left.
Qed.

Lemma chatMessage_users env (req : ChatRequest) w :
  users (chatMessage env req w).2 = users w.
Proof.
  destruct (decide (validRequest req)) as [Hv|Hn].
  2: { by destruct (chatMessage_invalid env req w Hn) as [m ->]. }
  destruct (blocked req (default defaultUsageChat
                           (userStates w !! req_userId req))) eqn:Hb.
  { by rewrite (chatMessage_blocked env req w Hv Hb). }
  rewrite (chatMessage_passed env req w Hv Hb).
  set (w0 := withUserStates _ w).
  destruct (users w0 !! req_userId req) as [user|] eqn:Hu.
  - destruct (genResult env) as [response|err] eqn:Hg.
    + by rewrite (processQuery_ok _ _ _ _ _ _ _ Hu Hg).
    + by rewrite (processQuery_fail _ _ _ _ _ _ _ Hu Hg).
  - by rewrite (processQuery_unknown _ _ _ _ _ Hu).
Qed.

Lemma chatMessage_not_blocked env (req : ChatRequest) w :
  validRequest req ->
  blocked req (default defaultUsageChat (userStates w !! req_userId req))
    = false ->
  forall m f p, (chatMessage env req w).1 <> PaymentRequired m f p.
Proof.
  intros Hv Hb m f p. rewrite (chatMessage_passed env req w Hv Hb).
  by destruct (processQuery _ _ _ _ _) as [[response|err] w'].
Qed.

(** X1.  A premium user is never turned away and never charged: whatever
    the count of free questions, a valid message is not answered 402, and
    afterwards freeQuestionsUsed, isPremium and remainingQuestions are as
    before (the allowance bought is never counted down). *)
Theorem premium_is_never_charged env (req : ChatRequest) w u :
  validRequest req ->
  userStates w !! req_userId req = Some u ->
  isPremium u = true ->
  (forall m f p, (chatMessage env req w).1 <> PaymentRequired m f p) /\
  exists u', userStates (chatMessage env req w).2 !! req_userId req = Some u' /\
    freeQuestionsUsed u' = freeQuestionsUsed u /\
    isPremium u' = true /\
    remainingQuestions u' = remainingQuestions u.
Proof.
  intros Hv Hget Hp.
  assert (blocked req (default defaultUsageChat
            (userStates w !! req_userId req)) = false) as Hb.
  { rewrite Hget. cbn [from_option id]. unfold blocked. rewrite Hp.
    cbn [negb]. by rewrite andb_false_r. }
  split; [by apply chatMessage_not_blocked|].
  destruct (chatMessage_userStates env req w Hv Hb) as (g & Hg & ->).
  rewrite Hget in Hg. cbn [from_option id] in Hg.
  exists g. rewrite lookup_insert_eq. split; [done|].
  unfold gated in Hg. rewrite Hp in Hg.
  destruct (firstOverview req u); destruct Hg as [->| ->]; cbn; by rewrite ?Hp.
Qed.

Lemma premium_is_never_charged_witness :
  let r := chatMessage (envOk 20 "ok") (ask "Will I get a new job soon?")
             serverPremium in
  (forall m f p, r.1 <> PaymentRequired m f p) /\
  exists u', userStates r.2 !! "u1" = Some u' /\
    freeQuestionsUsed u' = 10 /\ isPremium u' = true /\
    remainingQuestions u' = Some 10.
Proof.
  apply (premium_is_never_charged (envOk 20 "ok")
           (ask "Will I get a new job soon?") serverPremium usagePremium).
  - unfold validRequest. vm_compute. repeat split; discriminate.
  - reflexivity.
  - reflexivity.
Defined.

(** X2.  The first general overview is free even at the limit: a valid
    overview request of a user who has not yet received the overview is not
    answered 402, whatever freeQuestionsUsed is; the count stays, and
    hasReceivedOverview is stored as true. *)
Theorem first_overview_is_free env (req : ChatRequest) w :
  let u := default defaultUsageChat (userStates w !! req_userId req) in
  validRequest req ->
  firstOverview req u = true ->
  (forall m f p, (chatMessage env req w).1 <> PaymentRequired m f p) /\
  exists u', userStates (chatMessage env req w).2 !! req_userId req = Some u' /\
    freeQuestionsUsed u' = freeQuestionsUsed u /\
    hasReceivedOverview u' = Some true.
Proof.
  intros u Hv Hf.
  assert (blocked req u = false) as Hb by (unfold blocked; by rewrite Hf).
  split; [by apply chatMessage_not_blocked|].
  destruct (chatMessage_userStates env req w Hv Hb) as (g & Hg & ->).
  fold u in Hg. exists g. rewrite lookup_insert_eq. split; [done|].
  unfold gated in Hg. rewrite Hf in Hg. by destruct Hg as [->| ->].
Qed.

Lemma first_overview_is_free_witness :
  let r := chatMessage (envOk 20 "Your chart") overviewAsk
             serverAtLimitNoOverview in
  (forall m f p, r.1 <> PaymentRequired m f p) /\
  exists u', userStates r.2 !! "u1" = Some u' /\
    freeQuestionsUsed u' = 10 /\ hasReceivedOverview u' = Some true.
Proof.
  apply (first_overview_is_free (envOk 20 "Your chart") overviewAsk
           serverAtLimitNoOverview).
  - unfold validRequest. vm_compute. repeat split; discriminate.
  - reflexivity.
Defined.

(** X3.  A message of a user id that the server does not know is answered
    500 with "User not found", after the gate: no collaborator is called and
    no session or cache entry is touched, but a usage state has been stored
    for the unknown id, with the question counted (or the overview marked
    as received). *)
Theorem unknown_user_is_counted env (req : ChatRequest) w :
  let uid := req_userId req in
  validRequest req ->
  users w !! uid = None ->
  userStates w !! uid = None ->
  let r := chatMessage env req w in
  r.1 = ChatError "User not found" false /\
  userStates r.2 !! uid = Some (gated req defaultUsageChat) /\
  freeQuestionsUsed (gated req defaultUsageChat) =
    (if firstOverview req defaultUsageChat then 0 else 1) /\
  sessions r.2 = sessions w /\ astroCache r.2 = astroCache w /\
  calls r.2 = calls w /\ users r.2 = users w.
Proof.
  intros uid Hv Hu Hs r. subst r.
  assert (blocked req (default defaultUsageChat (userStates w !! uid)) = false)
    as Hb.
  { rewrite Hs. unfold blocked. cbn. by rewrite andb_false_r. }
  rewrite (chatMessage_passed env req w Hv Hb). fold uid.
  rewrite Hs. cbn [from_option id].
  rewrite processQuery_unknown by exact Hu.
  cbn [fst snd userStates sessions astroCache calls users withUserStates].
  rewrite lookup_insert_eq. repeat split.
  unfold gated. by destruct (firstOverview req defaultUsageChat).
Qed.

Lemma unknown_user_is_counted_witness :
  let r := chatMessage (envOk 20 "ok") strangerAsk server1 in
  r.1 = ChatError "User not found" false /\
  (freeQuestionsUsed <$> userStates r.2 !! "nobody") = Some 1 /\
  calls r.2 = [].
Proof.
  assert (validRequest strangerAsk) as Hv
    by (unfold validRequest; vm_compute; repeat split; discriminate).
  destruct (unknown_user_is_counted (envOk 20 "ok") strangerAsk server1 Hv
              eq_refl eq_refl) as (H1 & H2 & H3 & _ & _ & H4 & _).
  split; [exact H1|]. split; [|exact H4].
  exact (eq_trans (f_equal (fmap freeQuestionsUsed) H2) (f_equal Some H3)).
Defined.

(** X4.  A request that fails the handler's checks is answered 400 and
    nothing else happens: a request without a user id, a session id or a
    message, a message of white space only, and a message of more than 1000
    characters (counted before trimming) each get their own text, and the
    server state, calls included, is what it was. *)
Theorem invalid_request_rejected env (req : ChatRequest) w :
  ((truthy (req_userId req) = false \/ truthy (req_sessionId req) = false \/
    truthy (req_message req) = false) ->
   chatMessage env req w =
     (BadRequest
        "Missing required fields: userId, sessionId, and message are required",
      w)) /\
  (truthy (req_userId req) = true -> truthy (req_sessionId req) = true ->
   truthy (req_message req) = true -> trim (req_message req) = "" ->
   chatMessage env req w = (BadRequest "Message cannot be empty", w)) /\
  (truthy (req_userId req) = true -> truthy (req_sessionId req) = true ->
   trim (req_message req) <> "" -> 1000 < strlen (req_message req) ->
   chatMessage env req w =
     (BadRequest "Message too long. Please keep it under 1000 characters.", w)).
Proof.
  unfold chatMessage. split; [|split].
  - intros [H|[H|H]]; rewrite H; cbn [negb orb]; by rewrite ?orb_true_r.
  - intros -> -> -> ->. reflexivity.
  - intros -> -> Ht Hl.
    assert (truthy (req_message req) = true) as ->.
    { destruct (req_message req); [|done]. by destruct Ht. }
    cbn [negb orb].
    destruct (Z.eqb_spec (strlen (trim (req_message req))) 0) as [E|_].
    + destruct Ht. unfold strlen in E. destruct (trim (req_message req)); [done|].
      cbn in E. lia.
    + by apply Z.ltb_lt in Hl as ->.
Qed.

Lemma invalid_request_rejected_witness :
  chatMessage (envOk 20 "ok") (ask "   ") server1 =
    (BadRequest "Message cannot be empty", server1).
Proof.
  exact (proj1 (proj2 (invalid_request_rejected (envOk 20 "ok") (ask "   ")
                         server1)) eq_refl eq_refl eq_refl eq_refl).
Defined.

(** X5.  A valid message of a known user that passes the gate and is
    answered by the generation collaborator: the reply is returned with the
    usage numbers as the gate left them; totalQuestions is one higher; and
    the session, made if it was not there, holds the exchange as its last
    message (at most ten are kept), with the time read for the entry after
    the generation as its timestamp, and has queryCount one higher and the
    time read last as lastActivity.  The start of a session that was there
    is kept; the start of one that is made is the time read at the
    beginning, before the fetch and the generation. *)
Theorem answered_message_effects env (req : ChatRequest) w user response :
  let uid := req_userId req in
  let sid := req_sessionId req in
  let u := default defaultUsageChat (userStates w !! uid) in
  let s0 := default (newSession (startedAt env)) (sessions w !! sid) in
  validRequest req ->
  users w !! uid = Some user ->
  blocked req u = false ->
  genResult env = inl response ->
  let r := chatMessage env req w in
  r.1 = ChatOk response sid (freeQuestionsUsed (gated req u))
          (isPremium (gated req u)) (hasReceivedOverview (gated req u)) /\
  userStates r.2 !! uid = Some (incrTotal (gated req u)) /\
  exists s, sessions r.2 !! sid = Some s /\
    messages s =
      slice_last 10
        (messages s0 ++ [entryOf env (trim (req_message req)) response]) /\
    (m_timestamp <$> last (messages s)) = Some (answeredAt env) /\
    queryCount s = queryCount s0 + 1 /\
    lastActivity s = Some (activityAt env) /\
    startTime s = startTime s0 /\
    startTime s = match sessions w !! sid with
                  | Some stored => startTime stored
                  | None => startedAt env
                  end.
Proof.
  intros uid sid u s0 Hv Hu Hb Hg r. subst r.
  rewrite (chatMessage_passed env req w Hv Hb). fold uid u sid.
  set (w0 := withUserStates _ w).
  assert (users w0 !! uid = Some user) as Hu0 by exact Hu.
  rewrite (processQuery_ok _ _ _ _ _ _ _ Hu0 Hg).
  cbn [fst snd userStates sessions]. rewrite !lookup_insert_eq.
  unfold usageAt, w0. cbn [userStates withUserStates].
  rewrite lookup_insert_eq. cbn [from_option id].
  split; [done|]. split; [done|]. eexists. split; [reflexivity|].
  change (sessionAt env (withUserStates _ w) sid) with (incrQueryCount s0).
  split; [apply (messages_exchange env _ response s0)|].
  split.
  { change (retain _) with (exchange env (trim (req_message req)) response s0).
    rewrite messages_exchange, slice_last_snoc by lia. reflexivity. }
  assert (startTime s0 = match sessions w !! sid with
                         | Some stored => startTime stored
                         | None => startedAt env
                         end) as <-
    by (unfold s0; by destruct (sessions w !! sid)).
  unfold retain. by destruct (10 <? _).
Qed.

Lemma answered_message_effects_witness :
  let r := chatMessage (envOk 1 "Your career looks bright.")
             (ask "What about my career?") server1 in
  r.1 = ChatOk "Your career looks bright." "s1" 1 false (Some false) /\
  (totalQuestions <$> userStates r.2 !! "u1") = Some 1 /\
  exists s, sessions r.2 !! "s1" = Some s /\ length (messages s) = 1%nat /\
    queryCount s = 1 /\
    startTime s = 10000 /\ lastActivity s = Some 12300.
Proof.
  assert (validRequest (ask "What about my career?")) as Hv
    by (unfold validRequest; vm_compute; repeat split; discriminate).
  destruct (answered_message_effects (envOk 1 "Your career looks bright.")
              (ask "What about my career?") server1 asha
              "Your career looks bright." Hv eq_refl eq_refl eq_refl)
    as (H1 & H2 & s & Hs & Hm & _ & Hq & Ha & _ & Hst).
  split; [exact H1|]. split; [exact (f_equal (fmap totalQuestions) H2)|].
  exists s. split; [exact Hs|]. split; [exact (f_equal length Hm)|].
  split; [exact Hq|]. split; [exact Hst|exact Ha].
Defined.

Lemma resolveAstroData_cache env user key endpoints
    (cache : gmap string CacheEntry) :
  (resolveAstroData env user key endpoints cache).1.2 = cache \/
  exists e, (resolveAstroData env user key endpoints cache).1.2 =
              <[key := e]> cache.
Proof.
  unfold resolveAstroData.
  destruct (match cache !! key with None => true | Some e => _ end);
    [|by left].
  right. by eexists.
Qed.

Lemma chatMessage_cache env (req : ChatRequest) w :
  astroCache (chatMessage env req w).2 = astroCache w \/
  exists e, astroCache (chatMessage env req w).2 =
    <[cacheKeyOf (req_userId req)
        (classifyUserQuery (trim (req_message req))) := e]> (astroCache w).
Proof.
  destruct (decide (validRequest req)) as [Hv|Hn].
  2: { destruct (chatMessage_invalid env req w Hn) as [m ->]. by left. }
  destruct (blocked req (default defaultUsageChat
                           (userStates w !! req_userId req))) eqn:Hb.
  { rewrite (chatMessage_blocked env req w Hv Hb). by left. }
  rewrite (chatMessage_passed env req w Hv Hb).
  set (w0 := withUserStates _ w).
  destruct (users w0 !! req_userId req) as [user|] eqn:Hu.
  - assert (astroCache w0 = astroCache w) as Ec by reflexivity.
    destruct (genResult env) as [response|err] eqn:Hg;
      [rewrite (processQuery_ok _ _ _ _ _ _ _ Hu Hg)
      |rewrite (processQuery_fail _ _ _ _ _ _ _ Hu Hg)];
      cbn [snd astroCache]; unfold astroOf; rewrite Ec;
      apply resolveAstroData_cache.
  - rewrite (processQuery_unknown _ _ _ _ _ Hu). by left.
Qed.

(** X6.  A request touches only what is its own: the users are never
    changed, the usage state of every other user id, every other session and
    every cache entry under another key are what they were. *)
Theorem request_touches_only_its_own env (req : ChatRequest) w :
  let r := chatMessage env req w in
  users r.2 = users w /\
  (forall uid, uid <> req_userId req ->
     userStates r.2 !! uid = userStates w !! uid) /\
  (forall sid, sid <> req_sessionId req ->
     sessions r.2 !! sid = sessions w !! sid) /\
  (forall key,
     key <> cacheKeyOf (req_userId req)
              (classifyUserQuery (trim (req_message req))) ->
     astroCache r.2 !! key = astroCache w !! key).
Proof.
  intros r. subst r. split; [apply chatMessage_users|]. split; [|split].
  - intros uid Hne.
    destruct (decide (validRequest req)) as [Hv|Hn].
    2: { by destruct (chatMessage_invalid env req w Hn) as [m ->]. }
    destruct (blocked req (default defaultUsageChat
                             (userStates w !! req_userId req))) eqn:Hb.
    { by rewrite (chatMessage_blocked env req w Hv Hb). }
    destruct (chatMessage_userStates env req w Hv Hb) as (g & _ & ->).
    by rewrite lookup_insert_ne.
  - intros sid Hne.
    destruct (chatMessage_sessions env req w) as [->|[->|(? & _ & _ & _ & ->)]].
    + done.
    + unfold bumpStored. destruct (sessions w !! req_sessionId req); [|done].
      by rewrite lookup_insert_ne.
    + by rewrite lookup_insert_ne.
  - intros key Hne. destruct (chatMessage_cache env req w) as [->|[e ->]];
      [done|by rewrite lookup_insert_ne].
Qed.

Lemma chatMessage_entitlement env (req : ChatRequest) w uid :
  entitlement (default defaultUsageChat
                 (userStates (chatMessage env req w).2 !! uid)) =
  entitlement (default defaultUsageChat (userStates w !! uid)).
Proof.
  destruct (decide (validRequest req)) as [Hv|Hn].
  2: { by destruct (chatMessage_invalid env req w Hn) as [m ->]. }
  destruct (blocked req (default defaultUsageChat
                           (userStates w !! req_userId req))) eqn:Hb.
  { by rewrite (chatMessage_blocked env req w Hv Hb). }
  destruct (chatMessage_userStates env req w Hv Hb) as (g & Hg & ->).
  destruct (decide (req_userId req = uid)) as [<-|Hne].
  - rewrite lookup_insert_eq. cbn [from_option id]. unfold gated in Hg.
    set (u := default defaultUsageChat (userStates w !! req_userId req)) in *.
    destruct (firstOverview req u), (isPremium u) eqn:Ep;
      destruct Hg as [->| ->]; unfold entitlement; cbn; by rewrite ?Ep.
  - by rewrite lookup_insert_ne.
Qed.

(** X7.  No chat message changes what a payment has written: along every
    sequence of chat requests, for every user, isPremium, planType,
    remainingQuestions, purchaseDate and paymentId stay as they were.  A
    premium user stays premium with the allowance bought, and no user
    becomes premium by asking. *)
Theorem chat_never_changes_entitlement (reqs : list (Env * ChatRequest)) w uid :
  entitlement (default defaultUsageChat (userStates (chatAll w reqs) !! uid)) =
  entitlement (default defaultUsageChat (userStates w !! uid)).
Proof.
  revert w. induction reqs as [|[env req] reqs IH]; intros w; [done|].
  cbn [chatAll fold_left fst snd]. unfold chatAll in IH. rewrite IH.
  apply chatMessage_entitlement.
Qed.

Lemma paymentVerify_sessions (hmac : string -> string -> string) key env req w :
  sessions (server (paymentVerify hmac key env req w).2) = sessions (server w).
Proof.
  unfold paymentVerify.
  destruct (vr_paymentData req) as [pd|]; [|done].
  destruct (truthy (vr_userId req)); cbn [negb]; [|done].
  destruct (verifyPayment hmac key env pd (paymentService w)) as [[r|msg] ps];
    [|done].
  unfold mapGetOr, mutate, mapSet.
  by destruct (userStates (server w) !! vr_userId req).
Qed.

(** X8.  No stored session ever holds more than ten messages: if that is so
    of every session at the start, it is so after every sequence of chat
    and verify requests. *)
Theorem stored_sessions_stay_bounded (hmac : string -> string -> string) key
    (ops : list Op) w :
  (forall sid s, sessions (server w) !! sid = Some s ->
     (length (messages s) <= 10)%nat) ->
  forall sid s, sessions (server (run hmac key w ops)) !! sid = Some s ->
    (length (messages s) <= 10)%nat.
Proof.
  revert w. induction ops as [|op ops IH]; intros w Hw; [exact Hw|].
  cbn [run fold_left]. apply IH. clear IH. intros sid s.
  destruct op as [env req|env req]; cbn [step server].
  - destruct (chatMessage_sessions env req (server w))
      as [->|[->|(resp & _ & _ & _ & ->)]].
    + apply Hw.
    + unfold bumpStored.
      destruct (sessions (server w) !! req_sessionId req) as [s0|] eqn:E;
        [|apply Hw].
      destruct (decide (req_sessionId req = sid)) as [<-|Hne].
      * rewrite lookup_insert_eq. intros [= <-]. by apply (Hw _ _ E).
      * rewrite lookup_insert_ne by done. apply Hw.
    + destruct (decide (req_sessionId req = sid)) as [<-|Hne].
      * rewrite lookup_insert_eq. intros [= <-].
        rewrite messages_exchange. apply slice_last_length.
      * rewrite lookup_insert_ne by done. apply Hw.
  - rewrite paymentVerify_sessions. apply Hw.
Qed.

Lemma stored_sessions_stay_bounded_witness :
  match sessions (server (run sampleDigest "secret" world1
          [OpMessage (envOk 1 "ok") overviewAsk;
           OpMessage (envOk 2 "ok") overviewAsk])) !! "s1" with
  | Some s => (length (messages s) <= 10)%nat
  | None => True
  end.
Proof.
  assert (forall sid s, sessions (server world1) !! sid = Some s ->
            (length (messages s) <= 10)%nat) as H0
    by (intros sid s H; vm_compute in H; discriminate).
  pose proof (stored_sessions_stay_bounded sampleDigest "secret"
                [OpMessage (envOk 1 "ok") overviewAsk;
                 OpMessage (envOk 2 "ok") overviewAsk] world1 H0 "s1") as H.
  destruct (sessions _ !! "s1") as [s|]; [by apply H|exact I].
Defined.

(* ===================================================================== *)
(** * More on the cache and the classifier *)
(* ===================================================================== *)

(** X9.  A fetched entry is served for one hour.  After a successful
    refresh at one time, a lookup of the same key at a time not more than
    3600000 ms later asks no one and returns the very entry, payload and
    time stamp, whatever the provider would answer; a lookup later than that
    asks the provider again and, on success, stores and returns the new
    payload under the new time. *)
Theorem cached_entry_served_for_an_hour env env' user key endpoints
    (cache : gmap string CacheEntry) payload :
  fetchAstrologyData env (birthData user) endpoints = inl payload ->
  needsFresh env key cache ->
  let r1 := resolveAstroData env user key endpoints cache in
  let r2 := resolveAstroData env' user key endpoints r1.1.2 in
  data r1.1.1 = payload /\ timestamp r1.1.1 = fetchedAt env /\
  r1.1.2 !! key = Some r1.1.1 /\
  (now env' - fetchedAt env <= 3600000 ->
   r2.1.1 = r1.1.1 /\ r2.1.2 = r1.1.2 /\ r2.2 = []) /\
  (3600000 < now env' - fetchedAt env ->
   r2.2 = [CallFetch (birthData user) endpoints] /\
   forall payload',
     fetchAstrologyData env' (birthData user) endpoints = inl payload' ->
     data r2.1.1 = payload' /\ timestamp r2.1.1 = fetchedAt env' /\
     r2.1.2 !! key = Some r2.1.1).
Proof.
  intros Hf Hn r1 r2. injection Hf as <-.
  subst r2 r1. rewrite (resolveAstroData_fetch _ _ _ _ _ Hn).
  cbn [fst snd data timestamp].
  rewrite lookup_insert_eq. split; [done|]. split; [done|]. split; [done|].
  split.
  - intros Hle. rewrite (resolveAstroData_hit env' user key endpoints _ _
                           (lookup_insert_eq _ _ _)); [done|exact Hle].
  - intros Hgt. rewrite resolveAstroData_fetch.
    + cbn [fst snd data timestamp]. split; [done|].
      intros payload' [= <-]. by rewrite lookup_insert_eq.
    + unfold needsFresh. rewrite lookup_insert_eq. exact Hgt.
Qed.

Lemma cached_entry_served_for_an_hour_witness :
  let r1 := resolveAstroData (envOk 5 "a") asha "u1_k" ["k"] ∅ in
  let r2 := resolveAstroData (envProviderDown 365 "b") asha "u1_k" ["k"]
              r1.1.2 in
  r2.1.1 = r1.1.1 /\ r2.1.2 = r1.1.2 /\ r2.2 = [].
Proof.
  assert (needsFresh (envOk 5 "a") "u1_k" ∅) as Hn by exact I.
  destruct (cached_entry_served_for_an_hour (envOk 5 "a")
              (envProviderDown 365 "b") asha "u1_k" ["k"] ∅
              [("k", Data "{}")] eq_refl Hn)
    as (_ & _ & _ & Hin & _).
  apply Hin. vm_compute. discriminate.
Defined.

Lemma intents_apis : forall e, e ∈ intents -> apisOf (i_name e) = defaultApis.
Proof.
  assert (forallb (fun e => bool_decide (apisOf (i_name e) = defaultApis))
            intents = true) as H by reflexivity.
  intros e He. rewrite forallb_forall in H.
  apply list_elem_of_In in He. specialize (H e He).
  by apply bool_decide_eq_true in H.
Qed.


(** What the second loop returns: the start, or an entry of the table with
    its confidence. *)
Lemma classify_result query :
  isOverviewRequest (toLowerCase query) = false ->
  (intent (classifyUserQuery query) = "general" /\
   confidence (classifyUserQuery query) = 0%Q) \/
  exists e, e ∈ intents /\ intent (classifyUserQuery query) = i_name e /\
    confidence (classifyUserQuery query) =
      intentConfidence query (toLowerCase query) (i_keywords e).
Proof.
  intros Hno. unfold classifyUserQuery. rewrite Hno.
  pose proof (pickBest_fold query intents "general" 0%Q) as H.
  cbv zeta in H. destruct (fold_left _ intents _) as [b h].
  cbn [intent confidence].
  destruct H as [[_ E]|(i & e & Hi & E & _)]; injection E as -> ->.
  - by left.
  - right. exists e. split; [by eapply list_elem_of_lookup_2|done].
Qed.

Lemma classify_apis query : apis (classifyUserQuery query) = defaultApis.
Proof.
  destruct (isOverviewRequest (toLowerCase query)) eqn:Hno.
  - unfold classifyUserQuery. by rewrite Hno.
  - pose proof (classify_result query Hno) as H.
    assert (apis (classifyUserQuery query) =
            apisOf (intent (classifyUserQuery query))) as ->.
    { unfold classifyUserQuery. rewrite Hno.
      by destruct (fold_left _ intents _). }
    destruct H as [[-> _]|(e & He & -> & _)]; [done|by apply intents_apis].
Qed.

(** X10.  The cache key of a user does not depend on the message: every
    classification asks for the same two endpoints, so all messages of a
    user share one cache entry. *)
Theorem cache_key_per_user userId message :
  cacheKeyOf userId (classifyUserQuery message) =
    userId +:+ "_planetary-positions_basic-astro-details" /\
  forall message',
    cacheKeyOf userId (classifyUserQuery message') =
    cacheKeyOf userId (classifyUserQuery message).
Proof.
  unfold cacheKeyOf. rewrite classify_apis. split; [done|].
  intros message'. by rewrite classify_apis.
Qed.




(* ===================================================================== *)
(** * More on PaymentService *)
(* ===================================================================== *)

Lemma validPayment_sample : validPayment sampleDigest "secret" payment1.
Proof. repeat split. Qed.

Lemma verifyPayment_valid (hmac : string -> string -> string) key env
    (pd : PaymentData) ps order :
  validPayment hmac key pd ->
  orders ps !! razorpay_order_id pd = Some order ->
  verifyPayment hmac key env pd ps =
    (inl {| v_payment := recordOf env pd order;
            v_order := markPaid (razorpay_payment_id pd) order |},
     {| orders := <[razorpay_order_id pd :=
                      markPaid (razorpay_payment_id pd) order]> (orders ps);
        payments := <[razorpay_payment_id pd := recordOf env pd order]>
                      (payments ps) |}).
Proof.
  intros (Ho & Hp & Hs & Hsig) Hget. unfold verifyPayment, verifyPaymentBody.
  rewrite Ho, Hp, Hs, Hget. cbn [negb orb]. unfold generatedSignature.
  rewrite <- Hsig, String.eqb_refl. reflexivity.
Qed.

(** X12.  A verification that fails changes nothing, and says why: a
    request with an empty field fails with "Missing payment verification
    data" before the order is looked up; with the fields there, an order
    that is not known fails with "Order not found" before the signature is
    computed. *)
Theorem failed_verification_changes_nothing (hmac : string -> string -> string)
    key env (pd : PaymentData) ps :
  let r := verifyPayment hmac key env pd ps in
  (isOk r.1 = false -> r.2 = ps) /\
  (truthy (razorpay_order_id pd) && truthy (razorpay_payment_id pd) &&
   truthy (razorpay_signature pd) = false ->
   r = (inr "Payment verification failed: Missing payment verification data",
        ps)) /\
  (truthy (razorpay_order_id pd) && truthy (razorpay_payment_id pd) &&
   truthy (razorpay_signature pd) = true ->
   orders ps !! razorpay_order_id pd = None ->
   r = (inr "Payment verification failed: Order not found", ps)).
Proof.
  intros r. subst r. split; [|split].
  - destruct (verifyPayment_cases hmac key env pd ps)
      as [[msg ->]|(r & ps' & ->)]; [done|discriminate].
  - intros H. unfold verifyPayment, verifyPaymentBody.
    destruct (truthy (razorpay_order_id pd)),
      (truthy (razorpay_payment_id pd)), (truthy (razorpay_signature pd));
      try discriminate; reflexivity.
  - intros H Hget. unfold verifyPayment, verifyPaymentBody.
    apply andb_true_iff in H as [H H3]. apply andb_true_iff in H as [H1 H2].
    by rewrite H1, H2, H3, Hget.
Qed.

Lemma failed_verification_changes_nothing_witness :
  verifyPayment sampleDigest "secret" (envOk 4 "")
    {| razorpay_order_id := "order_9"; razorpay_payment_id := "pay_1";
       razorpay_signature := "x" |} payments1 =
  (inr "Payment verification failed: Order not found", payments1).
Proof.
  exact (proj2 (proj2 (failed_verification_changes_nothing sampleDigest
                         "secret" (envOk 4 "")
                         {| razorpay_order_id := "order_9";
                            razorpay_payment_id := "pay_1";
                            razorpay_signature := "x" |} payments1))
           eq_refl eq_refl).
Defined.

(** X13.  A reported failure is not final: after handlePaymentFailure has
    marked a known order failed, a verification with the valid signature
    still succeeds and marks the order paid; the error detail and the time
    of the failure stay on the order. *)
Theorem failed_order_can_still_be_paid (hmac : string -> string -> string) key
    env env' (pd : PaymentData) e ps order :
  validPayment hmac key pd ->
  orders ps !! razorpay_order_id pd = Some order ->
  let ps1 := (handlePaymentFailure env (razorpay_order_id pd) e ps).2 in
  let r := verifyPayment hmac key env' pd ps1 in
  (o_status <$> orders ps1 !! razorpay_order_id pd) = Some failed /\
  isOk r.1 = true /\
  exists o', orders r.2 !! razorpay_order_id pd = Some o' /\
    o_status o' = paid /\ o_paymentId o' = Some (razorpay_payment_id pd) /\
    o_error o' = Some e /\ o_failedAt o' = Some (nowISO env).
Proof.
  intros Hv Hget ps1 r.
  destruct (handlePaymentFailure_known env (razorpay_order_id pd) e ps order
              Hget) as [E1 _].
  assert (orders ps1 !! razorpay_order_id pd =
          Some (markFailed e (nowISO env) order)) as H1.
  { unfold ps1. rewrite E1. cbn [orders withOrders]. apply lookup_insert_eq. }
  split; [by rewrite H1|].
  subst r. rewrite (verifyPayment_valid hmac key env' pd ps1 _ Hv H1).
  cbn [fst snd isOk orders]. split; [done|].
  eexists. rewrite lookup_insert_eq. split; [reflexivity|]. done.
Qed.

Lemma failed_order_can_still_be_paid_witness :
  let ps1 := (handlePaymentFailure (envOk 3 "") "order_1"
                (ErrObject (Some "card declined")) payments1).2 in
  isOk (verifyPayment sampleDigest "secret" (envOk 4 "") payment1 ps1).1 = true.
Proof.
  exact (proj1 (proj2 (failed_order_can_still_be_paid sampleDigest "secret"
                         (envOk 3 "") (envOk 4 "") payment1
                         (ErrObject (Some "card declined")) payments1 order1
                         validPayment_sample eq_refl))).
Defined.

(** X14.  Nothing protects a paid order: a failure reported after a
    successful verification marks the order failed, while the payment
    record stays as captured and the order keeps its paymentId, so that the
    status shown is a failed order with a captured payment. *)
Theorem paid_order_can_be_marked_failed (hmac : string -> string -> string) key
    env env' (pd : PaymentData) e ps order :
  validPayment hmac key pd ->
  orders ps !! razorpay_order_id pd = Some order ->
  let ps1 := (verifyPayment hmac key env pd ps).2 in
  let ps2 := (handlePaymentFailure env' (razorpay_order_id pd) e ps1).2 in
  (sv_status <$> getPaymentStatus (razorpay_order_id pd) ps1) = Some paid /\
  payments ps2 = payments ps1 /\
  exists view, getPaymentStatus (razorpay_order_id pd) ps2 = Some view /\
    sv_status view = failed /\
    (pv_id <$> sv_payment view) = Some (razorpay_payment_id pd) /\
    (pv_status <$> sv_payment view) = Some "captured".
Proof.
  intros Hv Hget ps1 ps2.
  pose proof (verifyPayment_valid hmac key env pd ps order Hv Hget) as E1.
  destruct Hv as (_ & Hp & _).
  assert (orders ps1 !! razorpay_order_id pd =
          Some (markPaid (razorpay_payment_id pd) order)) as H1.
  { unfold ps1. rewrite E1. cbn [snd orders]. apply lookup_insert_eq. }
  assert (payments ps1 !! razorpay_payment_id pd = Some (recordOf env pd order))
    as H1p.
  { unfold ps1. rewrite E1. cbn [snd payments]. apply lookup_insert_eq. }
  split.
  { unfold getPaymentStatus. by rewrite H1. }
  destruct (handlePaymentFailure_known env' (razorpay_order_id pd) e ps1 _ H1)
    as [E2 _].
  fold ps2 in E2. rewrite E2. cbn [payments withOrders]. split; [done|].
  unfold getPaymentStatus. cbn [orders withOrders]. rewrite lookup_insert_eq.
  cbn [o_paymentId markFailed markPaid payments withOrders].
  rewrite Hp, H1p. eexists. split; [reflexivity|]. done.
Qed.

Lemma paid_order_can_be_marked_failed_witness :
  let ps1 := (verifyPayment sampleDigest "secret" (envOk 4 "") payment1
                payments1).2 in
  let ps2 := (handlePaymentFailure (envOk 5 "") "order_1"
                (ErrObject (Some "late report")) ps1).2 in
  exists view, getPaymentStatus "order_1" ps2 = Some view /\
    sv_status view = failed /\
    (pv_id <$> sv_payment view) = Some "pay_1" /\
    (pv_status <$> sv_payment view) = Some "captured".
Proof.
  exact (proj2 (proj2 (paid_order_can_be_marked_failed sampleDigest "secret"
                         (envOk 4 "") (envOk 5 "") payment1
                         (ErrObject (Some "late report")) payments1 order1
                         validPayment_sample eq_refl))).
Defined.

Lemma paymentVerify_valid (hmac : string -> string -> string) key env
    (req : VerifyRequest) w (pd : PaymentData) order :
  vr_paymentData req = Some pd ->
  truthy (vr_userId req) = true ->
  validPayment hmac key pd ->
  orders (paymentService w) !! razorpay_order_id pd = Some order ->
  let r := {| v_payment := recordOf env pd order;
              v_order := markPaid (razorpay_payment_id pd) order |} in
  let u' := applyPlan env r
              (default defaultUsage
                 (userStates (server w) !! vr_userId req)) in
  paymentVerify hmac key env req w =
    (VerifyOk (v_payment r) (v_order r) (Some u'),
     {| server := withUserStates
                    (<[vr_userId req := u']> (userStates (server w)))
                    (server w);
        paymentService :=
          {| orders := <[razorpay_order_id pd := v_order r]>
                         (orders (paymentService w));
             payments := <[razorpay_payment_id pd := v_payment r]>
                           (payments (paymentService w)) |} |}).
Proof.
  intros Hpd Hu Hv Hget r u'. unfold paymentVerify. rewrite Hpd, Hu.
  cbn [negb]. rewrite (verifyPayment_valid hmac key env pd _ order Hv Hget).
  unfold mapGetOr, mutate, mapSet. subst u' r.
  destruct (userStates (server w) !! vr_userId req) as [u|];
    cbv beta iota zeta; cbn [obj_val obj_key from_option id];
    rewrite ?insert_insert_eq, lookup_insert_eq; reflexivity.
Qed.

(** X15.  What a verified payment grants, and to whom.  The user id of the
    request, whoever the order belongs to, becomes premium with the plan of
    the order: planType, remainingQuestions and paymentId are set, and
    totalQuestions is overwritten with the questions of the plan, whatever
    had been counted; freeQuestionsUsed and hasReceivedOverview are kept.
    Every other user, the order's owner too if that is someone else, is left
    as before. *)
Theorem verified_payment_grants_plan (hmac : string -> string -> string) key
    env (req : VerifyRequest) w (pd : PaymentData) order :
  vr_paymentData req = Some pd ->
  truthy (vr_userId req) = true ->
  validPayment hmac key pd ->
  orders (paymentService w) !! razorpay_order_id pd = Some order ->
  let u := default defaultUsage (userStates (server w) !! vr_userId req) in
  let w' := (paymentVerify hmac key env req w).2 in
  (exists u', userStates (server w') !! vr_userId req = Some u' /\
     isPremium u' = true /\
     planType u' = Some (o_planType order) /\
     totalQuestions u' = questions (o_plan order) /\
     remainingQuestions u' = Some (questions (o_plan order)) /\
     paymentId u' = Some (razorpay_payment_id pd) /\
     freeQuestionsUsed u' = freeQuestionsUsed u /\
     hasReceivedOverview u' = hasReceivedOverview u) /\
  (forall uid, uid <> vr_userId req ->
     userStates (server w') !! uid = userStates (server w) !! uid).
Proof.
  intros Hpd Hu Hv Hget u w'. subst w'.
  rewrite (paymentVerify_valid hmac key env req w pd order Hpd Hu Hv Hget).
  cbn [snd server userStates withUserStates]. split.
  - eexists. rewrite lookup_insert_eq. split; [reflexivity|]. done.
  - intros uid Hne. by rewrite lookup_insert_ne.
Qed.

Lemma verified_payment_grants_plan_witness :
  let w' := (paymentVerify sampleDigest "secret" (envOk 4 "")
               (verifyAs "someone-else") world1).2 in
  (exists u', userStates (server w') !! "someone-else" = Some u' /\
     isPremium u' = true /\ remainingQuestions u' = Some 10) /\
  userStates (server w') !! "u1" = userStates (server world1) !! "u1".
Proof.
  destruct (verified_payment_grants_plan sampleDigest "secret" (envOk 4 "")
              (verifyAs "someone-else") world1 payment1 order1
              eq_refl eq_refl validPayment_sample eq_refl)
    as ((u' & H1 & H2 & _ & _ & H3 & _) & Hother).
  split; [exists u'; by repeat split|].
  apply Hother. discriminate.
Defined.

(** X16.  Verifying the same payment again grants nothing more: the second
    verification succeeds like the first, the order and the set of payment
    records are as after the first, and the user's usage state differs from
    the one after the first at most in purchaseDate. *)
Theorem repeated_verification_grants_once (hmac : string -> string -> string)
    key env env' (req : VerifyRequest) w (pd : PaymentData) order :
  vr_paymentData req = Some pd ->
  truthy (vr_userId req) = true ->
  validPayment hmac key pd ->
  orders (paymentService w) !! razorpay_order_id pd = Some order ->
  let w1 := (paymentVerify hmac key env req w).2 in
  let r2 := paymentVerify hmac key env' req w1 in
  (exists p o u, r2.1 = VerifyOk p o (Some u)) /\
  orders (paymentService r2.2) = orders (paymentService w1) /\
  dom (payments (paymentService r2.2)) = dom (payments (paymentService w1)) /\
  exists u1 u2, userStates (server w1) !! vr_userId req = Some u1 /\
    userStates (server r2.2) !! vr_userId req = Some u2 /\
    freeQuestionsUsed u2 = freeQuestionsUsed u1 /\
    totalQuestions u2 = totalQuestions u1 /\
    hasReceivedOverview u2 = hasReceivedOverview u1 /\
    entitlement u2 =
      (true, planType u1, remainingQuestions u1, Some (nowISO env'),
       paymentId u1).
Proof.
  intros Hpd Hu Hv Hget w1 r2. subst r2.
  pose proof (paymentVerify_valid hmac key env req w pd order Hpd Hu Hv Hget)
    as E1. cbv zeta in E1.
  assert (orders (paymentService w1) !! razorpay_order_id pd =
          Some (markPaid (razorpay_payment_id pd) order)) as Hget1.
  { unfold w1. rewrite E1. cbn [snd paymentService orders].
    apply lookup_insert_eq. }
  rewrite (paymentVerify_valid hmac key env' req w1 pd _ Hpd Hu Hv Hget1).
  cbn [fst snd server paymentService orders payments userStates
       withUserStates].
  split; [by eexists _, _, _|].
  unfold w1. rewrite E1.
  cbn [snd server paymentService orders payments userStates withUserStates].
  rewrite !insert_insert_eq, !lookup_insert_eq. cbn [from_option id].
  split; [done|]. split; [by rewrite !dom_insert_L|].
  by eexists _, _.
Qed.

Lemma repeated_verification_grants_once_witness :
  let w1 := (paymentVerify sampleDigest "secret" (envOk 4 "")
               (verifyAs "u1") world1).2 in
  let r2 := paymentVerify sampleDigest "secret" (envOk 9 "") (verifyAs "u1")
              w1 in
  orders (paymentService r2.2) = orders (paymentService w1) /\
  dom (payments (paymentService r2.2)) = dom (payments (paymentService w1)).
Proof.
  destruct (repeated_verification_grants_once sampleDigest "secret"
              (envOk 4 "") (envOk 9 "") (verifyAs "u1") world1 payment1 order1
              eq_refl eq_refl validPayment_sample eq_refl)
    as (_ & H1 & H2 & _).
  split; [exact H1|exact H2].
Defined.

(** X17.  The failure route.  Without an order id it answers 400 and
    changes nothing.  With one, and an errorData that has properties, it
    reports the failure back whether the order is known or not; it never
    touches the payment records or any other order, and a report for an
    order that is not known changes nothing at all. *)
Theorem failure_route_effects env orderId e ps :
  let r := paymentFailure env orderId e ps in
  (truthy orderId = false ->
   r = (FailureBadRequest "Order ID is required", ps)) /\
  (truthy orderId = true -> e <> ErrUndefined -> e <> ErrNull ->
   r.1 = FailureReported "Payment failed. Please try again." e) /\
  payments r.2 = payments ps /\
  (forall other, other <> orderId ->
     orders r.2 !! other = orders ps !! other) /\
  (orders ps !! orderId = None -> r.2 = ps).
Proof.
  intros r. subst r. unfold paymentFailure.
  destruct (truthy orderId); cbn [negb].
  2: { repeat split; try done. }
  unfold handlePaymentFailure.
  destruct (orders ps !! orderId) as [o|] eqn:Ho, e;
    cbn [readDescription fst snd payments orders withOrders f_message f_error];
    (split; [done|]); (split; [by intros _ H1 H2|]); (split; [done|]);
    (split; [|done]); intros other Hne; by rewrite ?lookup_insert_ne.
Qed.

(* ===================================================================== *)
(** * Creating an order *)
(* ===================================================================== *)

(** The plans that the route lets through are the entries of the table. *)
Lemma validPlans_own planType :
  planType ∈ validPlans ->
  exists plan, property plans planType = Own plan /\ (planType, plan) ∈ plans.
Proof.
  unfold validPlans. rewrite !elem_of_cons, elem_of_nil.
  intros [->|[->|[->|[->|[]]]]]; eexists; (split; [reflexivity|]);
    apply list_elem_of_In; cbn; tauto.
Qed.

(** X18.  The create-order route always answers, and stores an order only
    with a 200.  A 400 or a 500 leaves orders and payments as they were,
    and a 400 is given without asking the gateway.  With a 200 the gateway
    was asked once, for the price of the plan times 100 in INR; the plan is
    the entry of the table for the plan type; and the order is stored under
    the gateway's id as created, for the user, with that plan and the amount
    the gateway returned, every other order and the payments being as
    before. *)
Theorem create_order_route_outcomes env (gateway : Gateway) keyId
    (req : CreateOrderRequest) ps :
  exists resp ps' sent,
    createOrderRoute env gateway keyId req ps = Some (resp, ps', sent) /\
    (length sent <= 1)%nat /\
    match resp with
    | CreateBadRequest _ => ps' = ps /\ sent = []
    | CreateError _ => ps' = ps
    | CreateOk view =>
        exists plan greq gorder,
          (co_planType req, plan) ∈ plans /\
          sent = [greq] /\ gateway greq = inl gorder /\
          gr_amount greq = Some (price plan * 100) /\
          gr_currency greq = "INR" /\
          ov_id view = g_id gorder /\ ov_questions view = questions plan /\
          payments ps' = payments ps /\
          orders ps' =
            <[g_id gorder :=
                {| o_id := g_id gorder; o_amount := g_amount gorder;
                   o_currency := g_currency gorder;
                   o_userId := co_userId req;
                   o_planType := co_planType req; o_plan := plan;
                   o_status := created; o_paymentId := None;
                   o_error := None; o_failedAt := None |}]> (orders ps)
    end.
Proof.
  unfold createOrderRoute.
  destruct (negb (truthy (co_userId req)) || negb (truthy (co_planType req))).
  { eexists _, _, _. split; [reflexivity|]. cbn. split; [lia|done]. }
  destruct (bool_decide (co_planType req ∈ validPlans)) eqn:Hv; cbn [negb].
  2: { eexists _, _, _. split; [reflexivity|]. cbn. split; [lia|done]. }
  apply bool_decide_eq_true in Hv.
  destruct (validPlans_own _ Hv) as (plan & Hown & Hin).
  assert (forall d, exists resp ps' sent,
            match createOrder env gateway keyId (co_userId req)
                    (co_planType req) (Details d) ps with
            | None => None
            | Some (inl order, ps', sent) => Some (CreateOk order, ps', sent)
            | Some (inr _, ps', sent) =>
                Some (CreateError "Failed to create payment order", ps', sent)
            end = Some (resp, ps', sent) /\
            (length sent <= 1)%nat /\
            match resp with
            | CreateBadRequest _ => ps' = ps /\ sent = []
            | CreateError _ => ps' = ps
            | CreateOk view =>
                exists plan greq gorder,
                  (co_planType req, plan) ∈ plans /\
                  sent = [greq] /\ gateway greq = inl gorder /\
                  gr_amount greq = Some (price plan * 100) /\
                  gr_currency greq = "INR" /\
                  ov_id view = g_id gorder /\
                  ov_questions view = questions plan /\
                  payments ps' = payments ps /\
                  orders ps' =
                    <[g_id gorder :=
                        {| o_id := g_id gorder; o_amount := g_amount gorder;
                           o_currency := g_currency gorder;
                           o_userId := co_userId req;
                           o_planType := co_planType req; o_plan := plan;
                           o_status := created; o_paymentId := None;
                           o_error := None; o_failedAt := None |}]> (orders ps)
            end) as Hd.
  { intros d. unfold createOrder. rewrite Hown.
    match goal with |- context [gateway ?r] =>
      destruct (gateway r) as [gorder|err] eqn:Hg end.
    - eexists _, _, _. split; [reflexivity|]. cbn [length]. split; [lia|].
      eexists plan, _, gorder. split; [exact Hin|]. split; [reflexivity|].
      split; [exact Hg|]. done.
    - eexists _, _, _. split; [reflexivity|]. cbn [length]. split; [lia|done]. }
  destruct (co_userDetails req) as [| |d].
  - apply Hd.
  - eexists _, _, _. split; [reflexivity|]. cbn. split; [lia|done].
  - apply Hd.
Qed.

Lemma createOrderRoute_ok env (gateway : Gateway) keyId
    (req : CreateOrderRequest) ps view ps' sent :
  createOrderRoute env gateway keyId req ps = Some (CreateOk view, ps', sent) ->
  exists plan order,
    property plans (co_planType req) = Own plan /\
    orders ps' !! ov_id view = Some order /\
    o_plan order = plan /\ o_planType order = co_planType req /\
    o_status order = created.
Proof.
  unfold createOrderRoute.
  destruct (negb _ || negb _); [discriminate|].
  destruct (bool_decide (co_planType req ∈ validPlans)) eqn:Hv; cbn [negb];
    [|discriminate].
  apply bool_decide_eq_true in Hv.
  destruct (validPlans_own _ Hv) as (plan & Hown & _).
  assert (forall d,
            match createOrder env gateway keyId (co_userId req)
                    (co_planType req) (Details d) ps with
            | None => None
            | Some (inl order, ps', sent) => Some (CreateOk order, ps', sent)
            | Some (inr _, ps', sent) =>
                Some (CreateError "Failed to create payment order", ps', sent)
            end = Some (CreateOk view, ps', sent) ->
            exists plan order,
              property plans (co_planType req) = Own plan /\
              orders ps' !! ov_id view = Some order /\
              o_plan order = plan /\ o_planType order = co_planType req /\
              o_status order = created) as Hd.
  { intros d. unfold createOrder. rewrite Hown.
    match goal with |- context [gateway ?r] =>
      destruct (gateway r) as [gorder|err] end; [|discriminate].
    intros [= <- <- <-]. eexists plan, _. split; [done|].
    cbn [ov_id orders withOrders]. rewrite lookup_insert_eq.
    split; [reflexivity|]. done. }
  destruct (co_userDetails req) as [| |d]; [apply Hd|discriminate|apply Hd].
Qed.

(** X19.  From order to entitlement.  When the create-order route has
    answered 200 for a plan type, a verification with a valid signature for
    the order it returned makes the verifying user premium with exactly the
    questions of that plan in the table (5, 10, 20, or 0 for the report
    plan) as remainingQuestions. *)
Theorem created_order_grants_its_plan (hmac : string -> string -> string) key
    env env' (gateway : Gateway) keyId (req : CreateOrderRequest)
    (vreq : VerifyRequest) (pd : PaymentData) (srv : Server)
    ps view ps' sent :
  createOrderRoute env gateway keyId req ps = Some (CreateOk view, ps', sent) ->
  vr_paymentData vreq = Some pd ->
  truthy (vr_userId vreq) = true ->
  razorpay_order_id pd = ov_id view ->
  validPayment hmac key pd ->
  let w' := (paymentVerify hmac key env' vreq
               {| server := srv; paymentService := ps' |}).2 in
  exists plan u',
    (co_planType req, plan) ∈ plans /\
    userStates (server w') !! vr_userId vreq = Some u' /\
    isPremium u' = true /\
    planType u' = Some (co_planType req) /\
    remainingQuestions u' = Some (questions plan) /\
    (o_status <$> orders (paymentService w') !! ov_id view) = Some paid.
Proof.
  intros Hc Hpd Hu Hid Hv w'.
  destruct (createOrderRoute_ok _ _ _ _ _ _ _ _ Hc)
    as (plan & order & Hown & Hget & Hplan & Htype & _).
  assert ((co_planType req, plan) ∈ plans) as Hin.
  { revert Hown. unfold property.
    destruct (List.find _ plans) as [[k p]|] eqn:Hf;
      [|by destruct (bool_decide _)].
    intros [= <-]. apply find_some in Hf as [Hin Hk]. cbn in Hk.
    apply String.eqb_eq in Hk as ->. by apply list_elem_of_In. }
  rewrite <- Hid in Hget.
  pose proof (paymentVerify_valid hmac key env' vreq
                {| server := srv; paymentService := ps' |} pd order
                Hpd Hu Hv Hget) as E.
  cbv zeta in E. subst w'. rewrite E.
  cbn [snd server paymentService userStates withUserStates orders].
  eexists plan, _. split; [exact Hin|]. rewrite lookup_insert_eq.
  split; [reflexivity|]. rewrite <- Hid, lookup_insert_eq.
  cbn. by rewrite Hplan, Htype.
Qed.

Lemma created_order_grants_its_plan_witness :
  let created := createOrderRoute (envOk 1 "") sampleGateway "rzp_test"
                   buyPremium {| orders := ∅; payments := ∅ |} in
  let pd := {| razorpay_order_id := "order_u1";
               razorpay_payment_id := "pay_7";
               razorpay_signature := sampleDigest "secret" "order_u1|pay_7" |} in
  exists view ps' sent, created = Some (CreateOk view, ps', sent) /\
    exists plan u',
      ("premium", plan) ∈ plans /\
      userStates (server (paymentVerify sampleDigest "secret" (envOk 2 "")
                            {| vr_paymentData := Some pd; vr_userId := "u1" |}
                            {| server := server1; paymentService := ps' |}).2)
        !! "u1" = Some u' /\
      isPremium u' = true /\ planType u' = Some "premium" /\
      remainingQuestions u' = Some (questions plan).
Proof.
  intros created pd. eexists _, _, _. split; [reflexivity|].
  edestruct (created_order_grants_its_plan sampleDigest "secret" (envOk 1 "")
               (envOk 2 "") sampleGateway "rzp_test" buyPremium
               {| vr_paymentData := Some pd; vr_userId := "u1" |} pd server1)
    as (plan & u' & H1 & H2 & H3 & H4 & H5 & _);
    [reflexivity|reflexivity|reflexivity|reflexivity|by repeat split|].
  exists plan, u'. by repeat split.
Defined.

(* ===================================================================== *)
(** * Places and new users *)
(* ===================================================================== *)

Lemma toLowerChar_white c : isWhiteSpace c = true -> toLowerChar c = c.
Proof.
  unfold isWhiteSpace, toLowerChar. intros H. revert H.
  open_between; done.
Qed.

Lemma toLowerCase_white s : allWhite s = true -> toLowerCase s = s.
Proof.
  induction s as [|c s IH]; [done|]. cbn. intros H.
  apply andb_true_iff in H as [Hc Hs]. by rewrite toLowerChar_white, IH.
Qed.

Lemma trimStart_app_white pre s :
  allWhite pre = true -> trimStart (pre +:+ s) = trimStart s.
Proof.
  induction pre as [|c pre IH]; [done|]. cbn [allWhite]. intros H.
  apply andb_true_iff in H as [Hc Hs]. rewrite app_cons. cbn. by rewrite Hc, IH.
Qed.

Lemma trimEnd_white post : allWhite post = true -> trimEnd post = "".
Proof.
  induction post as [|c post IH]; [done|]. cbn. intros H.
  apply andb_true_iff in H as [Hc Hs]. by rewrite IH, Hc.
Qed.

Lemma trimEnd_app_white s post :
  allWhite post = true -> trimEnd (s +:+ post) = trimEnd s.
Proof.
  intros H. induction s as [|c s IH].
  - rewrite app_empty_l. by apply trimEnd_white.
  - rewrite app_cons. cbn. by rewrite IH.
Qed.

(** White space around a text that has none at its two ends is what trim
    takes away. *)
Lemma trim_padded pre c k post :
  allWhite pre = true -> allWhite post = true ->
  isWhiteSpace c = false -> trimEnd (String c k) = String c k ->
  trim (pre +:+ String c k +:+ post) = String c k.
Proof.
  intros Hpre Hpost Hc Hend. unfold trim.
  rewrite trimStart_app_white by done. rewrite app_cons.
  cbn [trimStart]. rewrite Hc, <- app_cons.
  by rewrite trimEnd_app_white.
Qed.

(** X20.  The fallback of getCoordinates knows its seven cities however
    they are written: when the geocoder gives nothing, a place that is the
    name of one of them in any mixture of capitals and small letters, with
    any white space before and after, is found with the coordinates of the
    table, in the time zone Asia/Kolkata. *)
Theorem fallback_finds_known_cities key c pre w post :
  (key, c) ∈ indianCityCoordinates ->
  allWhite pre = true -> allWhite post = true ->
  toLowerCase w = key ->
  getCoordinates GeoFailure (pre +:+ w +:+ post) = Found c /\
  timezone c = "Asia/Kolkata".
Proof.
  intros Hin Hpre Hpost Hw. unfold getCoordinates.
  rewrite !toLowerCase_app, Hw, (toLowerCase_white pre),
    (toLowerCase_white post) by done.
  unfold indianCityCoordinates in Hin.
  rewrite !elem_of_cons, elem_of_nil in Hin.
  destruct Hin as [E|[E|[E|[E|[E|[E|[E|[]]]]]]]]; injection E as -> ->;
    (rewrite trim_padded by done); split; reflexivity.
Qed.

Lemma fallback_finds_known_cities_witness :
  getCoordinates GeoFailure "  MumBAI " =
    Found (kolkataTime 190760 728777).
Proof.
  refine (proj1 (fallback_finds_known_cities "mumbai"
                   (kolkataTime 190760 728777) "  " "MumBAI" " " _
                   eq_refl eq_refl eq_refl)).
  apply list_elem_of_here.
Defined.

(** X21.  What the creation of a user does.  A request with a field
    missing, a gender outside male, female and other, or a date or time of
    the wrong shape is answered 400, and a place that cannot be located is
    answered 500: in all these cases nothing is stored.  Otherwise the user
    is stored under the generated id with the name and the place trimmed and
    the gender in small letters, together with a usage state of zero
    questions, not premium, no overview received; the session id is only
    handed out, no session is made; and every other user and usage state is
    as before. *)
Theorem user_creation_effects env (req : CreateUserRequest) w :
  let r := createUser env req w in
  match r.1.1 with
  | UserBadRequest _ _ | UserError _ => r.1.2 = w /\ r.2 = None
  | UserCreated id name gen _ _ sid =>
      id = ce_userId env /\ sid = ce_sessionId env /\
      name = trim (cu_fullName req) /\
      gen = toLowerCase (cu_gender req) /\ gen ∈ validGenders /\
      matchesPattern dateRegex (cu_birthDate req) = true /\
      matchesPattern timeRegex (cu_birthTime req) = true /\
      users r.1.2 !! id =
        Some {| fullName := name; gender := gen;
                birthData := {| birthDate := cu_birthDate req;
                                birthTime := cu_birthTime req;
                                birthPlace := trim (cu_birthPlace req) |} |} /\
      userStates r.1.2 !! id = Some defaultUsageChat /\
      sessions r.1.2 = sessions w /\ astroCache r.1.2 = astroCache w /\
      calls r.1.2 = calls w /\
      (forall uid, uid <> id ->
         users r.1.2 !! uid = users w !! uid /\
         userStates r.1.2 !! uid = userStates w !! uid)
  end.
Proof.
  intros r. subst r. unfold createUser.
  destruct (negb _ || negb _ || negb _ || negb _ || negb _); [done|].
  destruct (bool_decide (toLowerCase (cu_gender req) ∈ validGenders)) eqn:Hg;
    cbn [negb]; [|done].
  apply bool_decide_eq_true in Hg.
  destruct (matchesPattern dateRegex (cu_birthDate req)) eqn:Hd; cbn [negb];
    [|done].
  destruct (matchesPattern timeRegex (cu_birthTime req)) eqn:Ht; cbn [negb];
    [|done].
  destruct (getCoordinates (ce_geo env) (cu_birthPlace req)) as [c| |m];
    [| |done];
    cbn [fst snd users userStates sessions astroCache calls buildUser uo_id
         uo_fullName uo_gender userOf uo_birthDate uo_birthTime uo_birthPlace];
    rewrite !lookup_insert_eq; repeat split; try done;
    by rewrite lookup_insert_ne.
Qed.

Lemma user_created_state env (req : CreateUserRequest) w :
  match (createUser env req w).1.1 with
  | UserCreated id _ _ _ _ _ =>
      is_Some (users (createUser env req w).1.2 !! id) /\
      userStates (createUser env req w).1.2 !! id = Some defaultUsageChat
  | _ => True
  end.
Proof.
  unfold createUser.
  destruct (negb _ || negb _ || negb _ || negb _ || negb _); [done|].
  destruct (negb (bool_decide _)); [done|].
  destruct (negb (matchesPattern dateRegex _)); [done|].
  destruct (negb (matchesPattern timeRegex _)); [done|].
  destruct (getCoordinates _ _); [| |done];
    cbn [fst snd users userStates buildUser uo_id];
    rewrite !lookup_insert_eq; by eauto.
Qed.

(** X22.  A user who has just been created can ask at once: any valid
    message with the new id that the generation collaborator answers is
    answered 200, with freeQuestionsUsed 0 after a general-overview request
    and 1 after any other message. *)
Theorem new_user_can_ask env (req : CreateUserRequest) w w' id name gen
    c co sid o cenv (creq : ChatRequest) reply :
  createUser env req w = (UserCreated id name gen c co sid, w', Some o) ->
  req_userId creq = id ->
  validRequest creq ->
  genResult cenv = inl reply ->
  let overview :=
    isGeneralOverview (classifyUserQuery (trim (req_message creq))) in
  (chatMessage cenv creq w').1 =
    ChatOk reply (req_sessionId creq) (if overview then 0 else 1) false
      (Some overview) /\
  (freeQuestionsUsed <$> userStates (chatMessage cenv creq w').2 !! id) =
    Some (if overview then 0 else 1).
Proof.
  intros Hc Hid Hv Hg overview.
  pose proof (user_created_state env req w) as Hst.
  rewrite Hc in Hst. cbn [fst snd] in Hst.
  destruct Hst as (Hu & Hs). subst id.
  assert (blocked creq (default defaultUsageChat
            (userStates w' !! req_userId creq)) = false) as Hb.
  { rewrite Hs. unfold blocked. cbn. by rewrite andb_false_r. }
  rewrite (chatMessage_passed cenv creq w' Hv Hb). rewrite Hs.
  cbn [from_option id].
  set (w0 := withUserStates _ w').
  destruct Hu as [user Hu].
  assert (users w0 !! req_userId creq = Some user) as Hu0 by exact Hu.
  rewrite (processQuery_ok _ _ _ _ _ _ _ Hu0 Hg).
  cbn [fst snd userStates]. rewrite !lookup_insert_eq. cbn [from_option id].
  unfold usageAt, w0. cbn [userStates withUserStates].
  rewrite lookup_insert_eq. cbn [from_option id].
  unfold gated, firstOverview. fold overview. cbn.
  rewrite andb_true_r. by destruct overview.
Qed.

Lemma new_user_can_ask_witness :
  let w' := (createUser offlineEnv ashaRequest server1).1.2 in
  (chatMessage (envOk 9 "Welcome")
     {| req_userId := "u7"; req_sessionId := "s7";
        req_message := "Will I get a new job soon?" |} w').1 =
  ChatOk "Welcome" "s7" 1 false (Some false).
Proof.
  refine (proj1 (new_user_can_ask offlineEnv ashaRequest server1 _ _ _ _ _ _ _
                   _ (envOk 9 "Welcome")
                   {| req_userId := "u7"; req_sessionId := "s7";
                      req_message := "Will I get a new job soon?" |}
                   "Welcome" eq_refl eq_refl _ eq_refl)).
  unfold validRequest. vm_compute. repeat split; discriminate.
Defined.

(* ===================================================================== *)
(** * The history of a session *)
(* ===================================================================== *)

Lemma queryCount_exchange env msg resp s :
  queryCount (exchange env msg resp s) = queryCount s + 1.
Proof.
  unfold exchange, retain. by destruct (10 <? _).
Qed.

Lemma startTime_exchange env msg resp s :
  startTime (exchange env msg resp s) = startTime s.
Proof.
  unfold exchange, retain. by destruct (10 <? _).
Qed.

Lemma lastActivity_exchange env msg resp s :
  lastActivity (exchange env msg resp s) = Some (activityAt env).
Proof.
  unfold exchange, retain. by destruct (10 <? _).
Qed.

(** A 200 of the chat handler means that the generation collaborator
    answered and that the exchange was stored in the session named. *)
Lemma chatMessage_ok_sessions env (req : ChatRequest) w response sid fu p o :
  (chatMessage env req w).1 = ChatOk response sid fu p o ->
  genResult env = inl response /\ sid = req_sessionId req /\
  sessions (chatMessage env req w).2 =
    <[sid := exchange env (trim (req_message req)) response
               (default (newSession (startedAt env)) (sessions w !! sid))]>
      (sessions w).
Proof.
  destruct (decide (validRequest req)) as [Hv|Hn].
  2: { by destruct (chatMessage_invalid env req w Hn) as [m ->]. }
  destruct (blocked req (default defaultUsageChat
                           (userStates w !! req_userId req))) eqn:Hb.
  { by rewrite (chatMessage_blocked env req w Hv Hb). }
  rewrite (chatMessage_passed env req w Hv Hb).
  set (w0 := withUserStates _ w).
  destruct (users w0 !! req_userId req) as [user|] eqn:Hu.
  - destruct (genResult env) as [r|err] eqn:Hg.
    + rewrite (processQuery_ok _ _ _ _ _ _ _ Hu Hg). cbn [fst snd sessions].
      intros [= -> <- _ _ _]. done.
    + by rewrite (processQuery_fail _ _ _ _ _ _ _ Hu Hg).
  - by rewrite (processQuery_unknown _ _ _ _ _ Hu).
Qed.

(** X23.  The history shows the answer.  After a message that the chat
    handler answered 200, the session route finds the session whenever it
    is asked, and the last entry of its messages is this exchange: the
    trimmed message and the response sent, with the time that the handler
    read for the entry after the generation.  The view counts between 1 and
    10 messages, one query more than the session had before (1 when it is
    new), its last activity is the time that the handler read last, and its
    duration is the time since the session's start, which for a session
    that this message made is the time read at its beginning, before the
    fetch and the generation. *)
Theorem history_shows_the_answer env (req : ChatRequest) w response sid fu p o
    later :
  (chatMessage env req w).1 = ChatOk response sid fu p o ->
  exists view,
    getSession later sid (chatMessage env req w).2 = Some view /\
    last (sn_messages view) =
      Some (entryOf env (trim (req_message req)) response) /\
    (m_timestamp <$> last (sn_messages view)) = Some (answeredAt env) /\
    1 <= sn_messageCount view <= 10 /\
    sn_messageCount view = Z.of_nat (length (sn_messages view)) /\
    sn_queryCount view =
      match sessions w !! sid with
      | Some s => queryCount s + 1
      | None => 1
      end /\
    sn_lastActivity view = Some (activityAt env) /\
    sn_duration view =
      later - match sessions w !! sid with
              | Some s => startTime s
              | None => startedAt env
              end.
Proof.
  intros Hok. destruct (chatMessage_ok_sessions _ _ _ _ _ _ _ _ Hok)
    as (Hg & -> & Hs).
  unfold getSession. rewrite Hs, lookup_insert_eq. eexists. split; [done|].
  cbn [sn_messages sn_messageCount sn_queryCount sn_lastActivity sn_duration].
  rewrite messages_exchange, queryCount_exchange, startTime_exchange,
    lastActivity_exchange.
  split; [apply slice_last_snoc; lia|].
  split; [by rewrite slice_last_snoc by lia|].
  split.
  { pose proof (slice_last_length 10
                  (messages (default (newSession (startedAt env))
                               (sessions w !! req_sessionId req)) ++
                   [entryOf env (trim (req_message req)) response])) as Hle.
    pose proof (slice_last_snoc 10
                  (messages (default (newSession (startedAt env))
                               (sessions w !! req_sessionId req)))
                  (entryOf env (trim (req_message req)) response)) as Hl.
    destruct (slice_last 10 _) as [|e l] eqn:E.
    - by discriminate Hl; lia.
    - cbn [length] in *. lia. }
  split; [done|].
  by destruct (sessions w !! req_sessionId req).
Qed.

Lemma history_shows_the_answer_witness :
  exists view,
    getSession 100000 "s1"
      (chatMessage (envOk 9 "Soon.") overviewAsk server1).2 = Some view /\
    last (sn_messages view) =
      Some (entryOf (envOk 9 "Soon.") (trim (req_message overviewAsk))
              "Soon.") /\
    (m_timestamp <$> last (sn_messages view)) = Some 92300 /\
    sn_lastActivity view = Some 92300 /\
    sn_duration view = 100000 - 90000.
Proof.
  destruct (history_shows_the_answer (envOk 9 "Soon.") overviewAsk server1
              "Soon." "s1" 0 false (Some true) 100000)
    as (view & H1 & H2 & H3 & _ & _ & _ & H4 & H5).
  - reflexivity.
  - exists view. split; [exact H1|]. split; [exact H2|]. split; [exact H3|].
    split; [exact H4|exact H5].
Defined.

(** X24.  A session's queryCount never falls behind its messages: if every
    stored session counts at least as many queries as it holds messages at
    the start, so it does after every sequence of chat and verify requests.
    The count runs ahead when a generation fails, which raises it without a
    message, and when the list is cut to its last ten. *)
Theorem query_count_covers_messages (hmac : string -> string -> string) key
    (ops : list Op) w :
  (forall sid s, sessions (server w) !! sid = Some s ->
     Z.of_nat (length (messages s)) <= queryCount s) ->
  forall sid s, sessions (server (run hmac key w ops)) !! sid = Some s ->
    Z.of_nat (length (messages s)) <= queryCount s.
Proof.
  revert w. induction ops as [|op ops IH]; intros w Hw; [exact Hw|].
  cbn [run fold_left]. apply IH. clear IH. intros sid s.
  destruct op as [env req|env req]; cbn [step server].
  - destruct (chatMessage_sessions env req (server w))
      as [->|[->|(resp & _ & _ & _ & ->)]].
    + apply Hw.
    + unfold bumpStored.
      destruct (sessions (server w) !! req_sessionId req) as [s0|] eqn:E;
        [|apply Hw].
      destruct (decide (req_sessionId req = sid)) as [<-|Hne].
      * rewrite lookup_insert_eq. intros [= <-]. cbn.
        specialize (Hw _ _ E). lia.
      * rewrite lookup_insert_ne by done. apply Hw.
    + destruct (decide (req_sessionId req = sid)) as [<-|Hne].
      * rewrite lookup_insert_eq. intros [= <-].
        rewrite messages_exchange, queryCount_exchange.
        pose proof (slice_last_shorter 10
                      (messages (default (newSession (startedAt env))
                                   (sessions (server w) !! req_sessionId req))
                       ++ [entryOf env (trim (req_message req)) resp])) as Hle.
        rewrite length_app in Hle. cbn [length] in Hle.
        destruct (sessions (server w) !! req_sessionId req) as [s0|] eqn:E;
          cbn [from_option id newSession messages queryCount length] in *.
        -- specialize (Hw _ _ E). lia.
        -- lia.
      * rewrite lookup_insert_ne by done. apply Hw.
  - rewrite paymentVerify_sessions. apply Hw.
Qed.

Lemma query_count_covers_messages_witness :
  match sessions (server (run sampleDigest "secret" world1
          [OpMessage (envGenFails 1) overviewAsk;
           OpMessage (envOk 2 "ok") overviewAsk])) !! "s1" with
  | Some s => Z.of_nat (length (messages s)) <= queryCount s
  | None => True
  end.
Proof.
  assert (forall sid s, sessions (server world1) !! sid = Some s ->
            Z.of_nat (length (messages s)) <= queryCount s) as H0
    by (intros sid s H; vm_compute in H; discriminate).
  pose proof (query_count_covers_messages sampleDigest "secret"
                [OpMessage (envGenFails 1) overviewAsk;
                 OpMessage (envOk 2 "ok") overviewAsk] world1 H0 "s1") as H.
  destruct (sessions _ !! "s1") as [s|]; [by apply H|exact I].
Defined.
